(** * SpoolSense: the inventory reconciliation engine

    A shallow embedding of the stock-changing request handlers of the
    SpoolSense backend (backend/app/routers/{print_jobs,orders,
    product_on_hand}.py), of the spool validator
    (backend/app/services/spool_validator.py) and of the cost calculator
    (backend/app/services/cost_calculator.py), together with the
    properties of the specification that concern them.

    Conventions of the model.

    - Python [int] is [Z].  Python [float] (SQL [Float]) is binary64.
      A float is kept as the rational it stands for, in [Qc], and every
      sum, difference, product and quotient that the handlers and the
      cost calculator compute is rounded to the nearest binary64 number,
      ties to even ([fl]); [round(x, n)] is the nearest decimal of [n]
      places, ties to even, read back as a float.  Infinities, NaN and
      the sign of zero are outside the model: a magnitude of [2^1024]
      and more is kept as it is.  The validator stores nothing and only
      compares; its two differences are read as exact numbers.
    - A table is a [gmap] from the primary key to the row.  Child rows of
      a relationship declared [cascade="all, delete-orphan"]
      (print_job_spools, order_spools, order_hardware, project hardware)
      are kept inside the parent row, in the order the ORM loads them.
    - A handler is a computation in the [Session] monad: it reads and
      writes the rows of a SQLAlchemy session and may raise.  [request]
      gives the state the database is left in: the handler's state when
      it returned (every handler commits last), the initial state when it
      raised (nothing was committed).
    - Columns that no modelled branch reads and that carry free text
      (names, notes, customer fields, URLs, timestamps) are left out,
      except where a handler copies them. *)

From Stdlib Require Import ZArith QArith Qcanon Qround Qabs Qpower Lqa Lia String List.
From stdpp Require Import base tactics option numbers list gmap strings sorting.
Import ListNotations.

Local Close Scope string_scope.
Local Open Scope Z_scope.

(** ** Numbers *)

(** Python's [max(0.0, x)]: the second argument wins only when it is
    strictly greater than the first. *)
Definition max0 (x : Qc) : Qc := if bool_decide (0 < x)%Qc then x else 0%Qc.

(** The nearest integer, ties to the even one. *)
Definition round_half_even (q : Q) : Z :=
  let f := Qfloor q in
  match Qcompare (q - inject_Z f) (1 # 2) with
  | Lt => f
  | Gt => f + 1
  | Eq => if Z.even f then f else f + 1
  end.

(** *** binary64 *)

Definition pow2 (k : Z) : Q := Qpower 2 k.

(** The exponent of a number that is not zero: [2^e ≤ |q| < 2^(e+1)]. *)
Definition ilog2 (q : Q) : Z :=
  let e := Z.log2 (Z.abs (Qnum q)) - Z.log2 (Z.pos (Qden q)) in
  if Qle_bool (pow2 e) (Qabs q) then e else e - 1.

(** The nearest binary64 number, ties to even: 53 significant bits, and
    no bit below [2^-1074]. *)
Definition fl (x : Qc) : Qc :=
  if Qeq_bool (this x) 0 then 0%Qc
  else
    let ulp := pow2 (Z.max (ilog2 (this x) - 52) (-1074)) in
    Q2Qc (inject_Z (round_half_even (this x / ulp)) * ulp).

(** The four operations on floats, and the conversions: a literal of
    the code, and [float(n)] for an [int] that meets a float. *)
Definition float_add (x y : Qc) : Qc := fl (x + y).
Definition float_sub (x y : Qc) : Qc := fl (x - y).
Definition float_mul (x y : Qc) : Qc := fl (x * y).
Definition float_div (x y : Qc) : Qc := fl (x / y).
Definition double (q : Q) : Qc := fl (Q2Qc q).
Definition float_of_int (n : Z) : Qc := fl (Qc_of_Z n).

Infix "⊕" := float_add (at level 50, left associativity).
Infix "⊖" := float_sub (at level 50, left associativity).
Infix "⊗" := float_mul (at level 40, left associativity).
Infix "⊘" := float_div (at level 40, left associativity).

(** [round(x, ndigits)] on a float: the decimal of [ndigits] places
    nearest to the number the float stands for, ties to even, and then
    the float nearest to that decimal. *)
Definition py_round (x : Qc) (ndigits : nat) : Qc :=
  let scale := inject_Z (10 ^ Z.of_nat ndigits) in
  fl (Q2Qc (inject_Z (round_half_even (this x * scale)) / scale)).

(** Python truthiness of an optional integer ([None] and [0] are falsy). *)
Definition truthy (o : option Z) : bool :=
  match o with Some z => negb (z =? 0) | None => false end.

(** ** Errors *)

Module SpoolShortage.
(** spool_validator.SpoolShortage *)
Record t := mk {
  spool_id : Z;
  tracking_id : option string;
  color_name : string;
  filament_type_name : string;
  manufacturer_name : option string;
  current_weight_g : Qc;
  requested_weight_g : Qc;
  resulting_weight_g : Qc;
  shortage_g : Qc;
  within_reserve : bool }.
End SpoolShortage.

Module SpoolValidationResult.
(** spool_validator.SpoolValidationResult *)
Record t := mk {
  is_valid : bool;
  shortages : list SpoolShortage.t }.
Definition has_warnings (r : t) : bool :=
  bool_decide (0 < length (shortages r))%nat.
End SpoolValidationResult.

(** The [detail] of an [HTTPException], one constructor per message. *)
Inductive Detail :=
| PrintJobNotFound
| OrderNotFound
| ProductNotFound
| ProjectNotFound
| SpoolNotFound
| SpoolNumberNotFound (spool_id : Z)
| HardwareItemNotFound (hardware_item_id : option Z)
| EitherSpoolIdOrSpools
| DuplicateSpoolPositions
| SpoolShortageDetail (validation : SpoolValidationResult.t)
| LinkedToProductOnHand (product_id : Z)
| InsufficientStock (name : string) (available required : Z)
| OnlyCompletedPrintJobs
| LocationRequiredWhenCompleted
| LocationRequiredWhenMarking
| ShouldBeMarkedCompleted
| LocationRequiredWithoutHardware
| AlreadyConverted
| OrderMustHaveProject
| OrderMustHaveSpools.

Inductive Error :=
| HTTPException (status_code : Z) (detail : Detail)
| AttributeError   (* attribute access on None *)
| TypeError.       (* arithmetic on None *)

Inductive Result (A : Type) :=
| Ok (a : A)
| Err (e : Error).
Arguments Ok {A} a.
Arguments Err {A} e.

(** ** Rows *)

Inductive PrintJobStatus := PJ_completed | PJ_failed | PJ_cancelled.
Inductive OrderStatus := O_ordered | O_printed | O_finished | O_sold.
Inductive ProductStatus := P_printed | P_completed.

#[global] Instance PrintJobStatus_eq_dec : EqDecision PrintJobStatus.
Proof. solve_decision. Defined.
#[global] Instance OrderStatus_eq_dec : EqDecision OrderStatus.
Proof. solve_decision. Defined.
#[global] Instance ProductStatus_eq_dec : EqDecision ProductStatus.
Proof. solve_decision. Defined.

Module AppSettings.
Record t := mk {
  currency_symbol : string;
  electricity_rate_kwh : Qc;
  printer_wattage : Qc;
  hourly_rate : Qc;
  machine_depreciation_rate : Qc;
  profit_margin_percent : Qc;
  fixed_fee_per_order : Qc;
  enable_spool_negative_prevention : bool;
  minimum_spool_reserve_g : Qc }.
End AppSettings.

Module Spool.
(** filament_type.name and manufacturer.name are the joined columns. *)
Record t := mk {
  tracking_id : option string;
  color_name : string;
  filament_type_name : string;
  manufacturer_name : option string;
  total_weight_g : Qc;
  remaining_weight_g : Qc;
  purchase_price : Qc }.
Definition set_remaining_weight_g (w : Qc) (s : t) : t :=
  mk (tracking_id s) (color_name s) (filament_type_name s)
     (manufacturer_name s) (total_weight_g s) w (purchase_price s).
End Spool.

Module HardwareItem.
Record t := mk {
  name : string;
  purchase_price : Qc;
  quantity_purchased : Z;
  quantity_in_stock : Z }.
Definition set_quantity_in_stock (q : Z) (h : t) : t :=
  mk (name h) (purchase_price h) (quantity_purchased h) q.
Definition cost_per_item (h : t) : Qc :=
  if bool_decide (quantity_purchased h ≤ 0) then 0%Qc
  else py_round (purchase_price h ⊘ float_of_int (quantity_purchased h)) 4.
End HardwareItem.

Module ProjectHardware.
Record t := mk {
  hardware_item_id : Z;
  quantity : Z }.
End ProjectHardware.

Module Project.
Record t := mk {
  filament_grams : option Qc;
  print_time_hours : option Qc;
  hardware : list ProjectHardware.t }.
End Project.

Module PrintJobSpool.
Record t := mk {
  spool_id : Z;
  filament_used_g : Qc;
  position : Z }.
End PrintJobSpool.

Module PrintJob.
Record t := mk {
  spool_id : option Z;
  project_id : option Z;
  order_id : option Z;
  filament_used_g : option Qc;
  status : PrintJobStatus;
  print_job_spools : list PrintJobSpool.t }.
Definition set_spool_id (v : option Z) (j : t) : t :=
  mk v (project_id j) (order_id j) (filament_used_g j) (status j)
     (print_job_spools j).
Definition set_project_id (v : option Z) (j : t) : t :=
  mk (spool_id j) v (order_id j) (filament_used_g j) (status j)
     (print_job_spools j).
Definition set_order_id (v : option Z) (j : t) : t :=
  mk (spool_id j) (project_id j) v (filament_used_g j) (status j)
     (print_job_spools j).
Definition set_filament_used_g (v : option Qc) (j : t) : t :=
  mk (spool_id j) (project_id j) (order_id j) v (status j)
     (print_job_spools j).
Definition set_status (v : PrintJobStatus) (j : t) : t :=
  mk (spool_id j) (project_id j) (order_id j) (filament_used_g j) v
     (print_job_spools j).
Definition set_print_job_spools (v : list PrintJobSpool.t) (j : t) : t :=
  mk (spool_id j) (project_id j) (order_id j) (filament_used_g j)
     (status j) v.
(** [db.add(PrintJobSpool(print_job_id=job.id, ...))] *)
Definition add_print_job_spool (pjs : PrintJobSpool.t) (j : t) : t :=
  set_print_job_spools (print_job_spools j ++ [pjs]) j.
End PrintJob.

Module OrderSpool.
Record t := mk {
  spool_id : Z;
  filament_grams : Qc;
  position : Z;
  cost_per_kg_snapshot : Qc }.
End OrderSpool.

Module OrderHardware.
Record t := mk {
  hardware_item_id : option Z;
  quantity : Z;
  unit_cost_snapshot : option Qc;
  hardware_name_snapshot : option string;
  is_one_off : bool;
  one_off_name : option string;
  one_off_cost : option Qc }.
End OrderHardware.

Module Order.
Record t := mk {
  project_id : option Z;
  spool_id : option Z;
  status : OrderStatus;
  quoted_price : option Qc;
  filament_grams_snapshot : option Qc;
  print_time_hours_snapshot : option Qc;
  order_spools : list OrderSpool.t;
  order_hardware : list OrderHardware.t }.
Definition set_project_id (v : option Z) (o : t) : t :=
  mk v (spool_id o) (status o) (quoted_price o) (filament_grams_snapshot o)
     (print_time_hours_snapshot o) (order_spools o) (order_hardware o).
Definition set_spool_id (v : option Z) (o : t) : t :=
  mk (project_id o) v (status o) (quoted_price o) (filament_grams_snapshot o)
     (print_time_hours_snapshot o) (order_spools o) (order_hardware o).
Definition set_status (v : OrderStatus) (o : t) : t :=
  mk (project_id o) (spool_id o) v (quoted_price o) (filament_grams_snapshot o)
     (print_time_hours_snapshot o) (order_spools o) (order_hardware o).
Definition set_quoted_price (v : option Qc) (o : t) : t :=
  mk (project_id o) (spool_id o) (status o) v (filament_grams_snapshot o)
     (print_time_hours_snapshot o) (order_spools o) (order_hardware o).
Definition set_snapshots (grams hours : option Qc) (o : t) : t :=
  mk (project_id o) (spool_id o) (status o) (quoted_price o) grams hours
     (order_spools o) (order_hardware o).
Definition set_order_spools (v : list OrderSpool.t) (o : t) : t :=
  mk (project_id o) (spool_id o) (status o) (quoted_price o)
     (filament_grams_snapshot o) (print_time_hours_snapshot o) v
     (order_hardware o).
Definition set_order_hardware (v : list OrderHardware.t) (o : t) : t :=
  mk (project_id o) (spool_id o) (status o) (quoted_price o)
     (filament_grams_snapshot o) (print_time_hours_snapshot o)
     (order_spools o) v.
(** [db.add(OrderSpool(order_id=order.id, ...))], [db.add(oh)] *)
Definition add_order_spool (os : OrderSpool.t) (o : t) : t :=
  set_order_spools (order_spools o ++ [os]) o.
Definition add_order_hardware (oh : OrderHardware.t) (o : t) : t :=
  set_order_hardware (order_hardware o ++ [oh]) o.
End Order.

Module ProductOnHand.
Record t := mk {
  project_id : option Z;
  print_job_id : Z;
  name : string;
  status : ProductStatus;
  location : option string;
  notes : option string }.
Definition set_name (v : string) (p : t) : t :=
  mk (project_id p) (print_job_id p) v (status p) (location p) (notes p).
Definition set_status (v : ProductStatus) (p : t) : t :=
  mk (project_id p) (print_job_id p) (name p) v (location p) (notes p).
Definition set_location (v : option string) (p : t) : t :=
  mk (project_id p) (print_job_id p) (name p) (status p) v (notes p).
Definition set_notes (v : option string) (p : t) : t :=
  mk (project_id p) (print_job_id p) (name p) (status p) (location p) v.
End ProductOnHand.

(** ** The database and the session monad *)

Record DB := mkDB {
  app_settings : option AppSettings.t;   (* the row with id = 1 *)
  spools : gmap Z Spool.t;
  hardware_items : gmap Z HardwareItem.t;
  projects : gmap Z Project.t;
  print_jobs : gmap Z PrintJob.t;
  orders : gmap Z Order.t;
  products_on_hand : gmap Z ProductOnHand.t }.

Definition with_spools (f : gmap Z Spool.t → gmap Z Spool.t) (db : DB) : DB :=
  mkDB (app_settings db) (f (spools db)) (hardware_items db) (projects db)
       (print_jobs db) (orders db) (products_on_hand db).
Definition with_hardware_items
    (f : gmap Z HardwareItem.t → gmap Z HardwareItem.t) (db : DB) : DB :=
  mkDB (app_settings db) (spools db) (f (hardware_items db)) (projects db)
       (print_jobs db) (orders db) (products_on_hand db).
Definition with_print_jobs
    (f : gmap Z PrintJob.t → gmap Z PrintJob.t) (db : DB) : DB :=
  mkDB (app_settings db) (spools db) (hardware_items db) (projects db)
       (f (print_jobs db)) (orders db) (products_on_hand db).
Definition with_orders (f : gmap Z Order.t → gmap Z Order.t) (db : DB) : DB :=
  mkDB (app_settings db) (spools db) (hardware_items db) (projects db)
       (print_jobs db) (f (orders db)) (products_on_hand db).
Definition with_products_on_hand
    (f : gmap Z ProductOnHand.t → gmap Z ProductOnHand.t) (db : DB) : DB :=
  mkDB (app_settings db) (spools db) (hardware_items db) (projects db)
       (print_jobs db) (orders db) (f (products_on_hand db)).

(** The id an INTEGER PRIMARY KEY column gives a new row: one more than
    the largest one in use. *)
Definition next_id {A} (table : gmap Z A) : Z :=
  1 + map_fold (λ k _ acc, Z.max k acc) 0 table.

Definition Session (A : Type) : Type := DB → Result (A * DB).

Definition ret {A} (a : A) : Session A := λ db, Ok (a, db).
Definition bind {A B} (m : Session A) (k : A → Session B) : Session B :=
  λ db, match m db with
        | Ok (a, db') => k a db'
        | Err e => Err e
        end.
Definition raise {A} (e : Error) : Session A := λ _, Err e.
Definition query {A} (f : DB → A) : Session A := λ db, Ok (f db, db).
Definition update (f : DB → DB) : Session unit := λ db, Ok (tt, f db).

Declare Scope session_scope.
Delimit Scope session_scope with session.
Notation "x ← y ; z" := (bind y (λ x, z))
  (at level 20, y at level 100, z at level 200, only parsing) : session_scope.
Notation "x ;; z" := (bind x (λ _, z))
  (at level 100, z at level 200, only parsing, right associativity)
  : session_scope.

(** [for x in xs: body(x)] *)
Fixpoint for_each {A} (xs : list A) (body : A → Session unit) : Session unit :=
  match xs with
  | [] => ret tt
  | x :: xs' => bind (body x) (λ _, for_each xs' body)
  end.

(** What the database holds once the request is over. *)
Definition request {A} (handler : Session A) (db : DB) : DB :=
  match handler db with
  | Ok (_, db') => db'
  | Err _ => db
  end.

(** [settings.enable_spool_negative_prevention if settings else True] and
    [settings.minimum_spool_reserve_g if settings else 5.0] *)
Definition settings_prevent (settings : option AppSettings.t) : bool :=
  match settings with
  | Some s => AppSettings.enable_spool_negative_prevention s
  | None => true
  end.
Definition settings_reserve (settings : option AppSettings.t) : Qc :=
  match settings with
  | Some s => AppSettings.minimum_spool_reserve_g s
  | None => Qc_of_Z 5
  end.

Local Open Scope session_scope.

(** [acc = init; for x in xs: acc = body(acc, x)] *)
Fixpoint fold_each {A S} (xs : list A) (acc : S) (body : S → A → Session S)
  : Session S :=
  match xs with
  | [] => ret acc
  | x :: xs' => acc' ← body acc x; fold_each xs' acc' body
  end.

(** [db.query(T).filter(T.id == key).first()] and the [404]/[400] that
    follows a miss. *)
Definition first {A} (table : DB → gmap Z A) (key : Z) : Session (option A) :=
  query (λ db, table db !! key).
Definition first_opt {A} (table : DB → gmap Z A) (key : option Z)
  : Session (option A) :=
  query (λ db, key ≫= λ k, table db !! k).
Definition or_raise {A} (o : option A) (e : Error) : Session A :=
  match o with Some a => ret a | None => raise e end.
Definition when (b : bool) (m : Session unit) : Session unit :=
  if b then m else ret tt.

(** ** services/spool_validator.py *)

Definition validate_spool_inventory (spool_usages : list (Z * Qc))
  : Session SpoolValidationResult.t :=
  settings ← query app_settings;
  let reserve_g := settings_reserve settings in
  let prevention_enabled := settings_prevent settings in
  if negb prevention_enabled then ret (SpoolValidationResult.mk true [])
  else
    shortages ← fold_each spool_usages []
      (λ shortages '(spool_id, grams_to_use),
         spool ← first spools spool_id;
         match spool with
         | None => ret shortages
         | Some spool =>
           let usable_weight := (Spool.remaining_weight_g spool - reserve_g)%Qc in
           let resulting_weight := (usable_weight - grams_to_use)%Qc in
           if bool_decide (resulting_weight < 0)%Qc then
             ret (shortages ++ [
               SpoolShortage.mk spool_id
                 (Spool.tracking_id spool)
                 (Spool.color_name spool)
                 (Spool.filament_type_name spool)
                 (Spool.manufacturer_name spool)
                 (Spool.remaining_weight_g spool)
                 grams_to_use
                 (Spool.remaining_weight_g spool - grams_to_use)%Qc
                 (max0 (grams_to_use - Spool.remaining_weight_g spool))
                 (bool_decide (grams_to_use ≤ Spool.remaining_weight_g spool)%Qc) ])
           else ret shortages
         end);
    ret (SpoolValidationResult.mk
           (bool_decide (length shortages = 0%nat)) shortages).

(** ** routers/print_jobs.py *)

Module PrintJobSpoolInput.
Record t := mk {
  spool_id : Z;
  filament_used_g : Qc;
  position : Z }.
End PrintJobSpoolInput.

Module PrintJobCreate.
Record t := mk {
  spool_id : option Z;
  filament_used_g : option Qc;
  spools : option (list PrintJobSpoolInput.t);
  project_id : option Z;
  order_id : option Z;
  status : PrintJobStatus;
  force : bool }.
End PrintJobCreate.

(** A field of an update payload: absent from the request, or sent
    ([model_dump(exclude_unset=True)] keeps exactly the fields sent). *)
Inductive Field (A : Type) :=
| Unset
| Sent (v : A).
Arguments Unset {A}.
Arguments Sent {A} v.

#[global] Instance Field_eq_dec `{EqDecision A} : EqDecision (Field A).
Proof. solve_decision. Defined.

Definition was_set {A} (f : Field A) : bool :=
  match f with Sent _ => true | Unset => false end.
(** [setattr(row, key, value)] for the key of [f], when it was sent. *)
Definition setattr {A R} (f : Field A) (set : A → R → R) (row : R) : R :=
  match f with Sent v => set v row | Unset => row end.

Module PrintJobUpdate.
Record t := mk {
  spool_id : Field (option Z);
  project_id : Field (option Z);
  order_id : Field (option Z);
  filament_used_g : Field (option Qc);
  status : Field PrintJobStatus;
  spools : Field (option (list PrintJobSpoolInput.t));
  force : bool }.
End PrintJobUpdate.

(** The mutable attribute of the spool object that the session holds
    under the key [spool]. *)
Definition set_remaining_weight_g (spool : Z) (f : Qc → Qc) : Session unit :=
  update (with_spools (alter
    (λ s, Spool.set_remaining_weight_g (f (Spool.remaining_weight_g s)) s)
    spool)).

Definition _deduct_spool (spool : Z) (grams : Qc) (prevent_negative : bool)
  : Session unit :=
  if prevent_negative then
    set_remaining_weight_g spool (λ remaining, max0 (remaining ⊖ grams))
  else
    set_remaining_weight_g spool (λ remaining, remaining ⊖ grams).

(** [x and x > 0] on an optional float *)
Definition used_and_positive (g : option Qc) : bool :=
  match g with
  | Some g => bool_decide (g ≠ 0%Qc) && bool_decide (0 < g)%Qc
  | None => false
  end.

Definition raise_spool_shortage {A} (validation : SpoolValidationResult.t)
  : Session A :=
  raise (HTTPException 422 (SpoolShortageDetail validation)).

(** [db.add(job)] followed by the flush that gives it its id *)
Definition add_print_job (job : PrintJob.t) : Session Z :=
  job_id ← query (λ db, next_id (print_jobs db));
  update (with_print_jobs (insert job_id job));;
  ret job_id.

Definition modify_print_job (job_id : Z) (f : PrintJob.t → PrintJob.t)
  : Session unit :=
  update (with_print_jobs (alter f job_id)).

(** [job.print_job_spools] as the relationship loads it: by position. *)
Definition by_position (a b : PrintJobSpool.t) : Prop :=
  PrintJobSpool.position a ≤ PrintJobSpool.position b.
#[global] Instance by_position_dec : RelDecision by_position.
Proof. intros a b. unfold by_position. apply _. Defined.
Definition loaded_print_job_spools (job : PrintJob.t) : list PrintJobSpool.t :=
  merge_sort by_position (PrintJob.print_job_spools job).

Definition _create_single_spool_print_job (data : PrintJobCreate.t)
    (data_spool_id : Z) : Session (Z * PrintJob.t) :=
  spool ← first spools data_spool_id;
  _ ← or_raise spool (HTTPException 400 SpoolNotFound);
  when (bool_decide (PrintJobCreate.status data = PJ_completed)
        && used_and_positive (PrintJobCreate.filament_used_g data)
        && negb (PrintJobCreate.force data))
    (validation ← validate_spool_inventory
       [(data_spool_id, default 0%Qc (PrintJobCreate.filament_used_g data))];
     if negb (SpoolValidationResult.is_valid validation)
     then raise_spool_shortage validation else ret tt);;
  job_id ← add_print_job
    (PrintJob.mk (PrintJobCreate.spool_id data) (PrintJobCreate.project_id data)
       (PrintJobCreate.order_id data) (PrintJobCreate.filament_used_g data)
       (PrintJobCreate.status data) []);
  when (bool_decide (PrintJobCreate.status data = PJ_completed)
        && used_and_positive (PrintJobCreate.filament_used_g data))
    (settings ← query app_settings;
     let prevent := settings_prevent settings in
     _deduct_spool data_spool_id
       (default 0%Qc (PrintJobCreate.filament_used_g data)) prevent);;
  job ← first print_jobs job_id;
  job ← or_raise job AttributeError;
  ret (job_id, job).

(** The loop of [_create_multicolor_print_job] that adds the rows and
    deducts the inventory of a completed job. *)
Definition create_print_job_spools (job_id : Z) (status : PrintJobStatus)
    (prevent : bool) (data_spools : list PrintJobSpoolInput.t) : Session unit :=
  for_each data_spools (λ spool_entry,
    modify_print_job job_id (PrintJob.add_print_job_spool
      (PrintJobSpool.mk (PrintJobSpoolInput.spool_id spool_entry)
         (PrintJobSpoolInput.filament_used_g spool_entry)
         (PrintJobSpoolInput.position spool_entry)));;
    when (bool_decide (status = PJ_completed))
      (spool ← first spools (PrintJobSpoolInput.spool_id spool_entry);
       _ ← or_raise spool AttributeError;
       _deduct_spool (PrintJobSpoolInput.spool_id spool_entry)
         (PrintJobSpoolInput.filament_used_g spool_entry) prevent)).

Definition _create_multicolor_print_job (data : PrintJobCreate.t)
    (data_spools : list PrintJobSpoolInput.t) : Session (Z * PrintJob.t) :=
  for_each data_spools (λ spool_entry,
    spool ← first spools (PrintJobSpoolInput.spool_id spool_entry);
    _ ← or_raise spool (HTTPException 400
          (SpoolNumberNotFound (PrintJobSpoolInput.spool_id spool_entry)));
    ret tt);;
  when (bool_decide (PrintJobCreate.status data = PJ_completed)
        && negb (PrintJobCreate.force data))
    (let spool_usages :=
       map (λ spool_entry, (PrintJobSpoolInput.spool_id spool_entry,
                            PrintJobSpoolInput.filament_used_g spool_entry))
           data_spools in
     validation ← validate_spool_inventory spool_usages;
     if negb (SpoolValidationResult.is_valid validation)
     then raise_spool_shortage validation else ret tt);;
  job_id ← add_print_job
    (PrintJob.mk None (PrintJobCreate.project_id data)
       (PrintJobCreate.order_id data) (Some 0%Qc)
       (PrintJobCreate.status data) []);
  (* Create PrintJobSpool records and deduct inventory *)
  settings ← query app_settings;
  let prevent := settings_prevent settings in
  create_print_job_spools job_id (PrintJobCreate.status data) prevent
    data_spools;;
  job ← first print_jobs job_id;
  job ← or_raise job AttributeError;
  ret (job_id, job).

(** [if data.spools: ... elif data.spool_id: ... else: raise] *)
Definition create_print_job (data : PrintJobCreate.t)
  : Session (Z * PrintJob.t) :=
  match PrintJobCreate.spools data, PrintJobCreate.spool_id data with
  | Some (spool_entry :: data_spools), _ =>
      _create_multicolor_print_job data (spool_entry :: data_spools)
  | _, Some data_spool_id =>
      if negb (data_spool_id =? 0)
      then _create_single_spool_print_job data data_spool_id
      else raise (HTTPException 400 EitherSpoolIdOrSpools)
  | _, None => raise (HTTPException 400 EitherSpoolIdOrSpools)
  end.

(** The restore loop that [update_print_job] and [delete_print_job]
    share: [spool.remaining_weight_g += pjs.filament_used_g] for every
    row whose spool is still there. *)
Definition restore_print_job_spools (rows : list PrintJobSpool.t)
  : Session unit :=
  for_each rows (λ pjs,
    spool ← first spools (PrintJobSpool.spool_id pjs);
    match spool with
    | Some _ =>
        set_remaining_weight_g (PrintJobSpool.spool_id pjs)
          (λ remaining, remaining ⊕ PrintJobSpool.filament_used_g pjs)
    | None => ret tt
    end).

Definition nonzero (g : option Qc) : bool :=
  match g with Some g => bool_decide (g ≠ 0%Qc) | None => false end.

Definition update_print_job (job_id : Z) (data : PrintJobUpdate.t)
  : Session PrintJob.t :=
  job ← first print_jobs job_id;
  job ← or_raise job (HTTPException 404 PrintJobNotFound);
  let job_spools := loaded_print_job_spools job in
  (match PrintJobUpdate.spools data with
   | Sent (Some spools_update) =>
       (* Restore filament from existing completed spools before replacing *)
       when (bool_decide (PrintJob.status job = PJ_completed))
         (match job_spools with
          | _ :: _ => restore_print_job_spools job_spools
          | [] =>
            if truthy (PrintJob.spool_id job) && nonzero (PrintJob.filament_used_g job)
            then
              spool ← first_opt spools (PrintJob.spool_id job);
              match spool, PrintJob.spool_id job with
              | Some _, Some spool_id =>
                  set_remaining_weight_g spool_id (λ remaining,
                    remaining ⊕ default 0%Qc (PrintJob.filament_used_g job))
              | _, _ => ret tt
              end
            else ret tt
          end);;
       (* Delete old PrintJobSpool records *)
       modify_print_job job_id (PrintJob.set_print_job_spools []);;
       (* Validate new spools exist *)
       for_each spools_update (λ spool_data,
         spool ← first spools (PrintJobSpoolInput.spool_id spool_data);
         _ ← or_raise spool (HTTPException 400
               (SpoolNumberNotFound (PrintJobSpoolInput.spool_id spool_data)));
         ret tt);;
       let new_status :=
         match PrintJobUpdate.status data with
         | Sent s => s
         | Unset => PrintJob.status job
         end in
       when (bool_decide (new_status = PJ_completed)
             && negb (PrintJobUpdate.force data))
         (let spool_usages :=
            map (λ s, (PrintJobSpoolInput.spool_id s,
                       PrintJobSpoolInput.filament_used_g s)) spools_update in
          validation ← validate_spool_inventory spool_usages;
          if negb (SpoolValidationResult.is_valid validation)
          then raise_spool_shortage validation else ret tt);;
       upd_settings ← query app_settings;
       let upd_prevent := settings_prevent upd_settings in
       for_each spools_update (λ spool_data,
         modify_print_job job_id (PrintJob.add_print_job_spool
           (PrintJobSpool.mk (PrintJobSpoolInput.spool_id spool_data)
              (PrintJobSpoolInput.filament_used_g spool_data)
              (PrintJobSpoolInput.position spool_data)));;
         when (bool_decide (new_status = PJ_completed))
           (spool ← first spools (PrintJobSpoolInput.spool_id spool_data);
            match spool with
            | Some _ =>
                _deduct_spool (PrintJobSpoolInput.spool_id spool_data)
                  (PrintJobSpoolInput.filament_used_g spool_data) upd_prevent
            | None => ret tt
            end))
   | _ =>
       match PrintJobUpdate.filament_used_g data with
       | Sent new_used =>
           if bool_decide (PrintJob.status job = PJ_completed)
              && bool_decide (job_spools = [])
           then
             (* Legacy single-spool: handle filament_used_g changes *)
             spool ← first_opt spools (PrintJob.spool_id job);
             match spool, PrintJob.spool_id job with
             | Some _, Some spool_id =>
                 let old_used := default 0%Qc (PrintJob.filament_used_g job) in
                 new_used ← or_raise new_used TypeError;
                 let net_change := new_used ⊖ old_used in
                 when (bool_decide (0 < net_change)%Qc
                       && negb (PrintJobUpdate.force data))
                   (validation ← validate_spool_inventory
                                   [(spool_id, net_change)];
                    if negb (SpoolValidationResult.is_valid validation)
                    then raise_spool_shortage validation else ret tt);;
                 leg_settings ← query app_settings;
                 let leg_prevent := settings_prevent leg_settings in
                 _deduct_spool spool_id (new_used ⊖ old_used) leg_prevent
             | _, _ => ret tt
             end
           else ret tt
       | Unset => ret tt
       end
   end);;
  (match PrintJobUpdate.spool_id data with
   | Sent spool_id =>
       spool ← first_opt spools spool_id;
       _ ← or_raise spool (HTTPException 400 SpoolNotFound);
       ret tt
   | Unset => ret tt
   end);;
  modify_print_job job_id (λ job,
    setattr (PrintJobUpdate.status data) PrintJob.set_status
      (setattr (PrintJobUpdate.filament_used_g data) PrintJob.set_filament_used_g
        (setattr (PrintJobUpdate.order_id data) PrintJob.set_order_id
          (setattr (PrintJobUpdate.project_id data) PrintJob.set_project_id
            (setattr (PrintJobUpdate.spool_id data) PrintJob.set_spool_id job)))));;
  job ← first print_jobs job_id;
  or_raise job AttributeError.

(** [db.scalars(select(ProductOnHand).where(print_job_id == job_id)).first()]:
    the matching row with the least id. *)
Definition linked_product (job_id : Z) (db : DB) : option Z :=
  map_fold (λ product_id product found,
      if bool_decide (ProductOnHand.print_job_id product = job_id)
      then Some (from_option (Z.min product_id) product_id found)
      else found)
    None (products_on_hand db).

Definition delete_print_job (job_id : Z) : Session unit :=
  job ← first print_jobs job_id;
  job ← or_raise job (HTTPException 404 PrintJobNotFound);
  linked_product ← query (linked_product job_id);
  match linked_product with
  | Some product_id =>
      raise (HTTPException 400 (LinkedToProductOnHand product_id))
  | None =>
    (* Restore filament to spools if job was completed *)
    when (bool_decide (PrintJob.status job = PJ_completed))
      (match loaded_print_job_spools job with
       | (_ :: _) as job_spools => restore_print_job_spools job_spools
       | [] =>
         if truthy (PrintJob.spool_id job)
            && used_and_positive (PrintJob.filament_used_g job)
         then
           spool ← first_opt spools (PrintJob.spool_id job);
           match spool, PrintJob.spool_id job with
           | Some _, Some spool_id =>
               set_remaining_weight_g spool_id (λ remaining,
                 remaining ⊕ default 0%Qc (PrintJob.filament_used_g job))
           | _, _ => ret tt
           end
         else ret tt
       end);;
    update (with_print_jobs (delete job_id))
  end.

(** ** routers/orders.py *)

Module OrderSpoolInput.
Record t := mk {
  spool_id : Z;
  filament_grams : Qc;
  position : Z }.
End OrderSpoolInput.

Module OrderHardwareInput.
Record t := mk {
  hardware_item_id : option Z;
  quantity : Z;
  is_one_off : bool;
  one_off_name : option string;
  one_off_cost : option Qc }.
End OrderHardwareInput.

Module OrderCreate.
Record t := mk {
  project_id : option Z;
  spool_id : option Z;
  status : OrderStatus;
  quoted_price : option Qc;
  hardware_items : list OrderHardwareInput.t;
  spools : list OrderSpoolInput.t }.
End OrderCreate.

Module OrderUpdate.
Record t := mk {
  project_id : Field (option Z);
  spool_id : Field (option Z);
  status : Field OrderStatus;
  quoted_price : Field (option Qc);
  hardware_items : Field (option (list OrderHardwareInput.t));
  spools : Field (option (list OrderSpoolInput.t)) }.
End OrderUpdate.

Definition add_order (order : Order.t) : Session Z :=
  order_id ← query (λ db, next_id (orders db));
  update (with_orders (insert order_id order));;
  ret order_id.

Definition modify_order (order_id : Z) (f : Order.t → Order.t) : Session unit :=
  update (with_orders (alter f order_id)).

(** The mutable attribute of the hardware item the session holds under
    the key [hardware_item]. *)
Definition set_quantity_in_stock (hardware_item : Z) (f : Z → Z) : Session unit :=
  update (with_hardware_items (alter
    (λ h, HardwareItem.set_quantity_in_stock
            (f (HardwareItem.quantity_in_stock h)) h)
    hardware_item)).

(** [round((spool.purchase_price / spool.total_weight_g) * 1000, 4)
     if spool.total_weight_g > 0 else 0.0] *)
Definition spool_cost_per_kg (spool : Spool.t) : Qc :=
  if bool_decide (0 < Spool.total_weight_g spool)%Qc
  then py_round (Spool.purchase_price spool ⊘ Spool.total_weight_g spool
                 ⊗ float_of_int 1000) 4
  else 0%Qc.

(** The loop that materialises the order's spool rows. *)
Definition add_order_spools (order_id : Z) (inputs : list OrderSpoolInput.t)
  : Session unit :=
  for_each inputs (λ spool_input,
    spool ← first spools (OrderSpoolInput.spool_id spool_input);
    spool ← or_raise spool (HTTPException 400
              (SpoolNumberNotFound (OrderSpoolInput.spool_id spool_input)));
    let cost_per_kg := spool_cost_per_kg spool in
    modify_order order_id (Order.add_order_spool
      (OrderSpool.mk (OrderSpoolInput.spool_id spool_input)
         (OrderSpoolInput.filament_grams spool_input)
         (OrderSpoolInput.position spool_input) cost_per_kg))).

(** The loop that materialises the order's hardware rows. *)
Definition add_order_hardware_items (order_id : Z)
    (inputs : list OrderHardwareInput.t) : Session unit :=
  for_each inputs (λ hw_input,
    oh ← (if OrderHardwareInput.is_one_off hw_input then
            ret (OrderHardware.mk None (OrderHardwareInput.quantity hw_input)
                   (OrderHardwareInput.one_off_cost hw_input) None true
                   (OrderHardwareInput.one_off_name hw_input)
                   (OrderHardwareInput.one_off_cost hw_input))
          else
            hardware_item ← first_opt hardware_items
                              (OrderHardwareInput.hardware_item_id hw_input);
            hardware_item ← or_raise hardware_item (HTTPException 400
              (HardwareItemNotFound (OrderHardwareInput.hardware_item_id hw_input)));
            ret (OrderHardware.mk
                   (OrderHardwareInput.hardware_item_id hw_input)
                   (OrderHardwareInput.quantity hw_input)
                   (Some (HardwareItem.cost_per_item hardware_item))
                   (Some (HardwareItem.name hardware_item))
                   false None None));
    modify_order order_id (Order.add_order_hardware oh)).

Definition create_order (data : OrderCreate.t) : Session (Z * Order.t) :=
  let order :=
    Order.mk (OrderCreate.project_id data) (OrderCreate.spool_id data)
      (OrderCreate.status data) (OrderCreate.quoted_price data)
      None None [] [] in
  (* Validate FKs and snapshot project values *)
  order ← (if truthy (Order.project_id order) then
             project ← first_opt projects (Order.project_id order);
             project ← or_raise project (HTTPException 400 ProjectNotFound);
             ret (Order.set_snapshots (Project.filament_grams project)
                    (Project.print_time_hours project) order)
           else ret order);
  when (truthy (Order.spool_id order))
    (spool ← first_opt spools (Order.spool_id order);
     _ ← or_raise spool (HTTPException 400 SpoolNotFound);
     ret tt);;
  order_id ← add_order order;
  (* Process multi-color order spools *)
  when (negb (bool_decide
          (NoDup (map OrderSpoolInput.position (OrderCreate.spools data)))))
    (raise (HTTPException 400 DuplicateSpoolPositions));;
  add_order_spools order_id (OrderCreate.spools data);;
  (* Process hardware items.
     Note: Hardware stock is NOT decremented on creation.
     It will be decremented when order status changes to "finished". *)
  add_order_hardware_items order_id (OrderCreate.hardware_items data);;
  order ← first orders order_id;
  order ← or_raise order (HTTPException 404 OrderNotFound);
  ret (order_id, order).

(** The two flags of [update_order]; [hardware_replaced] is
    [hardware_items_update is not None]. *)
Definition needs_deduct (old_status new_status : OrderStatus)
    (hardware_replaced : bool) : bool :=
  bool_decide (new_status = O_finished)
  && (bool_decide (old_status ≠ O_finished) || hardware_replaced).

Definition needs_restore (old_status new_status : OrderStatus)
    (hardware_replaced : bool) : bool :=
  bool_decide (old_status = O_finished)
  && bool_decide (new_status ≠ O_finished)
  && negb hardware_replaced.

(** The three loops over [order.order_hardware]. *)
Definition restore_replaced_hardware (lines : list OrderHardware.t)
  : Session unit :=
  for_each lines (λ oh,
    if negb (OrderHardware.is_one_off oh)
       && truthy (OrderHardware.hardware_item_id oh)
    then
      hardware_item ← first_opt hardware_items (OrderHardware.hardware_item_id oh);
      match hardware_item, OrderHardware.hardware_item_id oh with
      | Some _, Some hardware_item_id =>
          set_quantity_in_stock hardware_item_id
            (λ stock, stock + OrderHardware.quantity oh)
      | _, _ => ret tt
      end
    else ret tt).

Definition deduct_order_hardware (lines : list OrderHardware.t)
  : Session unit :=
  for_each lines (λ oh,
    if OrderHardware.is_one_off oh then ret tt
    else
      hardware_item ← first_opt hardware_items (OrderHardware.hardware_item_id oh);
      match hardware_item, OrderHardware.hardware_item_id oh with
      | Some hardware_item, Some hardware_item_id =>
          if bool_decide (HardwareItem.quantity_in_stock hardware_item
                          < OrderHardware.quantity oh)
          then raise (HTTPException 400
                 (InsufficientStock (HardwareItem.name hardware_item)
                    (HardwareItem.quantity_in_stock hardware_item)
                    (OrderHardware.quantity oh)))
          else set_quantity_in_stock hardware_item_id
                 (λ stock, stock - OrderHardware.quantity oh)
      | _, _ => ret tt
      end).

Definition restore_order_hardware (lines : list OrderHardware.t)
  : Session unit :=
  for_each lines (λ oh,
    if OrderHardware.is_one_off oh then ret tt
    else
      hardware_item ← first_opt hardware_items (OrderHardware.hardware_item_id oh);
      match hardware_item, OrderHardware.hardware_item_id oh with
      | Some _, Some hardware_item_id =>
          set_quantity_in_stock hardware_item_id
            (λ stock, stock + OrderHardware.quantity oh)
      | _, _ => ret tt
      end).

Definition update_order (order_id : Z) (data : OrderUpdate.t)
  : Session Order.t :=
  order ← first orders order_id;
  order ← or_raise order (HTTPException 404 OrderNotFound);
  (* Track old status before update *)
  let old_status := Order.status order in
  let hardware_items_update :=
    match OrderUpdate.hardware_items data with
    | Sent v => v
    | Unset => None
    end in
  (match OrderUpdate.project_id data with
   | Sent pid =>
       if truthy pid then
         project ← first_opt projects pid;
         project ← or_raise project (HTTPException 400 ProjectNotFound);
         (* Re-snapshot when project changes *)
         modify_order order_id
           (Order.set_snapshots (Project.filament_grams project)
              (Project.print_time_hours project))
       else modify_order order_id (Order.set_snapshots None None)
   | Unset => ret tt
   end);;
  (match OrderUpdate.spool_id data with
   | Sent sid =>
       spool ← first_opt spools sid;
       when (truthy sid && negb (bool_decide (is_Some spool)))
         (raise (HTTPException 400 SpoolNotFound))
   | Unset => ret tt
   end);;
  (* Apply updates *)
  modify_order order_id (λ order,
    setattr (OrderUpdate.quoted_price data) Order.set_quoted_price
      (setattr (OrderUpdate.status data) Order.set_status
        (setattr (OrderUpdate.spool_id data) Order.set_spool_id
          (setattr (OrderUpdate.project_id data) Order.set_project_id order))));;
  let new_status :=
    match OrderUpdate.status data with
    | Sent s => s
    | Unset => old_status
    end in
  (* Handle order spools replacement if provided *)
  (match OrderUpdate.spools data with
   | Sent (Some spools_update) =>
       when (negb (bool_decide
               (NoDup (map OrderSpoolInput.position spools_update))))
         (raise (HTTPException 400 DuplicateSpoolPositions));;
       modify_order order_id (Order.set_order_spools []);;
       add_order_spools order_id spools_update
   | _ => ret tt
   end);;
  (* Handle hardware replacement if provided *)
  (match hardware_items_update with
   | Some hardware_items =>
       when (bool_decide (old_status = O_finished))
         (restore_replaced_hardware (Order.order_hardware order));;
       modify_order order_id (Order.set_order_hardware []);;
       add_order_hardware_items order_id hardware_items
   | None => ret tt
   end);;
  (* Re-load order_hardware for status change logic below *)
  order ← first orders order_id;
  order ← or_raise order AttributeError;
  (if needs_deduct old_status new_status
        (bool_decide (is_Some hardware_items_update))
   then deduct_order_hardware (Order.order_hardware order)
   else if needs_restore old_status new_status
             (bool_decide (is_Some hardware_items_update))
   then restore_order_hardware (Order.order_hardware order)
   else ret tt);;
  order ← first orders order_id;
  or_raise order (HTTPException 404 OrderNotFound).

Definition delete_order (order_id : Z) : Session unit :=
  order ← first orders order_id;
  order ← or_raise order (HTTPException 404 OrderNotFound);
  (* Restore hardware stock ONLY if order was "finished"
     (hardware is only deducted when status becomes "finished") *)
  when (bool_decide (Order.status order = O_finished))
    (restore_order_hardware (Order.order_hardware order));;
  update (with_orders (delete order_id));;
  (* print_jobs.order_id: ON DELETE SET NULL *)
  update (with_print_jobs (fmap (λ job,
    if bool_decide (PrintJob.order_id job = Some order_id)
    then PrintJob.set_order_id None job else job))).

(** ** routers/product_on_hand.py *)

Module ProductOnHandCreate.
Record t := mk {
  project_id : option Z;
  print_job_id : Z;
  name : string;
  status : ProductStatus;
  location : option string;
  notes : option string }.
End ProductOnHandCreate.

(** The payload of an update.  A status that is sent is one of the two
    the pattern of the schema admits; [name] and [status] sent as null
    (the columns are not nullable, the commit fails) are left out. *)
Module ProductOnHandUpdate.
Record t := mk {
  name : Field string;
  status : Field ProductStatus;
  location : Field (option string);
  notes : Field (option string) }.
End ProductOnHandUpdate.

Module ConvertToOrderRequest.
Record t := mk {
  quoted_price : option Qc }.
End ConvertToOrderRequest.

(** [not data.location]: [None] and the empty string are falsy. *)
Definition no_location (location : option string) : bool :=
  match location with
  | None => true
  | Some s => bool_decide (s = EmptyString)
  end.

Definition create_product_on_hand (data : ProductOnHandCreate.t)
  : Session (Z * ProductOnHand.t) :=
  (* Validate print job exists and is completed *)
  print_job ← first print_jobs (ProductOnHandCreate.print_job_id data);
  print_job ← or_raise print_job (HTTPException 404 PrintJobNotFound);
  when (negb (bool_decide (PrintJob.status print_job = PJ_completed)))
    (raise (HTTPException 400 OnlyCompletedPrintJobs));;
  (* Validate project exists and check hardware requirements *)
  has_hardware ←
    (if truthy (ProductOnHandCreate.project_id data) then
       project ← first_opt projects (ProductOnHandCreate.project_id data);
       project ← or_raise project (HTTPException 404 ProjectNotFound);
       ret (bool_decide (0 < length (Project.hardware project))%nat)
     else ret false);
  when (bool_decide (ProductOnHandCreate.status data = P_completed)
        && no_location (ProductOnHandCreate.location data))
    (raise (HTTPException 400 LocationRequiredWhenCompleted));;
  (if has_hardware then
     when (bool_decide (ProductOnHandCreate.status data = P_completed)
           && no_location (ProductOnHandCreate.location data))
       (raise (HTTPException 400 LocationRequiredWhenMarking))
   else
     when (negb (bool_decide (ProductOnHandCreate.status data = P_completed)))
       (raise (HTTPException 400 ShouldBeMarkedCompleted));;
     when (no_location (ProductOnHandCreate.location data))
       (raise (HTTPException 400 LocationRequiredWithoutHardware)));;
  (* Create product *)
  let product :=
    ProductOnHand.mk (ProductOnHandCreate.project_id data)
      (ProductOnHandCreate.print_job_id data) (ProductOnHandCreate.name data)
      (ProductOnHandCreate.status data) (ProductOnHandCreate.location data)
      (ProductOnHandCreate.notes data) in
  product_id ← query (λ db, next_id (products_on_hand db));
  update (with_products_on_hand (insert product_id product));;
  ret (product_id, product).

(** [ph.hardware_item]: the related row, an attribute error on [None]
    when it is gone. *)
Definition hardware_item_of (ph : ProjectHardware.t) : Session HardwareItem.t :=
  hardware_item ← first hardware_items (ProjectHardware.hardware_item_id ph);
  or_raise hardware_item AttributeError.

(** The stock check and the deduction over a project's hardware, shared
    by [update_product_on_hand] and [convert_to_order]. *)
Definition check_project_hardware (lines : list ProjectHardware.t)
  : Session unit :=
  for_each lines (λ ph,
    hardware_item ← hardware_item_of ph;
    when (bool_decide (HardwareItem.quantity_in_stock hardware_item
                       < ProjectHardware.quantity ph))
      (raise (HTTPException 400
         (InsufficientStock (HardwareItem.name hardware_item)
            (HardwareItem.quantity_in_stock hardware_item)
            (ProjectHardware.quantity ph))))).

Definition deduct_project_hardware_line (ph : ProjectHardware.t)
  : Session unit :=
  _ ← hardware_item_of ph;
  set_quantity_in_stock (ProjectHardware.hardware_item_id ph)
    (λ stock, stock - ProjectHardware.quantity ph).

Definition update_product_on_hand (id : Z) (data : ProductOnHandUpdate.t)
  : Session ProductOnHand.t :=
  product ← first products_on_hand id;
  product ← or_raise product (HTTPException 404 ProductNotFound);
  (* Track if we're changing status from printed to completed *)
  let was_printed := bool_decide (ProductOnHand.status product = P_printed) in
  let will_be_completed :=
    match ProductOnHandUpdate.status data with
    | Sent status => bool_decide (status = P_completed)
    | Unset => bool_decide (ProductOnHand.status product = P_completed)
    end in
  (* If marking as completed for the first time, deduct hardware inventory *)
  when (was_printed && will_be_completed
        && truthy (ProductOnHand.project_id product))
    (project ← first_opt projects (ProductOnHand.project_id product);
     match project with
     | Some project =>
         check_project_hardware (Project.hardware project);;
         for_each (Project.hardware project) deduct_project_hardware_line
     | None => ret tt
     end);;
  (* Update fields *)
  update (with_products_on_hand (alter (λ product,
    setattr (ProductOnHandUpdate.notes data) ProductOnHand.set_notes
      (setattr (ProductOnHandUpdate.location data) ProductOnHand.set_location
        (setattr (ProductOnHandUpdate.status data) ProductOnHand.set_status
          (setattr (ProductOnHandUpdate.name data) ProductOnHand.set_name
             product)))) id));;
  product ← first products_on_hand id;
  or_raise product AttributeError.

Definition convert_to_order (id : Z) (order_data : ConvertToOrderRequest.t)
  : Session Z :=
  product ← first products_on_hand id;
  product ← or_raise product (HTTPException 404 ProductNotFound);
  (* Load print job early for idempotency check *)
  print_job ← first print_jobs (ProductOnHand.print_job_id product);
  print_job ← or_raise print_job (HTTPException 400 PrintJobNotFound);
  when (bool_decide (is_Some (PrintJob.order_id print_job)))
    (raise (HTTPException 409 AlreadyConverted));;
  (* Create order from product *)
  let order :=
    Order.mk (ProductOnHand.project_id product) (PrintJob.spool_id print_job)
      O_sold (ConvertToOrderRequest.quoted_price order_data) None None [] [] in
  (* Copy hardware from project to order (snapshot costs).
     Only deduct stock if the product was NOT already "completed". *)
  project ← first_opt projects (ProductOnHand.project_id product);
  order_hardware ←
    match project with
    | Some project =>
        when (negb (bool_decide (ProductOnHand.status product = P_completed)))
          (check_project_hardware (Project.hardware project));;
        fold_each (Project.hardware project) [] (λ order_hardware ph,
          hardware_item ← hardware_item_of ph;
          let oh :=
            OrderHardware.mk (Some (ProjectHardware.hardware_item_id ph))
              (ProjectHardware.quantity ph)
              (Some (HardwareItem.cost_per_item hardware_item))
              None false None None in
          (* Only deduct stock if hardware hasn't been deducted already *)
          when (negb (bool_decide (ProductOnHand.status product = P_completed)))
            (set_quantity_in_stock (ProjectHardware.hardware_item_id ph)
               (λ stock, stock - ProjectHardware.quantity ph));;
          ret (order_hardware ++ [oh]))
    | None => ret []
    end;
  order_id ← add_order (Order.set_order_hardware order_hardware order);
  (* Link the print job to the order *)
  modify_print_job (ProductOnHand.print_job_id product)
    (PrintJob.set_order_id (Some order_id));;
  (* Remove from Product on Hand *)
  update (with_products_on_hand (delete id));;
  ret order_id.

(** ** services/cost_calculator.py *)

Module CostBreakdown.
Record t := mk {
  filament_cost : Qc;
  electricity_cost : Qc;
  time_cost : Qc;
  depreciation_cost : Qc;
  fixed_fee : Qc;
  subtotal : Qc;
  profit_margin_percent : Qc;
  profit : Qc;
  total : Qc;
  currency_symbol : string }.
End CostBreakdown.


(** ** Example data *)

Definition default_settings (prevent : bool) (reserve_g : Qc) : AppSettings.t :=
  AppSettings.mk "$"%string (double (12 # 100)) (Qc_of_Z 200) (Qc_of_Z 2)
    (Q2Qc (1 # 2)) (Qc_of_Z 5) (Qc_of_Z 5) prevent reserve_g.

Definition pla_spool (remaining_g : Qc) : Spool.t :=
  Spool.mk (Some "SP-0001"%string) "Black"%string "PLA"%string None
    (Qc_of_Z 1000) remaining_g (Qc_of_Z 20).

Definition m3_screws (stock : Z) : HardwareItem.t :=
  HardwareItem.mk "M3 screw"%string (Qc_of_Z 10) 100 stock.

Definition empty_db (settings : option AppSettings.t) : DB :=
  mkDB settings ∅ ∅ ∅ ∅ ∅ ∅.

(** One spool, numbered 1. *)
Definition one_spool_db (prevent : bool) (reserve_g remaining_g : Qc) : DB :=
  with_spools (insert 1 (pla_spool remaining_g))
    (empty_db (Some (default_settings prevent reserve_g))).

(** ** Reading the state *)

Definition spool_remaining (db : DB) (spool_id : Z) : option Qc :=
  Spool.remaining_weight_g <$> spools db !! spool_id.

Definition hardware_stock (db : DB) (hardware_item_id : Z) : option Z :=
  HardwareItem.quantity_in_stock <$> hardware_items db !! hardware_item_id.

(** The shortage the validator records for one usage, as a function of
    the stored rows. *)
Definition shortage_of (db : DB) (usage : Z * Qc) : list SpoolShortage.t :=
  let reserve_g := settings_reserve (app_settings db) in
  match spools db !! usage.1 with
  | None => []
  | Some spool =>
    if bool_decide (Spool.remaining_weight_g spool - reserve_g - usage.2 < 0)%Qc
    then [ SpoolShortage.mk usage.1
             (Spool.tracking_id spool) (Spool.color_name spool)
             (Spool.filament_type_name spool) (Spool.manufacturer_name spool)
             (Spool.remaining_weight_g spool) usage.2
             (Spool.remaining_weight_g spool - usage.2)%Qc
             (max0 (usage.2 - Spool.remaining_weight_g spool))
             (bool_decide (usage.2 ≤ Spool.remaining_weight_g spool)%Qc) ]
    else []
  end.

Definition validation_of (db : DB) (usages : list (Z * Qc))
  : SpoolValidationResult.t :=
  if negb (settings_prevent (app_settings db))
  then SpoolValidationResult.mk true []
  else
    let shortages := flat_map (shortage_of db) usages in
    SpoolValidationResult.mk (bool_decide (length shortages = 0%nat)) shortages.

(** [keeps proj m]: when [m] returns, the part [proj] of the database is
    what it was. *)
Definition keeps {A B} (proj : DB → B) (m : Session A) : Prop :=
  ∀ db a db', m db = Ok (a, db') → proj db' = proj db.

(** The clamp rule of a deduction. *)
Definition clamp (prevent_negative : bool) (x : Qc) : Qc :=
  if prevent_negative then max0 x else x.

(** The grams that a list of (spool, grams) pairs takes from one spool,
    pair by pair. *)
Definition amounts_of (usages : list (Z * Qc)) (spool_id : Z) : list Qc :=
  (filter (λ u : Z * Qc, u.1 = spool_id) usages).*2.

(** A weight after the deductions of a list of amounts, one after the
    other, and after their restorations. *)
Definition deducted (prevent_negative : bool) (remaining : Qc)
    (amounts : list Qc) : Qc :=
  foldl (λ remaining grams, clamp prevent_negative (remaining ⊖ grams))
        remaining amounts.

Definition restored (remaining : Qc) (amounts : list Qc) : Qc :=
  foldl (λ remaining grams, remaining ⊕ grams) remaining amounts.

(** The allocations a creation payload asks for: the list of spools, or
    the single spool and its grams. *)
Definition requested_allocations (data : PrintJobCreate.t) : list (Z * Qc) :=
  match PrintJobCreate.spools data with
  | Some (spool_entry :: data_spools) =>
      map (λ e, (PrintJobSpoolInput.spool_id e,
                 PrintJobSpoolInput.filament_used_g e))
          (spool_entry :: data_spools)
  | _ =>
      match PrintJobCreate.spool_id data, PrintJobCreate.filament_used_g data with
      | Some spool_id, Some grams => [(spool_id, grams)]
      | _, _ => []
      end
  end.

(** The allocations of a stored job: its spool rows, by position, or,
    for a job with none, its single spool and grams. *)
Definition allocations (job : PrintJob.t) : list (Z * Qc) :=
  match loaded_print_job_spools job with
  | [] =>
      match PrintJob.spool_id job, PrintJob.filament_used_g job with
      | Some spool_id, Some grams =>
          if truthy (Some spool_id) then [(spool_id, grams)] else []
      | _, _ => []
      end
  | rows =>
      map (λ pjs, (PrintJobSpool.spool_id pjs,
                   PrintJobSpool.filament_used_g pjs)) rows
  end.

(** The row of a spool after one deduction, and after one restoration. *)
Definition deduct_row (prevent_negative : bool) (grams : Qc) (s : Spool.t)
  : Spool.t :=
  Spool.set_remaining_weight_g
    (clamp prevent_negative (Spool.remaining_weight_g s ⊖ grams)) s.

Definition restore_row (grams : Qc) (s : Spool.t) : Spool.t :=
  Spool.set_remaining_weight_g (Spool.remaining_weight_g s ⊕ grams) s.

(** The spools after the deductions of a list of usages, one after the
    other, and after their restorations. *)
Definition deduct_all (prevent_negative : bool) (usages : list (Z * Qc))
    (table : gmap Z Spool.t) : gmap Z Spool.t :=
  foldl (λ table u, alter (deduct_row prevent_negative u.2) u.1 table)
        table usages.

Definition restore_all (usages : list (Z * Qc)) (table : gmap Z Spool.t)
  : gmap Z Spool.t :=
  foldl (λ table u, alter (restore_row u.2) u.1 table) table usages.

(** The row [create_print_job] stores for a payload. *)
Definition created_print_job (data : PrintJobCreate.t) : PrintJob.t :=
  match PrintJobCreate.spools data with
  | Some (spool_entry :: data_spools) =>
      PrintJob.mk None (PrintJobCreate.project_id data)
        (PrintJobCreate.order_id data) (Some 0%Qc) (PrintJobCreate.status data)
        (map (λ e, PrintJobSpool.mk (PrintJobSpoolInput.spool_id e)
                     (PrintJobSpoolInput.filament_used_g e)
                     (PrintJobSpoolInput.position e))
             (spool_entry :: data_spools))
  | _ =>
      PrintJob.mk (PrintJobCreate.spool_id data) (PrintJobCreate.project_id data)
        (PrintJobCreate.order_id data) (PrintJobCreate.filament_used_g data)
        (PrintJobCreate.status data) []
  end.

(** The quantity the inventory-tracked lines of an order hold of one
    hardware item (one-off lines are not tracked). *)
Fixpoint tracked_quantity (lines : list OrderHardware.t) (hardware_item_id : Z)
  : Z :=
  match lines with
  | [] => 0
  | oh :: lines' =>
      (if negb (OrderHardware.is_one_off oh)
          && bool_decide (OrderHardware.hardware_item_id oh = Some hardware_item_id)
       then OrderHardware.quantity oh else 0)
      + tracked_quantity lines' hardware_item_id
  end.

(** The quantity a project requires of one hardware item. *)
Fixpoint required_quantity (lines : list ProjectHardware.t)
    (hardware_item_id : Z) : Z :=
  match lines with
  | [] => 0
  | ph :: lines' =>
      (if bool_decide (ProjectHardware.hardware_item_id ph = hardware_item_id)
       then ProjectHardware.quantity ph else 0)
      + required_quantity lines' hardware_item_id
  end.

(** The row of a hardware item after its stock moved by [delta]. *)
Definition move_stock (delta : Z) (h : HardwareItem.t) : HardwareItem.t :=
  HardwareItem.set_quantity_in_stock (HardwareItem.quantity_in_stock h + delta) h.

(** The hardware table after one tracked line of an order was restored
    ([sign = 1]) or deducted ([sign = -1]), and after all of them were. *)
Definition move_line (sign : Z) (oh : OrderHardware.t)
    (table : gmap Z HardwareItem.t) : gmap Z HardwareItem.t :=
  if OrderHardware.is_one_off oh then table
  else match OrderHardware.hardware_item_id oh with
       | Some hardware_item_id =>
           alter (move_stock (sign * OrderHardware.quantity oh))
                 hardware_item_id table
       | None => table
       end.

Definition move_order_hardware (sign : Z) (lines : list OrderHardware.t)
    (table : gmap Z HardwareItem.t) : gmap Z HardwareItem.t :=
  foldl (λ table oh, move_line sign oh table) table lines.

(** The hardware table after the lines of a project were all deducted. *)
Definition deduct_project_hardware (lines : list ProjectHardware.t)
    (table : gmap Z HardwareItem.t) : gmap Z HardwareItem.t :=
  foldl (λ table ph,
           alter (move_stock (- ProjectHardware.quantity ph))
                 (ProjectHardware.hardware_item_id ph) table)
        table lines.

(** A payload that changes the status of an order and nothing else. *)
Definition order_status_update (status : OrderStatus) : OrderUpdate.t :=
  OrderUpdate.mk Unset Unset (Sent status) Unset Unset Unset.

Definition hardware_replaced (data : OrderUpdate.t) : bool :=
  match OrderUpdate.hardware_items data with
  | Sent (Some _) => true
  | _ => false
  end.

(** The hardware table after [update_order] restored the lines it is
    about to replace. *)
Definition restore_replaced_lines (lines : list OrderHardware.t)
    (table : gmap Z HardwareItem.t) : gmap Z HardwareItem.t :=
  foldl (λ table oh,
           if negb (OrderHardware.is_one_off oh)
              && truthy (OrderHardware.hardware_item_id oh)
           then move_line 1 oh table else table)
        table lines.

(** One hardware item, numbered 1. *)
Definition one_item_db (stock : Z) : DB :=
  with_hardware_items (insert 1 (m3_screws stock))
    (empty_db (Some (default_settings true (Qc_of_Z 5)))).




(** The project of a product, as [db.get(Project, product.project_id)]
    finds it. *)
Definition product_project (db : DB) (product : ProductOnHand.t)
  : option Project.t :=
  ProductOnHand.project_id product ≫= λ project_id, projects db !! project_id.

(** A project that requires [quantity] of item 1, and a product made
    with it from print job 1. *)
Definition bracket_project (quantity : Z) : Project.t :=
  Project.mk None None [ProjectHardware.mk 1 quantity].

Definition bracket (status : ProductStatus) : ProductOnHand.t :=
  ProductOnHand.mk (Some 1) 1 "Bracket"%string status
    (Some "Shelf A"%string) None.

(** Item 1 in stock [stock] times, the project (numbered 1), a completed
    print job (numbered 1, of order [job_order_id]) and the product
    (numbered 1). *)
Definition one_product_db (stock quantity : Z) (status : ProductStatus)
    (job_order_id : option Z) : DB :=
  mkDB (Some (default_settings true (Qc_of_Z 5)))
    ∅
    {[ 1 := m3_screws stock ]}
    {[ 1 := bracket_project quantity ]}
    {[ 1 := PrintJob.mk None (Some 1) job_order_id (Some 0%Qc) PJ_completed [] ]}
    ∅
    {[ 1 := bracket status ]}.

Definition mark_completed : ProductOnHandUpdate.t :=
  ProductOnHandUpdate.mk Unset (Sent P_completed) Unset Unset.



(** The update that takes a printed product to completed. *)
Definition completes (product : ProductOnHand.t) (data : ProductOnHandUpdate.t)
  : bool :=
  bool_decide (ProductOnHand.status product = P_printed)
  && bool_decide (ProductOnHandUpdate.status data = Sent P_completed).


(** The part of the state the first half of [update_order] leaves
    alone: the hardware table and, of the order's row, the status and
    the hardware lines. *)
Definition order_frame (order_id : Z) (db : DB)
  : gmap Z HardwareItem.t * option (OrderStatus * list OrderHardware.t) :=
  (hardware_items db,
   (λ o, (Order.status o, Order.order_hardware o)) <$> orders db !! order_id).

(** The same without the hardware lines, for the steps of [update_order]
    that replace them. *)
Definition order_status_frame (order_id : Z) (db : DB)
  : gmap Z HardwareItem.t * option OrderStatus :=
  (hardware_items db, Order.status <$> orders db !! order_id).




(** ** routers/product_on_hand.py: deleting a product *)

Definition delete_product_on_hand (id : Z) : Session unit :=
  product ← first products_on_hand id;
  _ ← or_raise product (HTTPException 404 ProductNotFound);
  update (with_products_on_hand (delete id)).

(** ** More readers of the state *)

(** The first of a list of spool ids that names no spool. *)
Definition first_missing_spool (ids : list Z) (table : gmap Z Spool.t)
  : option Z :=
  List.find (λ spool_id, bool_decide (table !! spool_id = None)) ids.



(** [untouched proj handler]: whatever the request does, the part [proj]
    of the database is what it was. *)
Definition untouched {A B} (proj : DB → B) (handler : Session A) : Prop :=
  ∀ db, proj (request handler db) = proj db.

(** The spools after what a stored job took was given back, when the
    job was completed. *)
Definition restored_spools (job : PrintJob.t) (table : gmap Z Spool.t)
  : gmap Z Spool.t :=
  if bool_decide (PrintJob.status job = PJ_completed)
  then restore_all (allocations job) table else table.

(** ** routers/orders.py: loading an order, its print job *)

Definition _load_order (order_id : Z) : Session Order.t :=
  order ← first orders order_id;
  or_raise order (HTTPException 404 OrderNotFound).

(** [order.order_spools] as the relationship loads it: by position. *)
Definition by_order_spool_position (a b : OrderSpool.t) : Prop :=
  OrderSpool.position a ≤ OrderSpool.position b.
#[global] Instance by_order_spool_position_dec
  : RelDecision by_order_spool_position.
Proof. intros a b. unfold by_order_spool_position. apply _. Defined.
Definition loaded_order_spools (order : Order.t) : list OrderSpool.t :=
  merge_sort by_order_spool_position (Order.order_spools order).

(** [x or 0.0] on an optional float *)
Definition or_zero (x : option Qc) : Qc := default 0%Qc x.

Definition create_print_job_from_order (order_id : Z) (force : bool)
  : Session Z :=
  order ← _load_order order_id;
  if negb (truthy (Order.project_id order))
  then raise (HTTPException 400 OrderMustHaveProject)
  else
    project ← first_opt projects (Order.project_id order);
    project ← or_raise project (HTTPException 400 ProjectNotFound);
    match loaded_order_spools order with
    | (_ :: _) as order_spools =>
        (* Multi-color path: order has order_spools entries *)
        let spool_usages :=
          map (λ os, (OrderSpool.spool_id os, OrderSpool.filament_grams os))
              order_spools in
        when (negb force)
          (validation ← validate_spool_inventory spool_usages;
           if negb (SpoolValidationResult.is_valid validation)
           then raise_spool_shortage validation else ret tt);;
        pj_settings ← query app_settings;
        let prevent := settings_prevent pj_settings in
        print_job_id ← add_print_job
          (PrintJob.mk None None (Some order_id) (Some 0%Qc) PJ_completed []);
        for_each order_spools (λ os,
          modify_print_job print_job_id (PrintJob.add_print_job_spool
            (PrintJobSpool.mk (OrderSpool.spool_id os)
               (OrderSpool.filament_grams os) (OrderSpool.position os)));;
          spool ← first spools (OrderSpool.spool_id os);
          when (bool_decide (is_Some spool)
                && bool_decide (0 < OrderSpool.filament_grams os)%Qc)
            (_deduct_spool (OrderSpool.spool_id os)
               (OrderSpool.filament_grams os) prevent));;
        ret print_job_id
    | [] =>
        match Order.spool_id order with
        | Some order_spool_id =>
            if negb (order_spool_id =? 0) then
              (* Legacy single-spool path *)
              let filament_grams := or_zero (Project.filament_grams project) in
              when (bool_decide (0 < filament_grams)%Qc && negb force)
                (validation ← validate_spool_inventory
                                [(order_spool_id, filament_grams)];
                 if negb (SpoolValidationResult.is_valid validation)
                 then raise_spool_shortage validation else ret tt);;
              pj_settings ← query app_settings;
              let prevent := settings_prevent pj_settings in
              print_job_id ← add_print_job
                (PrintJob.mk (Some order_spool_id) None (Some order_id)
                   (Some filament_grams) PJ_completed []);
              spool ← first spools order_spool_id;
              when (bool_decide (is_Some spool)
                    && used_and_positive (Some filament_grams))
                (_deduct_spool order_spool_id filament_grams prevent);;
              ret print_job_id
            else raise (HTTPException 400 OrderMustHaveSpools)
        | None => raise (HTTPException 400 OrderMustHaveSpools)
        end
    end.

(** ** routers/product_on_hand.py: the cost of a product *)

(** [used * (spool.purchase_price / spool.total_weight_g)] for a spool
    that is there and weighs something, nothing otherwise. *)
Definition filament_cost_of (spool : option Spool.t) (used : Qc) : Qc :=
  match spool with
  | Some spool =>
      if bool_decide (0 < Spool.total_weight_g spool)%Qc
      then used ⊗ (Spool.purchase_price spool ⊘ Spool.total_weight_g spool)
      else 0%Qc
  | None => 0%Qc
  end.

Definition _calculate_product_cost (product : ProductOnHand.t) : Session Qc :=
  (* Filament cost from print job *)
  print_job ← first print_jobs (ProductOnHand.print_job_id product);
  filament_cost ←
    match print_job with
    | Some print_job =>
        match loaded_print_job_spools print_job with
        | (_ :: _) as print_job_spools =>
            fold_each print_job_spools 0%Qc (λ filament_cost pjs,
              spool ← first spools (PrintJobSpool.spool_id pjs);
              ret (filament_cost
                   ⊕ filament_cost_of spool
                       (PrintJobSpool.filament_used_g pjs)))
        | [] =>
            spool ← first_opt spools (PrintJob.spool_id print_job);
            if bool_decide (is_Some spool)
               && nonzero (PrintJob.filament_used_g print_job)
            then ret (filament_cost_of spool
                        (or_zero (PrintJob.filament_used_g print_job)))
            else ret 0%Qc
        end
    | None => ret 0%Qc
    end;
  (* Hardware cost from project *)
  project ← first_opt projects (ProductOnHand.project_id product);
  hardware_cost ←
    match project with
    | Some project =>
        fold_each (Project.hardware project) 0%Qc (λ hardware_cost ph,
          hardware_item ← hardware_item_of ph;
          ret (hardware_cost
               ⊕ HardwareItem.cost_per_item hardware_item
                 ⊗ float_of_int (ProjectHardware.quantity ph)))
    | None => ret 0%Qc
    end;
  ret (py_round (filament_cost ⊕ hardware_cost) 2).

(** The grams an order asks of its spools: those of its spool rows, by
    position, or, for an order with none, the grams of the project on
    its single spool. *)
Definition order_usages (order : Order.t) (project : Project.t)
  : list (Z * Qc) :=
  match loaded_order_spools order with
  | (_ :: _) as order_spools =>
      map (λ os, (OrderSpool.spool_id os, OrderSpool.filament_grams os))
          order_spools
  | [] =>
      match Order.spool_id order with
      | Some order_spool_id =>
          if negb (order_spool_id =? 0)
          then [(order_spool_id, or_zero (Project.filament_grams project))]
          else []
      | None => []
      end
  end.

(** The usages that take something. *)
Definition positive_usages (usages : list (Z * Qc)) : list (Z * Qc) :=
  filter (λ u : Z * Qc, (0 < u.2)%Qc) usages.

(** The print job that [create_print_job_from_order] stores. *)
Definition print_job_of_order (order_id : Z) (order : Order.t)
    (project : Project.t) : PrintJob.t :=
  match loaded_order_spools order with
  | (_ :: _) as order_spools =>
      PrintJob.mk None None (Some order_id) (Some 0%Qc) PJ_completed
        (map (λ os, PrintJobSpool.mk (OrderSpool.spool_id os)
                      (OrderSpool.filament_grams os) (OrderSpool.position os))
             order_spools)
  | [] =>
      PrintJob.mk (Order.spool_id order) None (Some order_id)
        (Some (or_zero (Project.filament_grams project))) PJ_completed []
  end.

(** The project of an order, as [order.project] finds it. *)
Definition order_project (db : DB) (order : Order.t) : option Project.t :=
  Order.project_id order ≫= λ project_id, projects db !! project_id.


(** ** routers/orders.py: the order a creation stores *)








(** [total = 0.0; for x in xs: total += f(x)] *)
Definition total_of {A} (f : A → Qc) (xs : list A) : Qc :=
  foldl (λ acc x, acc ⊕ f x) 0%Qc xs.

(** ** routers/product_on_hand.py: the two parts of the cost of a product *)

(** The filament of the print job a product was made from, priced by
    the spools it came from. *)
Definition product_filament_cost (db : DB) (product : ProductOnHand.t) : Qc :=
  match print_jobs db !! ProductOnHand.print_job_id product with
  | Some print_job =>
      match loaded_print_job_spools print_job with
      | (_ :: _) as print_job_spools =>
          total_of (λ pjs,
                      filament_cost_of
                        (spools db !! PrintJobSpool.spool_id pjs)
                        (PrintJobSpool.filament_used_g pjs))
                   print_job_spools
      | [] =>
          let spool := PrintJob.spool_id print_job ≫= λ k, spools db !! k in
          if bool_decide (is_Some spool)
             && nonzero (PrintJob.filament_used_g print_job)
          then filament_cost_of spool
                 (or_zero (PrintJob.filament_used_g print_job))
          else 0%Qc
      end
  | None => 0%Qc
  end.

(** The hardware lines of the project of a product. *)
Definition product_hardware_lines (db : DB) (product : ProductOnHand.t)
  : list ProjectHardware.t :=
  from_option Project.hardware [] (product_project db product).

(** The hardware of the project, priced by the cost per item. *)
Definition product_hardware_cost (db : DB) (product : ProductOnHand.t) : Qc :=
  total_of (λ ph,
              from_option HardwareItem.cost_per_item 0%Qc
                (hardware_items db !! ProjectHardware.hardware_item_id ph)
              ⊗ float_of_int (ProjectHardware.quantity ph))
           (product_hardware_lines db product).

(** No spool of the database holds a negative weight. *)
Definition no_negative_spool (db : DB) : Prop :=
  ∀ spool_id spool,
    spools db !! spool_id = Some spool →
    (0 ≤ Spool.remaining_weight_g spool)%Qc.
(** * Properties *)

(** ** Numbers *)

(** [lra] on the canonical rationals: goals and hypotheses are read in [Q]. *)
Lemma Qc_eq_Qeq (x y : Qc) : x = y → (this x == this y)%Q.
Proof. intros ->. reflexivity. Qed.

Ltac qc_lra :=
  try apply Qc_is_canon;
  repeat match goal with
  | H : @eq Qc _ _ |- _ => apply Qc_eq_Qeq in H
  | H : ¬ (@eq Qc _ _) |- _ => clear H
  end;
  unfold Qcle, Qclt, Qcplus, Qcminus, Qcopp, Qcmult, Q2Qc, Qc_of_Z in *;
  cbn [this] in *;
  repeat (setoid_rewrite Qred_correct);
  repeat match goal with H : _ |- _ => setoid_rewrite Qred_correct in H end;
  lra.

Lemma max0_nonneg (x : Qc) : (0 ≤ x)%Qc → max0 x = x.
Proof.
  intros Hx. unfold max0. case_bool_decide; [done|]. qc_lra.
Qed.

Lemma max0_neg (x : Qc) : (x ≤ 0)%Qc → max0 x = 0%Qc.
Proof.
  intros Hx. unfold max0. case_bool_decide; [|done]. qc_lra.
Qed.

Lemma max0_ge_0 (x : Qc) : (0 ≤ max0 x)%Qc.
Proof. unfold max0. case_bool_decide; qc_lra. Qed.

(** Rounding half to even moves a number by at most one half. *)
Lemma round_half_even_close (q : Q) :
  (q - (1 # 2) <= inject_Z (round_half_even q) <= q + (1 # 2))%Q.
Proof.
  unfold round_half_even.
  pose proof (Qfloor_le q) as Hlo.
  pose proof (Qlt_floor q) as Hhi.
  rewrite inject_Z_plus in Hhi. change (inject_Z 1) with 1%Q in Hhi.
  destruct (Qcompare_spec (q - inject_Z (Qfloor q)) (1 # 2)) as [He|Hl|Hg].
  - destruct (Z.even (Qfloor q)).
    + lra.
    + rewrite inject_Z_plus. change (inject_Z 1) with 1%Q. lra.
  - lra.
  - rewrite inject_Z_plus. change (inject_Z 1) with 1%Q. lra.
Qed.

(** *** binary64 *)

Lemma round_half_even_comp (q1 q2 : Q) :
  (q1 == q2)%Q → round_half_even q1 = round_half_even q2.
Proof.
  intros Heq. unfold round_half_even.
  rewrite (Qfloor_comp _ _ Heq).
  assert (Qcompare (q1 - inject_Z (Qfloor q2)) (1 # 2)
          = Qcompare (q2 - inject_Z (Qfloor q2)) (1 # 2)) as ->; [|done].
  apply Qcompare_comp; [by rewrite Heq | reflexivity].
Qed.

Lemma round_half_even_Z (n : Z) : round_half_even (inject_Z n) = n.
Proof.
  unfold round_half_even. rewrite Qfloor_Z.
  assert (inject_Z n - inject_Z n == 0)%Q as Hzero by ring.
  by rewrite (Qcompare_comp _ _ Hzero (1 # 2) (1 # 2) (Qeq_refl _)).
Qed.

Lemma round_half_even_nonneg (q : Q) : (0 <= q)%Q → 0 ≤ round_half_even q.
Proof.
  intros Hq. pose proof (round_half_even_close q) as [Hlo _].
  assert (inject_Z (-1) < inject_Z (round_half_even q))%Q as Hlt.
  { change (inject_Z (-1)) with (-1)%Q. lra. }
  rewrite <- Zlt_Qlt in Hlt. lia.
Qed.

Lemma pow2_pos (k : Z) : (0 < pow2 k)%Q.
Proof. unfold pow2. by apply Qpower_0_lt. Qed.

(** Rounding to binary64 keeps the sign. *)
Lemma fl_nonneg (x : Qc) : (0 ≤ x)%Qc → (0 ≤ fl x)%Qc.
Proof.
  intros Hx. unfold fl. destruct (Qeq_bool (this x) 0); [done|].
  set (ulp := pow2 _). pose proof (pow2_pos (Z.max (ilog2 (this x) - 52) (-1074)))
    as Hulp. fold ulp in Hulp.
  unfold Qcle. cbn [this Q2Qc].
  assert (0 <= inject_Z (round_half_even (this x / ulp)) * ulp)%Q as Hgoal;
    [|rewrite !Qred_correct; exact Hgoal].
  apply Qmult_le_0_compat; [|lra].
  change 0%Q with (inject_Z 0). rewrite <- Zle_Qle.
  apply round_half_even_nonneg. apply Qle_shift_div_l; [done|].
  change (0 <= this x)%Q in Hx. lra.
Qed.

Lemma fl_0 : fl 0 = 0%Qc.
Proof. reflexivity. Qed.

Lemma pow2_of_nonneg (n : Z) : 0 ≤ n → (pow2 n == inject_Z (2 ^ n))%Q.
Proof.
  intros Hn. unfold pow2. rewrite (Zpower_Qpower 2 n Hn). reflexivity.
Qed.

Lemma pow2_of_neg (n : Z) : 0 ≤ n → (pow2 (- n) == / inject_Z (2 ^ n))%Q.
Proof.
  intros Hn. unfold pow2. rewrite Qpower_opp.
  rewrite (Zpower_Qpower 2 n Hn). reflexivity.
Qed.

Lemma ilog2_Z (z : Z) : z ≠ 0 → ilog2 (inject_Z z) = Z.log2 (Z.abs z).
Proof.
  intros Hz. unfold ilog2. cbn [Qnum Qden inject_Z].
  change (Z.log2 (Z.pos 1)) with 0. rewrite Z.sub_0_r.
  assert (Qle_bool (pow2 (Z.log2 (Z.abs z))) (Qabs (inject_Z z)) = true)
    as ->; [|done].
  apply Qle_bool_iff. rewrite pow2_of_nonneg by apply Z.log2_nonneg.
  assert (Qabs (inject_Z z) == inject_Z (Z.abs z))%Q as -> by reflexivity.
  rewrite <- Zle_Qle. apply Z.log2_spec. lia.
Qed.

(** A whole number of less than 54 bits is a float. *)
Lemma fl_int (z : Z) : Z.abs z < 2 ^ 53 → fl (Qc_of_Z z) = Qc_of_Z z.
Proof.
  intros Hz. destruct (decide (z = 0)) as [->|Hne]; [by apply Qc_is_canon|].
  unfold fl.
  assert (this (Qc_of_Z z) = inject_Z z) as Hthis.
  { reflexivity. }
  rewrite Hthis.
  assert (Qeq_bool (inject_Z z) 0 = false) as ->.
  { apply not_true_is_false. intros Heq%Qeq_bool_iff.
    change 0%Q with (inject_Z 0) in Heq. rewrite inject_Z_injective in Heq.
    lia. }
  rewrite (ilog2_Z z Hne).
  set (e := Z.log2 (Z.abs z)).
  assert (0 ≤ e < 53) as He.
  { split; [apply Z.log2_nonneg|]. apply Z.log2_lt_pow2; lia. }
  rewrite Z.max_l by lia.
  replace (e - 52) with (- (52 - e)) by lia.
  set (m := 2 ^ (52 - e)).
  assert (0 < m) as Hm by (apply Z.pow_pos_nonneg; lia).
  assert (pow2 (- (52 - e)) == / inject_Z m)%Q as Hulp
    by (apply pow2_of_neg; lia).
  assert (¬ inject_Z m == 0)%Q as Hm0.
  { change 0%Q with (inject_Z 0). rewrite inject_Z_injective. lia. }
  assert (inject_Z z / pow2 (- (52 - e)) == inject_Z (z * m))%Q as Hscaled.
  { rewrite Hulp, inject_Z_mult. field. done. }
  rewrite (round_half_even_comp _ _ Hscaled), round_half_even_Z.
  apply Qc_is_canon. cbn [this Q2Qc Qc_of_Z]. rewrite !Qred_correct.
  rewrite Hulp, inject_Z_mult. field. done.
Qed.

Lemma clamp_fl_nonneg p (x : Qc) : (0 ≤ x)%Qc → clamp p (fl x) = fl x.
Proof.
  intros Hx. destruct p; simpl; [|done].
  apply max0_nonneg. by apply fl_nonneg.
Qed.


(** ** The cost calculator *)

(** ** Running session code *)

Arguments bind {A B} m k db /.
Arguments ret {A} a db /.
Arguments raise {A} e db /.
Arguments query {A} f db /.
Arguments update f db /.
Arguments first {A} table key db /.
Arguments first_opt {A} table key db /.
Arguments or_raise {A} !o e db /.
Arguments when !b m db /.

Lemma bind_inv {A B} (m : Session A) (k : A → Session B) db b db'' :
  bind m k db = Ok (b, db'') →
  ∃ a db', m db = Ok (a, db') ∧ k a db' = Ok (b, db'').
Proof.
  simpl. destruct (m db) as [[a db']|e]; [eauto | done].
Qed.

(** ** The validator *)

Lemma validate_spool_inventory_run db usages :
  validate_spool_inventory usages db = Ok (validation_of db usages, db).
Proof.
  unfold validate_spool_inventory, validation_of. simpl.
  destruct (settings_prevent (app_settings db)); simpl; [|done].
  match goal with |- context [fold_each _ _ ?b] => set (body := b) end.
  assert (∀ acc, fold_each usages acc body db
                 = Ok (acc ++ flat_map (shortage_of db) usages, db)) as ->.
  { induction usages as [|[spool_id grams] usages IH]; intros acc.
    - simpl. by rewrite app_nil_r.
    - cbn [fold_each flat_map]. unfold bind. unfold body at 1. simpl.
      unfold shortage_of at 1. simpl.
      destruct (spools db !! spool_id) as [spool|]; simpl.
      + case_bool_decide; simpl; rewrite IH; [by rewrite <- app_assoc | done].
      + by rewrite IH. }
  done.
Qed.

Lemma validation_of_app db usages1 usages2 :
  SpoolValidationResult.shortages (validation_of db (usages1 ++ usages2))
  = SpoolValidationResult.shortages (validation_of db usages1)
    ++ SpoolValidationResult.shortages (validation_of db usages2).
Proof.
  unfold validation_of.
  destruct (settings_prevent (app_settings db)); simpl; [|done].
  apply flat_map_app.
Qed.

(** A usage that leaves the reserve untouched records no shortage. *)
Lemma shortage_of_enough db spool_id spool grams :
  spools db !! spool_id = Some spool →
  (settings_reserve (app_settings db) + grams
   ≤ Spool.remaining_weight_g spool)%Qc →
  shortage_of db (spool_id, grams) = [].
Proof.
  intros Hs Hle. unfold shortage_of. simpl. rewrite Hs.
  case_bool_decide; [|done]. qc_lra.
Qed.

(** C2, as the code has it: with prevention enabled and a reserve of 5 g,
    validating the single usage of 6 g of a spool that holds 10 g is
    invalid with exactly one shortage; the usable weight is 10 - 5 = 5 and
    the usable weight less the request is -1, which is why the shortage is
    recorded; the shortage itself carries current 10, requested 6,
    resulting_weight_g = remaining - requested = 4, shortage_g = 0 and
    within_reserve = True. *)
Theorem validate_reserve_example (db : DB) (spool_id : Z) (spool : Spool.t) :
  settings_prevent (app_settings db) = true →
  settings_reserve (app_settings db) = Qc_of_Z 5 →
  spools db !! spool_id = Some spool →
  Spool.remaining_weight_g spool = Qc_of_Z 10 →
  ∃ shortage,
    validate_spool_inventory [(spool_id, Qc_of_Z 6)] db
    = Ok (SpoolValidationResult.mk false [shortage], db)
    ∧ (Spool.remaining_weight_g spool - settings_reserve (app_settings db)
       = Qc_of_Z 5)%Qc
    ∧ (Spool.remaining_weight_g spool - settings_reserve (app_settings db)
       - Qc_of_Z 6 = Qc_of_Z (-1))%Qc
    ∧ SpoolShortage.spool_id shortage = spool_id
    ∧ SpoolShortage.current_weight_g shortage = Qc_of_Z 10
    ∧ SpoolShortage.requested_weight_g shortage = Qc_of_Z 6
    ∧ SpoolShortage.resulting_weight_g shortage = Qc_of_Z 4
    ∧ SpoolShortage.shortage_g shortage = 0%Qc
    ∧ SpoolShortage.within_reserve shortage = true.
Proof.
  intros Hprevent Hreserve Hspool Hremaining.
  rewrite validate_spool_inventory_run. unfold validation_of.
  rewrite Hprevent. simpl. unfold shortage_of. simpl.
  rewrite Hspool, Hreserve, Hremaining.
  eexists. split; [reflexivity|]. simpl.
  repeat split; by apply Qc_is_canon.
Qed.

Lemma validate_reserve_example_witness :
  ∃ shortage,
    validate_spool_inventory [(1, Qc_of_Z 6)]
      (one_spool_db true (Qc_of_Z 5) (Qc_of_Z 10))
    = Ok (SpoolValidationResult.mk false [shortage],
          one_spool_db true (Qc_of_Z 5) (Qc_of_Z 10))
    ∧ SpoolShortage.resulting_weight_g shortage = Qc_of_Z 4
    ∧ SpoolShortage.within_reserve shortage = true.
Proof.
  destruct (validate_reserve_example
              (one_spool_db true (Qc_of_Z 5) (Qc_of_Z 10)) 1
              (pla_spool (Qc_of_Z 10)))
    as (shortage & Hrun & _ & _ & _ & _ & _ & Hres & _ & Hin);
    [reflexivity | reflexivity | reflexivity | reflexivity |].
  exists shortage. auto.
Defined.

(** C2, as the claim has it, fails: the one shortage that is returned has
    resulting weight 4, not -1. *)
Lemma validate_reserve_example_resulting_weight :
  ∃ shortage,
    validate_spool_inventory [(1, Qc_of_Z 6)]
      (one_spool_db true (Qc_of_Z 5) (Qc_of_Z 10))
    = Ok (SpoolValidationResult.mk false [shortage],
          one_spool_db true (Qc_of_Z 5) (Qc_of_Z 10))
    ∧ SpoolShortage.resulting_weight_g shortage = Qc_of_Z 4
    ∧ SpoolShortage.resulting_weight_g shortage ≠ Qc_of_Z (-1).
Proof.
  rewrite validate_spool_inventory_run.
  eexists. split; [reflexivity|]. simpl.
  split; [by apply Qc_is_canon|].
  intros H. apply Qc_eq_Qeq in H. vm_compute in H. discriminate.
Qed.

(** C8: the validator leaves the database as it found it; the shortages
    of a batch are those of its parts, one after the other, each usage
    being checked against the stored weight; so when the reserve and
    one usage fit the remaining weight ([g + a ≤ R]) the batch that asks
    for the same usage twice is valid, although together the two exceed
    the usable weight ([R < g + 2a]). *)
Theorem validate_inventory_read_only_independent :
  (∀ db usages, ∃ result,
     validate_spool_inventory usages db = Ok (result, db))
  ∧ (∀ db usages1 usages2 result1 result2 result db1 db2 db',
       validate_spool_inventory usages1 db = Ok (result1, db1) →
       validate_spool_inventory usages2 db = Ok (result2, db2) →
       validate_spool_inventory (usages1 ++ usages2) db = Ok (result, db') →
       SpoolValidationResult.shortages result
       = SpoolValidationResult.shortages result1
         ++ SpoolValidationResult.shortages result2)
  ∧ (∀ db spool_id spool (a : Qc),
       spools db !! spool_id = Some spool →
       let R := Spool.remaining_weight_g spool in
       let g := settings_reserve (app_settings db) in
       (g + a ≤ R)%Qc → (R < g + (a + a))%Qc →
       validate_spool_inventory [(spool_id, a); (spool_id, a)] db
       = Ok (SpoolValidationResult.mk true [], db)
       ∧ (R - g < a + a)%Qc).
Proof.
  split; [|split].
  - intros db usages. eexists. apply validate_spool_inventory_run.
  - intros db usages1 usages2 result1 result2 result db1 db2 db'.
    rewrite !validate_spool_inventory_run.
    intros [= <- _] [= <- _] [= <- _]. apply validation_of_app.
  - intros db spool_id spool a Hspool R g Hfit Hexceeds.
    rewrite validate_spool_inventory_run. unfold validation_of. simpl.
    rewrite (shortage_of_enough db spool_id spool a Hspool Hfit). simpl.
    split; [by destruct (settings_prevent _)|].
    subst R g. qc_lra.
Qed.

Lemma validate_inventory_read_only_independent_witness :
  validate_spool_inventory [(1, Qc_of_Z 40); (1, Qc_of_Z 40)]
    (one_spool_db true (Qc_of_Z 5) (Qc_of_Z 50))
  = Ok (SpoolValidationResult.mk true [],
        one_spool_db true (Qc_of_Z 5) (Qc_of_Z 50))
  ∧ (Qc_of_Z 50 - Qc_of_Z 5 < Qc_of_Z 40 + Qc_of_Z 40)%Qc.
Proof.
  apply (proj2 (proj2 validate_inventory_read_only_independent)
           (one_spool_db true (Qc_of_Z 5) (Qc_of_Z 50)) 1
           (pla_spool (Qc_of_Z 50)) (Qc_of_Z 40));
    [reflexivity | by vm_compute | reflexivity].
Defined.

(** ** Frames: what a computation leaves alone *)

Section keeps.
Context {B : Type} (proj : DB → B).

Lemma keeps_ret {A} (a : A) : keeps proj (ret a).
Proof. intros db a' db' [= _ <-]. done. Qed.

Lemma keeps_raise {A} e : keeps proj (@raise A e).
Proof. intros db a' db' [=]. Qed.

Lemma keeps_query {A} (f : DB → A) : keeps proj (query f).
Proof. intros db a' db' [= _ <-]. done. Qed.

Lemma keeps_first {A} (table : DB → gmap Z A) key :
  keeps proj (first table key).
Proof. apply keeps_query. Qed.

Lemma keeps_first_opt {A} (table : DB → gmap Z A) key :
  keeps proj (first_opt table key).
Proof. apply keeps_query. Qed.

Lemma keeps_or_raise {A} (o : option A) e : keeps proj (or_raise o e).
Proof. destruct o; [apply keeps_ret | apply keeps_raise]. Qed.

Lemma keeps_update f : (∀ db, proj (f db) = proj db) → keeps proj (update f).
Proof. intros Hf db a' db' [= _ <-]. apply Hf. Qed.

Lemma keeps_bind {A C} (m : Session A) (k : A → Session C) :
  keeps proj m → (∀ a, keeps proj (k a)) → keeps proj (bind m k).
Proof.
  intros Hm Hk db c db'' (a & db' & H1 & H2)%bind_inv.
  rewrite (Hk _ _ _ _ H2). eauto.
Qed.

Lemma keeps_bind_or_raise {A C} (o : option A) e (k : A → Session C) :
  (∀ a, o = Some a → keeps proj (k a)) → keeps proj (bind (or_raise o e) k).
Proof.
  intros Hk. destruct o as [a|]; [|by intros db c db'].
  intros db c db' H. by apply (Hk a eq_refl db c db').
Qed.

Lemma keeps_when b m : keeps proj m → keeps proj (when b m).
Proof. destruct b; [done | intros _; apply keeps_ret]. Qed.

Lemma keeps_for_each {A} (xs : list A) body :
  (∀ x, keeps proj (body x)) → keeps proj (for_each xs body).
Proof.
  intros Hbody. induction xs as [|x xs IH]; simpl.
  - apply keeps_ret.
  - apply keeps_bind; [apply Hbody | intros _; apply IH].
Qed.

Lemma keeps_fold_each {A S} (xs : list A) (acc : S) body :
  (∀ acc x, keeps proj (body acc x)) → keeps proj (fold_each xs acc body).
Proof.
  intros Hbody. revert acc. induction xs as [|x xs IH]; intros acc; simpl.
  - apply keeps_ret.
  - apply keeps_bind; [apply Hbody | intros acc'; apply IH].
Qed.

Lemma keeps_validate_spool_inventory usages :
  keeps proj (validate_spool_inventory usages).
Proof.
  intros db a db'. rewrite validate_spool_inventory_run. by intros [= _ <-].
Qed.

(** What [request] leaves alone. *)
Lemma keeps_request {A} (handler : Session A) db :
  keeps proj handler → proj (request handler db) = proj db.
Proof.
  intros H. unfold request.
  destruct (handler db) as [[a db']|e] eqn:Hrun; [eauto | done].
Qed.
End keeps.

(** One step of a frame proof, by the shape of the computation. *)
Ltac keeps_step :=
  lazymatch goal with
  | |- keeps _ (bind (or_raise _ _) _) =>
      apply keeps_bind_or_raise; intros ? ?; simplify_eq
  | |- keeps _ (bind _ _) => apply keeps_bind; [|intros ?]
  | |- keeps _ (ret _) => apply keeps_ret
  | |- keeps _ (raise _) => apply keeps_raise
  | |- keeps _ (raise_spool_shortage _) => apply keeps_raise
  | |- keeps _ (query _) => apply keeps_query
  | |- keeps _ (first _ _) => apply keeps_first
  | |- keeps _ (first_opt _ _) => apply keeps_first_opt
  | |- keeps _ (or_raise _ _) => apply keeps_or_raise
  | |- keeps _ (when _ _) => apply keeps_when
  | |- keeps _ (for_each _ _) => apply keeps_for_each; intros ?
  | |- keeps _ (fold_each _ _ _) => apply keeps_fold_each; intros ? ?
  | |- keeps _ (validate_spool_inventory _) =>
      apply keeps_validate_spool_inventory
  | |- keeps _ (update _) => apply keeps_update; intros ?; reflexivity
  | |- keeps _ (modify_print_job _ _) => unfold modify_print_job
  | |- keeps _ (modify_order _ _) => unfold modify_order
  | |- keeps _ (add_print_job _) => unfold add_print_job
  | |- keeps _ (add_order _) => unfold add_order
  | |- keeps _ (set_remaining_weight_g _ _) => unfold set_remaining_weight_g
  | |- keeps _ (set_quantity_in_stock _ _) => unfold set_quantity_in_stock
  | |- keeps _ (add_order_spools _ _) => unfold add_order_spools
  | |- keeps _ (add_order_hardware_items _ _) =>
      unfold add_order_hardware_items
  | |- keeps _ (if ?b then _ else _) => destruct b
  | |- keeps _ (match ?x with _ => _ end) => destruct x
  | |- keeps _ (let _ := _ in _) => cbv zeta
  end.
Ltac keeps_auto := repeat keeps_step.

(** ** Print jobs *)

Arguments modify_print_job job_id f db /.
Arguments set_remaining_weight_g spool f db /.
Arguments add_print_job job db /.

Lemma keeps_modify_print_job {B} (proj : DB → B) job_id f :
  (∀ g db, proj (with_print_jobs g db) = proj db) →
  keeps proj (modify_print_job job_id f).
Proof. intros H. apply keeps_update. intros db. apply H. Qed.

(** C10: an update of a print job whose payload carries neither a list
    of spools nor an amount of filament leaves every spool as it was,
    whether the update goes through or is refused; in particular an
    update of the status alone goes through, sets the status, and neither
    restores nor deducts filament, whatever the old and the new status. *)
Theorem update_print_job_frame :
  (∀ db job_id data,
     (∀ spools_update, PrintJobUpdate.spools data ≠ Sent (Some spools_update)) →
     (∀ new_used, PrintJobUpdate.filament_used_g data ≠ Sent (Some new_used)) →
     spools (request (update_print_job job_id data) db) = spools db
     ∧ ∀ job db', update_print_job job_id data db = Ok (job, db') →
                  spools db' = spools db)
  ∧ (∀ db job_id old_job new_status,
       print_jobs db !! job_id = Some old_job →
       ∃ job db',
         update_print_job job_id
           (PrintJobUpdate.mk Unset Unset Unset Unset (Sent new_status) Unset false)
           db = Ok (job, db')
         ∧ print_jobs db' !! job_id = Some job
         ∧ job = PrintJob.set_status new_status old_job
         ∧ spools db' = spools db).
Proof.
  split.
  - intros db job_id data Hspools Hused.
    assert (keeps spools (update_print_job job_id data)) as Hkeeps.
    { unfold update_print_job.
      destruct (PrintJobUpdate.spools data) as [|[spools_update|]] eqn:Hs;
        [|by destruct (Hspools spools_update)|].
      all: destruct (PrintJobUpdate.filament_used_g data) as [|[new_used|]] eqn:Hu;
        [|by destruct (Hused new_used)|].
      all: keeps_auto; try (by apply keeps_modify_print_job).
      all: simpl; keeps_auto. }
    split; [by apply keeps_request | apply Hkeeps].
  - intros db job_id old_job new_status Hjob.
    unfold update_print_job. simpl. rewrite Hjob. simpl.
    rewrite lookup_alter_eq, Hjob. simpl.
    eexists _, _. split; [reflexivity|]. simpl.
    by rewrite lookup_alter_eq, Hjob.
Qed.

Lemma update_print_job_frame_witness :
  let db :=
    with_print_jobs (insert 7
      (PrintJob.mk (Some 1) None None (Some (Qc_of_Z 30)) PJ_completed []))
      (one_spool_db true (Qc_of_Z 5) (Qc_of_Z 70)) in
  spools (request (update_print_job 7
            (PrintJobUpdate.mk Unset Unset Unset Unset (Sent PJ_failed) Unset false))
            db)
  = spools db.
Proof.
  intros db.
  apply (proj1 update_print_job_frame db 7
           (PrintJobUpdate.mk Unset Unset Unset Unset (Sent PJ_failed) Unset false));
    simpl; intros; discriminate.
Defined.

(** *** Deductions *)

Lemma set_remaining_weight_g_same (spool : Spool.t) (w : Qc) :
  w = Spool.remaining_weight_g spool →
  Spool.set_remaining_weight_g w spool = spool.
Proof. intros ->. by destruct spool. Qed.

Lemma amounts_of_cons s grams usages spool_id :
  amounts_of ((s, grams) :: usages) spool_id
  = if bool_decide (s = spool_id)
    then grams :: amounts_of usages spool_id
    else amounts_of usages spool_id.
Proof.
  unfold amounts_of. case_bool_decide as Heq.
  - by rewrite filter_cons_True.
  - by rewrite filter_cons_False.
Qed.

Lemma amounts_of_not_in usages spool_id :
  spool_id ∉ usages.*1 → amounts_of usages spool_id = [].
Proof.
  induction usages as [|[s g] usages IH]; [done|].
  simpl. rewrite not_elem_of_cons. intros [Hne Hnotin].
  rewrite amounts_of_cons, bool_decide_eq_false_2 by done. auto.
Qed.

Lemma amounts_of_unique usages spool_id grams :
  NoDup usages.*1 → (spool_id, grams) ∈ usages →
  amounts_of usages spool_id = [grams].
Proof.
  induction usages as [|[s g] usages IH]; simpl.
  - intros _ Hin. by apply elem_of_nil in Hin.
  - intros [Hnotin Hnodup]%NoDup_cons [[= -> ->]|Hin]%elem_of_cons.
    + rewrite amounts_of_cons, bool_decide_eq_true_2 by done.
      by rewrite (amounts_of_not_in _ _ Hnotin).
    + rewrite amounts_of_cons. case_bool_decide as Heq; [|by apply IH].
      subst s. destruct Hnotin. apply list_elem_of_fmap.
      by exists (spool_id, grams).
Qed.

Lemma amounts_of_Permutation_unique usages1 usages2 spool_id :
  usages1 ≡ₚ usages2 → NoDup usages1.*1 →
  amounts_of usages1 spool_id = amounts_of usages2 spool_id.
Proof.
  intros Hperm Hnodup.
  destruct (decide (spool_id ∈ usages1.*1)) as [Hin|Hnotin].
  - apply list_elem_of_fmap in Hin as ([s g] & -> & Hin). simpl.
    rewrite (amounts_of_unique usages1 s g) by done.
    symmetry. apply amounts_of_unique.
    + by rewrite <- Hperm.
    + by rewrite <- Hperm.
  - rewrite (amounts_of_not_in _ _ Hnotin). symmetry.
    apply amounts_of_not_in. by rewrite <- Hperm.
Qed.

(** The spools after a list of deductions: each holds what the
    deductions that name it leave, one after the other. *)
Lemma deduct_all_lookup p usages table spool_id :
  deduct_all p usages table !! spool_id
  = (λ spool,
       Spool.set_remaining_weight_g
         (deducted p (Spool.remaining_weight_g spool)
            (amounts_of usages spool_id)) spool) <$> table !! spool_id.
Proof.
  revert table. induction usages as [|[s g] usages IH]; intros table.
  - simpl. destruct (table !! spool_id) as [spool|]; simpl; [|done].
    by rewrite set_remaining_weight_g_same.
  - change (deduct_all p ((s, g) :: usages) table)
      with (deduct_all p usages (alter (deduct_row p g) s table)).
    rewrite IH, amounts_of_cons. case_bool_decide as Heq.
    + subst s. rewrite lookup_alter_eq.
      by destruct (table !! spool_id).
    + by rewrite lookup_alter_ne.
Qed.


Lemma deduct_all_lookup_None p usages table spool_id :
  table !! spool_id = None → deduct_all p usages table !! spool_id = None.
Proof. intros Hnone. by rewrite deduct_all_lookup, Hnone. Qed.

Lemma _deduct_spool_run spool grams prevent db :
  _deduct_spool spool grams prevent db
  = Ok (tt, with_spools (alter (deduct_row prevent grams) spool) db).
Proof. by destruct prevent. Qed.

Lemma create_print_job_spools_run job_id status prevent data_spools db db' :
  create_print_job_spools job_id status prevent data_spools db = Ok (tt, db') →
  spools db'
  = if bool_decide (status = PJ_completed)
    then deduct_all prevent
           (map (λ e, (PrintJobSpoolInput.spool_id e,
                       PrintJobSpoolInput.filament_used_g e)) data_spools)
           (spools db)
    else spools db.
Proof.
  unfold create_print_job_spools.
  revert db. induction data_spools as [|e data_spools IH]; intros db.
  - simpl. intros [= <-]. by case_bool_decide.
  - cbn [for_each]. intros (? & db1 & Hbody & Hrest)%bind_inv.
    apply IH in Hrest. rewrite Hrest. clear IH Hrest.
    apply bind_inv in Hbody as (? & db0 & [= _ <-] & Hbody).
    case_bool_decide as Hstatus; simpl in Hbody.
    + destruct (spools db !! PrintJobSpoolInput.spool_id e); [|done].
      simpl in Hbody. rewrite _deduct_spool_run in Hbody.
      by simplify_eq.
    + by simplify_eq.
Qed.

(** Decomposing a run. *)
Ltac inv_bind H :=
  let a := fresh "a" in
  let db := fresh "db" in
  let H1 := fresh "Hstep" in
  apply bind_inv in H as (a & db & H1 & H).

(** A step that only reads: the state after it is the state before. *)
Ltac read_only H :=
  lazymatch type of H with
  | ?m ?db = Ok (_, ?db') =>
      let Hk := fresh in
      assert (keeps (λ db, db) m) as Hk by keeps_auto;
      apply Hk in H; clear Hk; try subst db'
  end.

Lemma used_and_positive_Some (g : Qc) :
  (0 < g)%Qc → used_and_positive (Some g) = true.
Proof.
  intros Hg. unfold used_and_positive.
  rewrite !bool_decide_eq_true_2; [done..|].
  intros ->. by apply Qclt_not_eq in Hg.
Qed.

Lemma create_print_job_spools_after data db job_id job db' :
  create_print_job data db = Ok ((job_id, job), db') →
  Forall (λ u : Z * Qc, (0 < u.2)%Qc) (requested_allocations data) →
  spools db'
  = if bool_decide (PrintJobCreate.status data = PJ_completed)
    then deduct_all (settings_prevent (app_settings db))
           (requested_allocations data) (spools db)
    else spools db.
Proof.
  unfold create_print_job, requested_allocations.
  destruct (PrintJobCreate.spools data) as [[|spool_entry data_spools]|] eqn:Hspools.
  2:{ (* the list of spools *)
    intros Hrun _. unfold _create_multicolor_print_job in Hrun.
    inv_bind Hrun. read_only Hstep.
    inv_bind Hrun. read_only Hstep.
    inv_bind Hrun. simpl in Hstep. injection Hstep as <- <-.
    inv_bind Hrun. simpl in Hstep. injection Hstep as <- <-.
    inv_bind Hrun. destruct a1.
    apply create_print_job_spools_run in Hstep. simpl in Hstep.
    read_only Hrun. by rewrite Hstep. }
  (* the single spool *)
  all: destruct (PrintJobCreate.spool_id data) as [data_spool_id|] eqn:Hid;
    [|done].
  all: destruct (data_spool_id =? 0); simpl; [done|].
  all: intros Hrun Hpos; unfold _create_single_spool_print_job in Hrun.
  all: inv_bind Hrun; read_only Hstep.
  all: inv_bind Hrun; read_only Hstep.
  all: inv_bind Hrun; read_only Hstep.
  all: inv_bind Hrun; simpl in Hstep; injection Hstep as <- <-.
  all: inv_bind Hrun.
  all: match type of Hrun with ?m _ = _ =>
         assert (keeps spools m) as Hk by keeps_auto end.
  all: apply Hk in Hrun; rewrite Hrun; clear Hk Hrun.
  all: destruct (PrintJobCreate.filament_used_g data) as [grams|];
    simpl in Hpos |- *.
  all: try (apply Forall_cons_1 in Hpos as [Hg _]; simpl in Hg;
            rewrite (used_and_positive_Some _ Hg) in Hstep).
  all: case_bool_decide; simpl in Hstep; try rewrite _deduct_spool_run in Hstep.
  all: by simplify_eq.
Qed.



(** *** Restorations *)

Lemma restored_app r l1 l2 : restored r (l1 ++ l2) = restored (restored r l1) l2.
Proof. apply foldl_app. Qed.

(** The spools after a list of restorations: each holds what the
    additions that name it give, one after the other. *)
Lemma restore_all_lookup usages table spool_id :
  restore_all usages table !! spool_id
  = (λ spool,
       Spool.set_remaining_weight_g
         (restored (Spool.remaining_weight_g spool)
            (amounts_of usages spool_id)) spool) <$> table !! spool_id.
Proof.
  revert table. induction usages as [|[s g] usages IH]; intros table.
  - simpl. destruct (table !! spool_id) as [spool|]; simpl; [|done].
    by rewrite set_remaining_weight_g_same.
  - change (restore_all ((s, g) :: usages) table)
      with (restore_all usages (alter (restore_row g) s table)).
    rewrite IH, amounts_of_cons. case_bool_decide as Heq.
    + subst s. rewrite lookup_alter_eq.
      by destruct (table !! spool_id).
    + by rewrite lookup_alter_ne.
Qed.

Lemma restore_all_lookup_None usages table spool_id :
  table !! spool_id = None → restore_all usages table !! spool_id = None.
Proof. intros Hnone. by rewrite restore_all_lookup, Hnone. Qed.

Lemma restore_print_job_spools_run rows db :
  restore_print_job_spools rows db
  = Ok (tt, with_spools
              (restore_all (map (λ pjs, (PrintJobSpool.spool_id pjs,
                                         PrintJobSpool.filament_used_g pjs))
                                rows))
              db).
Proof.
  unfold restore_print_job_spools.
  revert db. induction rows as [|pjs rows IH]; intros db.
  - by destruct db.
  - cbn [for_each]. unfold bind at 1. simpl.
    destruct (spools db !! PrintJobSpool.spool_id pjs) as [spool|] eqn:Hs; simpl.
    + by rewrite IH.
    + rewrite IH. do 2 f_equal. unfold with_spools. simpl. f_equal.
      unfold restore_all. simpl. f_equal. symmetry. apply alter_id.
      intros x Hx. congruence.
Qed.

(** The spools after a print job was deleted. *)
Lemma delete_print_job_spools_after db job_id job db' :
  delete_print_job job_id db = Ok (tt, db') →
  print_jobs db !! job_id = Some job →
  Forall (λ u : Z * Qc, (0 < u.2)%Qc) (allocations job) →
  spools db'
  = if bool_decide (PrintJob.status job = PJ_completed)
    then restore_all (allocations job) (spools db)
    else spools db.
Proof.
  unfold delete_print_job. simpl. intros Hrun Hjob Hpos.
  rewrite Hjob in Hrun. simpl in Hrun.
  destruct (linked_product job_id db); [done|].
  unfold allocations in *.
  case_bool_decide as Hstatus; simpl in Hrun; [|simplify_eq; reflexivity].
  destruct (loaded_print_job_spools job) as [|pjs rows] eqn:Hrows.
  - destruct (PrintJob.spool_id job) as [spool_id|]; simpl in Hrun;
      [|simplify_eq; reflexivity].
    simpl in *.
    destruct (negb (spool_id =? 0)); simpl in *.
    2:{ simplify_eq. by destruct (PrintJob.filament_used_g job). }
    destruct (PrintJob.filament_used_g job) as [grams|]; simpl in *;
      [|simplify_eq; reflexivity].
    apply Forall_cons_1 in Hpos as [Hg _]. simpl in Hg.
    rewrite !bool_decide_eq_true_2 in Hrun
      by (done || (intros ->; by vm_compute in Hg)).
    simpl in Hrun.
    destruct (spools db !! spool_id) eqn:Hs; simpl in Hrun; simplify_eq; simpl.
    + reflexivity.
    + symmetry. apply alter_id. congruence.
  - rewrite restore_print_job_spools_run in Hrun. simplify_eq. reflexivity.
Qed.

(** *** What a creation stores *)

Lemma create_print_job_spools_rows job_id status prevent data_spools db db' :
  create_print_job_spools job_id status prevent data_spools db = Ok (tt, db') →
  print_jobs db'
  = foldl (λ table e, alter (PrintJob.add_print_job_spool
             (PrintJobSpool.mk (PrintJobSpoolInput.spool_id e)
                (PrintJobSpoolInput.filament_used_g e)
                (PrintJobSpoolInput.position e))) job_id table)
          (print_jobs db) data_spools
  ∧ products_on_hand db' = products_on_hand db.
Proof.
  unfold create_print_job_spools.
  revert db. induction data_spools as [|e data_spools IH]; intros db.
  - simpl. by intros [= <-].
  - cbn [for_each]. intros (? & db1 & Hbody & Hrest)%bind_inv.
    apply IH in Hrest as [-> ->]. clear IH.
    apply bind_inv in Hbody as (? & db0 & [= _ <-] & Hbody).
    destruct (bool_decide (status = PJ_completed)); simpl in Hbody.
    + destruct (spools db !! PrintJobSpoolInput.spool_id e); [|done].
      simpl in Hbody. rewrite _deduct_spool_run in Hbody.
      by simplify_eq.
    + by simplify_eq.
Qed.

Lemma add_print_job_spools_insert {A} (row : A → PrintJobSpool.t)
    (l : list A) job_id job (table : gmap Z PrintJob.t) :
  foldl (λ table e, alter (PrintJob.add_print_job_spool (row e)) job_id table)
        (<[job_id := job]> table) l
  = <[job_id := PrintJob.set_print_job_spools
                  (PrintJob.print_job_spools job ++ map row l) job]> table.
Proof.
  revert job. induction l as [|e l IH]; intros job; simpl.
  - rewrite app_nil_r. by destruct job.
  - rewrite alter_insert_eq, IH. f_equal.
    unfold PrintJob.add_print_job_spool, PrintJob.set_print_job_spools. simpl.
    by rewrite <- app_assoc.
Qed.

Lemma create_print_job_stored data db job_id job db' :
  create_print_job data db = Ok ((job_id, job), db') →
  job_id = next_id (print_jobs db)
  ∧ job = created_print_job data
  ∧ print_jobs db' = <[job_id := job]> (print_jobs db)
  ∧ products_on_hand db' = products_on_hand db.
Proof.
  unfold create_print_job, created_print_job.
  destruct (PrintJobCreate.spools data) as [[|spool_entry data_spools]|] eqn:Hspools.
  2:{ intros Hrun. unfold _create_multicolor_print_job in Hrun.
    inv_bind Hrun. read_only Hstep.
    inv_bind Hrun. read_only Hstep.
    inv_bind Hrun. simpl in Hstep. injection Hstep as <- <-.
    inv_bind Hrun. simpl in Hstep. injection Hstep as <- <-.
    inv_bind Hrun. destruct a1.
    apply create_print_job_spools_rows in Hstep as [Hjobs Hproducts].
    simpl in Hproducts. cbn [print_jobs with_print_jobs] in Hjobs.
    rewrite (add_print_job_spools_insert
               (λ e, PrintJobSpool.mk (PrintJobSpoolInput.spool_id e)
                       (PrintJobSpoolInput.filament_used_g e)
                       (PrintJobSpoolInput.position e))) in Hjobs.
    simpl in Hjobs.
    simpl in Hrun. rewrite Hjobs, lookup_insert_eq in Hrun. simpl in Hrun.
    simplify_eq. by rewrite Hjobs. }
  all: destruct (PrintJobCreate.spool_id data) as [data_spool_id|] eqn:Hid;
    [|done].
  all: destruct (data_spool_id =? 0); simpl; [done|].
  all: intros Hrun; unfold _create_single_spool_print_job in Hrun.
  all: inv_bind Hrun; read_only Hstep.
  all: inv_bind Hrun; read_only Hstep.
  all: inv_bind Hrun; read_only Hstep.
  all: inv_bind Hrun; simpl in Hstep; injection Hstep as <- <-.
  all: inv_bind Hrun.
  all: assert (print_jobs db0 = <[next_id (print_jobs db) :=
         PrintJob.mk (Some data_spool_id) (PrintJobCreate.project_id data)
           (PrintJobCreate.order_id data) (PrintJobCreate.filament_used_g data)
           (PrintJobCreate.status data) []]> (print_jobs db)
         ∧ products_on_hand db0 = products_on_hand db) as [Hjobs Hproducts]
    by (rewrite Hid in Hstep; destruct (_ && _); simpl in Hstep;
        try rewrite _deduct_spool_run in Hstep; simplify_eq;
        split; reflexivity).
  all: simpl in Hrun; rewrite Hjobs, lookup_insert_eq in Hrun; simpl in Hrun.
  all: simplify_eq; by rewrite Hjobs.
Qed.

Lemma allocations_created data db job_id job db' :
  create_print_job data db = Ok ((job_id, job), db') →
  allocations job ≡ₚ requested_allocations data.
Proof.
  intros Hrun.
  pose proof (create_print_job_stored _ _ _ _ _ Hrun) as (_ & -> & _).
  revert Hrun.
  unfold create_print_job, created_print_job, requested_allocations, allocations,
    loaded_print_job_spools.
  destruct (PrintJobCreate.spools data) as [[|spool_entry data_spools]|] eqn:Hspools.
  2:{ intros _. cbn [PrintJob.print_job_spools].
    set (rows := map _ (spool_entry :: data_spools)).
    pose proof (merge_sort_Permutation by_position rows) as Hperm.
    destruct (merge_sort by_position rows) as [|pjs sorted] eqn:Hsorted.
    { symmetry in Hperm. by apply Permutation_nil_r in Hperm. }
    rewrite Hperm. subst rows. by rewrite <- list_fmap_compose. }
  all: destruct (PrintJobCreate.spool_id data) as [data_spool_id|] eqn:Hid;
    [|done].
  all: destruct (data_spool_id =? 0) eqn:Hzero; simpl; [done|].
  all: intros _; rewrite Hzero; simpl.
  all: by destruct (PrintJobCreate.filament_used_g data).
Qed.

Lemma delete_print_job_ok db job_id job :
  print_jobs db !! job_id = Some job →
  linked_product job_id db = None →
  ∃ db', delete_print_job job_id db = Ok (tt, db').
Proof.
  intros Hjob Hlinked. unfold delete_print_job. simpl.
  rewrite Hjob. simpl. rewrite Hlinked.
  destruct (bool_decide (PrintJob.status job = PJ_completed)); simpl; [|eauto].
  destruct (loaded_print_job_spools job) as [|pjs rows].
  - destruct (_ && _); simpl; [|eauto].
    destruct (PrintJob.spool_id job) as [spool_id|]; simpl; [|eauto].
    destruct (spools db !! spool_id); simpl; eauto.
  - rewrite restore_print_job_spools_run. eauto.
Qed.

Lemma created_print_job_status data :
  PrintJob.status (created_print_job data) = PrintJobCreate.status data.
Proof.
  unfold created_print_job.
  by destruct (PrintJobCreate.spools data) as [[|? ?]|].
Qed.

Lemma clamp_float_enough p (r grams : Qc) :
  p = false ∨ (grams ≤ r)%Qc → clamp p (r ⊖ grams) = r ⊖ grams.
Proof.
  intros [->|Hle]; [done|]. apply clamp_fl_nonneg. qc_lra.
Qed.

Lemma float_sub_int (a b : Z) :
  Z.abs (a - b) < 2 ^ 53 → Qc_of_Z a ⊖ Qc_of_Z b = Qc_of_Z (a - b).
Proof.
  intros Hbound. unfold float_sub.
  replace (Qc_of_Z a - Qc_of_Z b)%Qc with (Qc_of_Z (a - b));
    [by apply fl_int|].
  apply Qc_is_canon. simpl. repeat setoid_rewrite Qred_correct.
  unfold Z.sub. by rewrite inject_Z_plus, inject_Z_opp.
Qed.

Lemma float_add_int (a b : Z) :
  Z.abs (a + b) < 2 ^ 53 → Qc_of_Z a ⊕ Qc_of_Z b = Qc_of_Z (a + b).
Proof.
  intros Hbound. unfold float_add.
  replace (Qc_of_Z a + Qc_of_Z b)%Qc with (Qc_of_Z (a + b));
    [by apply fl_int|].
  apply Qc_is_canon. simpl. setoid_rewrite Qred_correct.
  by rewrite inject_Z_plus.
Qed.

Lemma Qc_of_Z_le (a b : Z) : a ≤ b → (Qc_of_Z a ≤ Qc_of_Z b)%Qc.
Proof.
  intros Hle. unfold Qcle. simpl. by rewrite <- Zle_Qle.
Qed.
(** C4: deleting a completed print job adds every allocation's grams back
    to its spool, once each, in the order of the rows, by float addition
    and without a clamp, whatever the prevention setting.  A completed
    print job that takes [G] grams of a spool and is then deleted (no
    product on hand is linked to it) leaves the spool at
    [clamp (remaining - G) + G]; with prevention disabled, or with
    [G <= remaining], that is [(remaining - G) + G] in float arithmetic.
    It is the weight from before the creation when the weights are whole
    numbers of grams below 2^53; it is not in general, the two roundings
    need not cancel. *)
Theorem delete_print_job_restoration :
  (∀ db job_id job db',
     delete_print_job job_id db = Ok (tt, db') →
     print_jobs db !! job_id = Some job →
     PrintJob.status job = PJ_completed →
     Forall (λ u : Z * Qc, (0 < u.2)%Qc) (allocations job) →
     ∀ spool_id spool,
       spools db !! spool_id = Some spool →
       let remaining_before := Spool.remaining_weight_g spool in
       spool_remaining db' spool_id
       = Some (restored remaining_before
                 (amounts_of (allocations job) spool_id))
       ∧ (∀ amount,
            amounts_of (allocations job) spool_id = [amount] →
            spool_remaining db' spool_id = Some (remaining_before ⊕ amount))
       ∧ (amounts_of (allocations job) spool_id = [] →
          spools db' !! spool_id = Some spool))
  ∧ (∀ db data job_id job db1,
       create_print_job data db = Ok ((job_id, job), db1) →
       PrintJobCreate.status data = PJ_completed →
       Forall (λ u : Z * Qc, (0 < u.2)%Qc) (requested_allocations data) →
       NoDup (requested_allocations data).*1 →
       linked_product job_id db = None →
       ∃ db2,
         delete_print_job job_id db1 = Ok (tt, db2)
         ∧ ∀ spool_id spool,
             spools db !! spool_id = Some spool →
             let remaining := Spool.remaining_weight_g spool in
             (spool_id ∉ (requested_allocations data).*1 →
              spools db2 !! spool_id = Some spool)
             ∧ ∀ G,
                 (spool_id, G) ∈ requested_allocations data →
                 let prevention_disabled :=
                   ∃ settings,
                     app_settings db = Some settings
                     ∧ AppSettings.enable_spool_negative_prevention settings
                       = false in
                 spool_remaining db2 spool_id
                 = Some (clamp (settings_prevent (app_settings db))
                           (remaining ⊖ G) ⊕ G)
                 ∧ (prevention_disabled ∨ (G ≤ remaining)%Qc →
                    spool_remaining db2 spool_id
                    = Some (remaining ⊖ G ⊕ G))
                 ∧ (∀ whole_remaining whole_G : Z,
                      remaining = Qc_of_Z whole_remaining →
                      G = Qc_of_Z whole_G →
                      prevention_disabled ∨ whole_G ≤ whole_remaining →
                      Z.abs whole_remaining < 2 ^ 53 →
                      Z.abs (whole_remaining - whole_G) < 2 ^ 53 →
                      spools db2 !! spool_id = Some spool)).
Proof.
  split.
  - intros db job_id job db' Hrun Hjob Hstatus Hpos spool_id spool Hspool
      remaining_before.
    assert (spool_remaining db' spool_id
            = Some (restored remaining_before
                      (amounts_of (allocations job) spool_id))) as Hall.
    { unfold spool_remaining.
      rewrite (delete_print_job_spools_after _ _ _ _ Hrun Hjob Hpos).
      rewrite bool_decide_eq_true_2 by done.
      by rewrite restore_all_lookup, Hspool. }
    split; [done|]. split.
    + intros amount Hone. by rewrite Hall, Hone.
    + intros Hnone.
      rewrite (delete_print_job_spools_after _ _ _ _ Hrun Hjob Hpos).
      rewrite bool_decide_eq_true_2 by done.
      rewrite restore_all_lookup, Hspool, Hnone. simpl.
      by rewrite set_remaining_weight_g_same.
  - intros db data job_id job db1 Hcreate Hstatus Hpos Hnodup Hlinked.
    pose proof (create_print_job_stored _ _ _ _ _ Hcreate)
      as (Hid & Hjob & Hjobs & Hproducts).
    pose proof (allocations_created _ _ _ _ _ Hcreate) as Hperm.
    pose proof (create_print_job_spools_after _ _ _ _ _ Hcreate Hpos) as Hdeducted.
    rewrite bool_decide_eq_true_2 in Hdeducted by done.
    assert (print_jobs db1 !! job_id = Some job) as Hstored
      by (by rewrite Hjobs, lookup_insert_eq).
    destruct (delete_print_job_ok db1 job_id job Hstored) as [db2 Hdelete].
    { unfold linked_product in *. by rewrite Hproducts. }
    exists db2. split; [done|].
    intros spool_id spool Hspool remaining.
    assert (spools db2 !! spool_id
            = Some (Spool.set_remaining_weight_g
                      (restored
                         (deducted (settings_prevent (app_settings db))
                            remaining
                            (amounts_of (requested_allocations data) spool_id))
                         (amounts_of (requested_allocations data) spool_id))
                      spool)) as Hafter.
    { rewrite (delete_print_job_spools_after _ _ _ _ Hdelete Hstored)
        by (by rewrite Hperm).
      rewrite bool_decide_eq_true_2
        by (by rewrite Hjob, created_print_job_status).
      rewrite restore_all_lookup, Hdeducted, deduct_all_lookup, Hspool.
      simpl. symmetry in Hperm.
      by rewrite <- (amounts_of_Permutation_unique _ _ spool_id Hperm Hnodup). }
    split.
    + intros Hnotin. rewrite Hafter, (amounts_of_not_in _ _ Hnotin). simpl.
      by rewrite set_remaining_weight_g_same.
    + intros G Hmem prevention_disabled.
      rewrite (amounts_of_unique _ _ _ Hnodup Hmem) in Hafter. simpl in Hafter.
      assert (prevention_disabled ∨ (G ≤ remaining)%Qc →
              clamp (settings_prevent (app_settings db)) (remaining ⊖ G)
              = remaining ⊖ G) as Hclamp.
      { intros [(settings & Hsettings & Hdisabled)|Hle];
          apply clamp_float_enough; [left|by right].
        by rewrite Hsettings. }
      unfold spool_remaining. rewrite Hafter. simpl.
      split; [done|]. split.
      * intros Henough. by rewrite Hclamp.
      * intros whole_remaining whole_G Hr HG Henough Hbound1 Hbound2.
        rewrite Hclamp.
        2:{ destruct Henough as [?|Hle]; [by left|right].
            rewrite Hr, HG. by apply Qc_of_Z_le. }
        f_equal. apply set_remaining_weight_g_same.
        fold remaining. rewrite Hr, HG.
        rewrite float_sub_int, float_add_int by (done || by rewrite Z.sub_add).
        by rewrite Z.sub_add.
Qed.

Lemma delete_print_job_restoration_witness :
  (let db := one_spool_db true (Qc_of_Z 5) (Qc_of_Z 100) in
   let data :=
     PrintJobCreate.mk None None
       (Some [PrintJobSpoolInput.mk 1 (Qc_of_Z 30) 1])
       None None PJ_completed false in
   ∃ job db1 db2,
     create_print_job data db = Ok ((1, job), db1)
     ∧ spool_remaining db1 1 = Some (Qc_of_Z 70)
     ∧ delete_print_job 1 db1 = Ok (tt, db2)
     ∧ spool_remaining db2 1 = Some (Qc_of_Z 70 ⊕ Qc_of_Z 30)
     ∧ spools db2 !! 1 = spools db !! 1)
  ∧ (let db := one_spool_db false (Qc_of_Z 5) (Qc_of_Z 100) in
     let data :=
       PrintJobCreate.mk (Some 1) (Some (Qc_of_Z 120)) None None None
         PJ_completed true in
     ∃ job db1 db2,
       create_print_job data db = Ok ((1, job), db1)
       ∧ spool_remaining db1 1 = Some (Qc_of_Z (-20))
       ∧ delete_print_job 1 db1 = Ok (tt, db2)
       ∧ spools db2 !! 1 = spools db !! 1).
Proof.
  split.
  - intros db data.
    assert (∃ job db1, create_print_job data db = Ok ((1, job), db1)
                       ∧ spool_remaining db1 1 = Some (Qc_of_Z 70)
                       ∧ print_jobs db1 !! 1 = Some job
                       ∧ PrintJob.status job = PJ_completed
                       ∧ allocations job = [(1, Qc_of_Z 30)]
                       ∧ spools db1 !! 1 = Some (pla_spool (Qc_of_Z 70)))
      as (job & db1 & Hcreate & Hremaining & Hjob & Hstatus & Hallocations
          & Hspool).
    { eexists _, _. split; [vm_compute; reflexivity|].
      split; [vm_compute; f_equal; by apply Qc_is_canon|].
      split; [reflexivity|]. split; [reflexivity|]. split; [reflexivity|].
      vm_compute. do 2 f_equal. by apply Qc_is_canon. }
    destruct (proj2 delete_print_job_restoration db data 1 job db1 Hcreate)
      as (db2 & Hdelete & Hspools);
      [reflexivity | repeat constructor | apply NoDup_singleton
      | reflexivity |].
    destruct (proj1 delete_print_job_restoration db1 1 job db2 Hdelete Hjob
                Hstatus) with (spool_id := 1) (spool := pla_spool (Qc_of_Z 70))
      as (_ & Hone & _); [rewrite Hallocations; repeat constructor | done |].
    exists job, db1, db2. repeat split; try done.
    + apply (Hone (Qc_of_Z 30)). by rewrite Hallocations.
    + destruct (Hspools 1 (pla_spool (Qc_of_Z 100)) eq_refl) as [_ Hback].
      destruct (Hback (Qc_of_Z 30)) as (_ & _ & Hwhole); [by left|].
      apply (Hwhole 100 30); by (reflexivity || (right; lia) || lia).
  - intros db data.
    assert (∃ job db1, create_print_job data db = Ok ((1, job), db1)
                       ∧ spool_remaining db1 1 = Some (Qc_of_Z (-20)))
      as (job & db1 & Hcreate & Hremaining).
    { eexists _, _. split; [vm_compute; reflexivity|].
      vm_compute. f_equal. by apply Qc_is_canon. }
    destruct (proj2 delete_print_job_restoration db data 1 job db1 Hcreate)
      as (db2 & Hdelete & Hspools);
      [reflexivity | repeat constructor | apply NoDup_singleton
      | reflexivity |].
    exists job, db1, db2. repeat split; try done.
    destruct (Hspools 1 (pla_spool (Qc_of_Z 100)) eq_refl) as [_ Hback].
    destruct (Hback (Qc_of_Z 120)) as (_ & _ & Hwhole); [by left|].
    apply (Hwhole 100 120); try by (reflexivity || lia).
    left. eexists. split; reflexivity.
Defined.

(** C4, the round trip is not exact: a spool of 7.2 g, a completed print
    job of 2.9 g (less than the spool holds, no reserve), created and then
    deleted with nothing in between: the spool ends at 7.200000000000001 g. *)
Lemma delete_print_job_not_exact :
  let db := one_spool_db true (double 0) (double (72 # 10)) in
  let data :=
    PrintJobCreate.mk (Some 1) (Some (double (29 # 10))) None None None
      PJ_completed false in
  ∃ job db1 db2,
    create_print_job data db = Ok ((1, job), db1)
    ∧ delete_print_job 1 db1 = Ok (tt, db2)
    ∧ (double (29 # 10) ≤ double (72 # 10))%Qc
    ∧ spool_remaining db 1 = Some (double (72 # 10))
    ∧ spool_remaining db1 1
      = Some (double (4300000000000001 # 1000000000000000))
    ∧ spool_remaining db2 1
      = Some (double (7200000000000001 # 1000000000000000))
    ∧ spool_remaining db2 1 ≠ spool_remaining db 1.
Proof.
  intros db data.
  assert (∃ job db1, create_print_job data db = Ok ((1, job), db1))
    as (job & db1 & Hcreate) by (eexists _, _; vm_compute; reflexivity).
  assert (∃ db2, delete_print_job 1 db1 = Ok (tt, db2)) as (db2 & Hdelete).
  { vm_compute in Hcreate. injection Hcreate as <- <-.
    eexists. vm_compute. reflexivity. }
  exists job, db1, db2.
  vm_compute in Hcreate. injection Hcreate as <- <-.
  vm_compute in Hdelete. injection Hdelete as <-.
  split; [vm_compute; reflexivity|]. split; [vm_compute; reflexivity|].
  split; [by vm_compute|]. split; [reflexivity|].
  split; [vm_compute; f_equal; by apply Qc_is_canon|].
  split; [vm_compute; f_equal; by apply Qc_is_canon|].
  intros Heq. vm_compute in Heq. by injection Heq.
Qed.
(** ** Orders *)

Arguments modify_order order_id f db /.
Arguments set_quantity_in_stock hardware_item f db /.
Arguments add_order order db /.

Lemma with_hardware_items_ext f g db :
  f (hardware_items db) = g (hardware_items db) →
  with_hardware_items f db = with_hardware_items g db.
Proof. unfold with_hardware_items. by intros ->. Qed.

Lemma with_hardware_items_id db : with_hardware_items (λ table, table) db = db.
Proof. by destruct db. Qed.

(** A loop whose body always goes through is a fold over the state. *)
Lemma for_each_run {A} (xs : list A) (body : A → Session unit)
    (step : A → DB → DB) db :
  (∀ x db, body x db = Ok (tt, step x db)) →
  for_each xs body db = Ok (tt, foldl (λ db x, step x db) db xs).
Proof.
  intros Hbody. revert db. induction xs as [|x xs IH]; intros db; [done|].
  cbn [for_each foldl]. unfold bind. by rewrite Hbody, IH.
Qed.

Lemma foldl_with_hardware_items {A} (xs : list A)
    (g : A → gmap Z HardwareItem.t → gmap Z HardwareItem.t) db :
  foldl (λ db x, with_hardware_items (g x) db) db xs
  = with_hardware_items (λ table, foldl (λ table x, g x table) table xs) db.
Proof.
  revert db. induction xs as [|x xs IH]; intros db; simpl.
  - by rewrite with_hardware_items_id.
  - by rewrite IH.
Qed.

Lemma move_stock_move_stock d1 d2 h :
  move_stock d2 (move_stock d1 h) = move_stock (d1 + d2) h.
Proof.
  unfold move_stock, HardwareItem.set_quantity_in_stock. simpl. f_equal. lia.
Qed.

Lemma move_stock_0 h : move_stock 0 h = h.
Proof.
  unfold move_stock, HardwareItem.set_quantity_in_stock. destruct h. simpl.
  f_equal. lia.
Qed.

Lemma alter_missing {A} (f : A → A) (table : gmap Z A) key :
  table !! key = None → alter f key table = table.
Proof. intros Hnone. apply alter_id. congruence. Qed.

Lemma with_hardware_items_missing f key db :
  hardware_items db !! key = None → with_hardware_items (alter f key) db = db.
Proof.
  intros Hnone. rewrite <- (with_hardware_items_id db) at 2.
  apply with_hardware_items_ext. by apply alter_missing.
Qed.

Lemma move_order_hardware_lookup sign lines table h :
  move_order_hardware sign lines table !! h
  = move_stock (sign * tracked_quantity lines h) <$> table !! h.
Proof.
  revert table. induction lines as [|oh lines IH]; intros table.
  - simpl. rewrite Z.mul_0_r.
    destruct (table !! h); simpl; [by rewrite move_stock_0 | done].
  - unfold move_order_hardware in *. simpl. rewrite IH. clear IH.
    unfold move_line.
    destruct (OrderHardware.is_one_off oh); simpl; [done|].
    destruct (OrderHardware.hardware_item_id oh) as [h'|]; simpl; [|done].
    case_bool_decide as Heq.
    + simplify_eq. rewrite lookup_alter_eq.
      destruct (table !! h); simpl; [|done].
      rewrite move_stock_move_stock. do 2 f_equal. lia.
    + rewrite lookup_alter_ne by congruence. done.
Qed.

Lemma restore_order_hardware_run lines db :
  restore_order_hardware lines db
  = Ok (tt, with_hardware_items (move_order_hardware 1 lines) db).
Proof.
  unfold restore_order_hardware, move_order_hardware.
  rewrite <- foldl_with_hardware_items. apply for_each_run.
  intros oh db'. unfold move_line.
  destruct (OrderHardware.is_one_off oh); simpl.
  { by rewrite with_hardware_items_id. }
  destruct (OrderHardware.hardware_item_id oh) as [h|]; simpl.
  2:{ by rewrite with_hardware_items_id. }
  destruct (hardware_items db' !! h) as [item|] eqn:Hitem; simpl.
  - do 2 f_equal. apply with_hardware_items_ext, alter_ext.
    intros x _. unfold move_stock. f_equal; lia.
  - do 2 f_equal. symmetry. by apply with_hardware_items_missing.
Qed.

(** The deduction loop, when it goes through. *)
Lemma deduct_order_hardware_inv lines db db' :
  deduct_order_hardware lines db = Ok (tt, db') →
  db' = with_hardware_items (move_order_hardware (-1) lines) db.
Proof.
  unfold deduct_order_hardware, move_order_hardware.
  rewrite <- foldl_with_hardware_items.
  revert db. induction lines as [|oh lines IH]; intros db.
  - simpl. by intros [= <-].
  - cbn [for_each foldl]. intros (? & db1 & Hbody & Hrest)%bind_inv.
    apply IH in Hrest as ->. clear IH. f_equal.
    unfold move_line.
    destruct (OrderHardware.is_one_off oh); simpl in Hbody.
    { simplify_eq. by rewrite with_hardware_items_id. }
    destruct (OrderHardware.hardware_item_id oh) as [h|]; simpl in Hbody.
    2:{ simplify_eq. by rewrite with_hardware_items_id. }
    destruct (hardware_items db !! h) as [item|] eqn:Hitem; simpl in Hbody.
    + case_bool_decide; simpl in Hbody; [done|]. simplify_eq.
      apply with_hardware_items_ext, alter_ext.
      intros x _. unfold move_stock. f_equal; lia.
    + simplify_eq. symmetry. by apply with_hardware_items_missing.
Qed.

Lemma tracked_quantity_nonneg lines h :
  Forall (λ oh, 0 ≤ OrderHardware.quantity oh) lines →
  0 ≤ tracked_quantity lines h.
Proof.
  induction 1 as [|oh lines Hq _ IH]; simpl; [done|].
  destruct (_ && _); lia.
Qed.

(** The deduction loop goes through when every item holds what the
    lines take from it. *)
Lemma deduct_order_hardware_ok lines db :
  Forall (λ oh, 0 ≤ OrderHardware.quantity oh) lines →
  (∀ h item, hardware_items db !! h = Some item →
             tracked_quantity lines h ≤ HardwareItem.quantity_in_stock item) →
  deduct_order_hardware lines db
  = Ok (tt, with_hardware_items (move_order_hardware (-1) lines) db).
Proof.
  intros Hq Henough.
  assert (∃ db', deduct_order_hardware lines db = Ok (tt, db')) as [db' Hrun].
  2:{ by rewrite Hrun, (deduct_order_hardware_inv _ _ _ Hrun). }
  revert db Henough. unfold deduct_order_hardware.
  induction Hq as [|oh lines Hq Hqs IH]; intros db Henough; [by eexists|].
  cbn [for_each]. unfold bind at 1.
  pose proof (tracked_quantity_nonneg lines) as Hnonneg.
  destruct (OrderHardware.is_one_off oh) eqn:Hone; simpl.
  { apply IH. intros h item Hitem. specialize (Henough h item Hitem).
    simpl in Henough. by rewrite Hone in Henough. }
  destruct (OrderHardware.hardware_item_id oh) as [h|] eqn:Hid; simpl.
  2:{ apply IH. intros h item Hitem. specialize (Henough h item Hitem).
    simpl in Henough. by rewrite Hone, Hid in Henough. }
  destruct (hardware_items db !! h) as [item|] eqn:Hitem; simpl.
  - pose proof (Henough h item Hitem) as Hh. simpl in Hh.
    rewrite Hone, Hid in Hh. simpl in Hh.
    rewrite bool_decide_eq_true_2 in Hh by done. simpl in Hh.
    specialize (Hnonneg h Hqs).
    rewrite bool_decide_eq_false_2 by lia. simpl.
    apply IH. intros h' item' Hitem'. simpl in Hitem'.
    destruct (decide (h = h')) as [<-|Hne].
    + rewrite lookup_alter_eq, Hitem in Hitem'. simpl in Hitem'.
      simplify_eq. simpl. lia.
    + rewrite lookup_alter_ne in Hitem' by done.
      specialize (Henough h' item' Hitem'). simpl in Henough.
      rewrite Hone, Hid in Henough. simpl in Henough.
      rewrite bool_decide_eq_false_2 in Henough by congruence.
      simpl in Henough. lia.
  - apply IH. intros h' item' Hitem'. specialize (Henough h' item' Hitem').
    simpl in Henough. rewrite Hone, Hid in Henough. simpl in Henough.
    case_bool_decide; [congruence|simpl in Henough; lia].
Qed.

Lemma restore_replaced_hardware_run lines db :
  restore_replaced_hardware lines db
  = Ok (tt, with_hardware_items (restore_replaced_lines lines) db).
Proof.
  unfold restore_replaced_hardware, restore_replaced_lines.
  rewrite <- foldl_with_hardware_items. apply for_each_run.
  intros oh db'. unfold move_line.
  destruct (OrderHardware.is_one_off oh); simpl.
  { by rewrite with_hardware_items_id. }
  destruct (OrderHardware.hardware_item_id oh) as [h|]; simpl.
  2:{ by rewrite with_hardware_items_id. }
  destruct (h =? 0); simpl.
  { by rewrite with_hardware_items_id. }
  destruct (hardware_items db' !! h) as [item|] eqn:Hitem; simpl.
  - do 2 f_equal. apply with_hardware_items_ext, alter_ext.
    intros x _. unfold move_stock. f_equal; lia.
  - do 2 f_equal. symmetry. by apply with_hardware_items_missing.
Qed.

Lemma restore_replaced_lines_lookup lines table h :
  h ≠ 0 →
  restore_replaced_lines lines table !! h
  = move_stock (tracked_quantity lines h) <$> table !! h.
Proof.
  intros Hh. revert table. induction lines as [|oh lines IH]; intros table.
  - simpl. destruct (table !! h); simpl; [by rewrite move_stock_0 | done].
  - unfold restore_replaced_lines in *. simpl. rewrite IH. clear IH.
    unfold move_line.
    destruct (OrderHardware.is_one_off oh); simpl; [done|].
    destruct (OrderHardware.hardware_item_id oh) as [h'|]; simpl; [|done].
    case_bool_decide as Heq.
    + simplify_eq. rewrite (proj2 (Z.eqb_neq h 0)) by done. simpl.
      rewrite lookup_alter_eq.
      destruct (table !! h); simpl; [|done].
      rewrite move_stock_move_stock. f_equal. f_equal. lia.
    + destruct (h' =? 0); simpl; [done|].
      rewrite lookup_alter_ne by congruence. done.
Qed.

Lemma keeps_order_frame_modify order_id order_id' f :
  (∀ o, Order.status (f o) = Order.status o) →
  (∀ o, Order.order_hardware (f o) = Order.order_hardware o) →
  keeps (order_frame order_id) (modify_order order_id' f).
Proof.
  intros Hstatus Hlines. apply keeps_update. intros db.
  unfold order_frame. simpl. f_equal.
  destruct (decide (order_id' = order_id)) as [->|Hne].
  - rewrite lookup_alter_eq. destruct (orders db !! order_id); simpl; [|done].
    by rewrite Hstatus, Hlines.
  - by rewrite lookup_alter_ne.
Qed.

Lemma keeps_order_frame_add_order_spools order_id order_id' inputs :
  keeps (order_frame order_id) (add_order_spools order_id' inputs).
Proof.
  unfold add_order_spools. keeps_auto.
  by apply keeps_order_frame_modify.
Qed.

Lemma keeps_order_status_frame_modify order_id order_id' f :
  (∀ o, Order.status (f o) = Order.status o) →
  keeps (order_status_frame order_id) (modify_order order_id' f).
Proof.
  intros Hstatus. apply keeps_update. intros db.
  unfold order_status_frame. simpl. f_equal.
  destruct (decide (order_id' = order_id)) as [->|Hne].
  - rewrite lookup_alter_eq. destruct (orders db !! order_id); simpl; [|done].
    by rewrite Hstatus.
  - by rewrite lookup_alter_ne.
Qed.

Lemma keeps_order_status_frame_add_items order_id order_id' inputs :
  keeps (order_status_frame order_id)
    (add_order_hardware_items order_id' inputs).
Proof.
  unfold add_order_hardware_items. keeps_auto.
  all: by apply keeps_order_status_frame_modify.
Qed.

(** Reading a frame off a step of a run. *)
Ltac frame_of Hstep proj tac :=
  let Hk := fresh in
  lazymatch type of Hstep with
  | ?m ?db = Ok (_, ?db') =>
      assert (keeps proj m) as Hk by tac;
      apply Hk in Hstep; clear Hk
  end.

Lemma update_order_effect db order_id data order order' db' :
  orders db !! order_id = Some order →
  update_order order_id data db = Ok (order', db') →
  let old := Order.status order in
  let new := match OrderUpdate.status data with Sent s => s | Unset => old end in
  let replaced := hardware_replaced data in
  orders db' !! order_id = Some order'
  ∧ Order.status order' = new
  ∧ (replaced = false → Order.order_hardware order' = Order.order_hardware order)
  ∧ hardware_items db'
    = (if needs_deduct old new replaced
       then move_order_hardware (-1) (Order.order_hardware order')
       else if needs_restore old new replaced
       then move_order_hardware 1 (Order.order_hardware order')
       else λ table, table)
      ((if replaced && bool_decide (old = O_finished)
        then restore_replaced_lines (Order.order_hardware order)
        else λ table, table) (hardware_items db)).
Proof.
  intros Horder Hrun old new replaced. unfold update_order in Hrun.
  inv_bind Hrun. simpl in Hstep. injection Hstep as <- <-.
  rewrite Horder in Hrun.
  inv_bind Hrun. simpl in Hstep. injection Hstep as <- <-.
  assert (order_frame order_id db
          = (hardware_items db, Some (old, Order.order_hardware order)))
    as Hframe by (unfold order_frame; by rewrite Horder).
  (* project_id, spool_id *)
  inv_bind Hrun.
  frame_of Hstep (order_frame order_id)
    ltac:(keeps_auto; by apply keeps_order_frame_modify).
  rewrite <- Hstep in Hframe. clear Hstep.
  inv_bind Hrun.
  frame_of Hstep (order_frame order_id) ltac:(keeps_auto).
  rewrite <- Hstep in Hframe. clear Hstep.
  (* Apply updates *)
  inv_bind Hrun. simpl in Hstep. injection Hstep as <- <-.
  match type of Hrun with _ (with_orders (alter ?f _) _) = _ =>
    assert (order_frame order_id (with_orders (alter f order_id) db1)
            = (hardware_items db, Some (new, Order.order_hardware order)))
      as Hframe'
  end.
  { unfold order_frame in *. simpl. rewrite lookup_alter_eq.
    injection Hframe as -> Hrow. f_equal.
    destruct (orders db1 !! order_id) as [row|]; [|done]. simpl in *.
    injection Hrow as Hs Hl. f_equal. subst new old.
    by destruct (OrderUpdate.status data), (OrderUpdate.quoted_price data),
      (OrderUpdate.spool_id data), (OrderUpdate.project_id data); simpl;
      rewrite ?Hs, ?Hl. }
  clear Hframe. rename Hframe' into Hframe.
  (* order spools *)
  inv_bind Hrun.
  frame_of Hstep (order_frame order_id)
    ltac:(keeps_auto; first [by apply keeps_order_frame_modify
                            | apply keeps_order_frame_add_order_spools]).
  rewrite <- Hstep in Hframe. clear Hstep.
  (* hardware replacement *)
  assert (bool_decide (is_Some match OrderUpdate.hardware_items data with
                               | Unset => None
                               | Sent v => v
                               end) = replaced) as Hrep.
  { subst replaced. unfold hardware_replaced.
    by destruct (OrderUpdate.hardware_items data) as [|[?|]]. }
  rewrite !Hrep in Hrun. clear Hrep.
  change (Order.status order) with old in Hrun.
  change (match OrderUpdate.status data with
          | Unset => old
          | Sent s => s
          end) with new in Hrun.
  inv_bind Hrun.
  assert (order_status_frame order_id db3
          = ((if replaced && bool_decide (old = O_finished)
              then restore_replaced_lines (Order.order_hardware order)
              else λ table, table) (hardware_items db), Some new)
          ∧ (replaced = false → order_frame order_id db3
                                = order_frame order_id db2))
    as [Hstatus Hlines].
  { assert (order_status_frame order_id db2 = (hardware_items db, Some new))
      as Hframe2.
    { unfold order_frame, order_status_frame in *.
      injection Hframe as -> Hrow. f_equal.
      destruct (orders db2 !! order_id) as [row|]; simpl in Hrow |- *; [|done].
      by injection Hrow as -> _. }
    subst replaced. unfold hardware_replaced.
    destruct (OrderUpdate.hardware_items data) as [|[items|]];
      cbv iota beta in Hstep; simpl.
    1,3: by injection Hstep as <- <-.
    split; [|done].
    apply bind_inv in Hstep as (? & db4 & Hrestore & Hstep).
    apply bind_inv in Hstep as (? & db5 & Hclear & Hstep).
    frame_of Hstep (order_status_frame order_id)
      ltac:(apply keeps_order_status_frame_add_items).
    frame_of Hclear (order_status_frame order_id)
      ltac:(by apply keeps_order_status_frame_modify).
    rewrite Hstep, Hclear. clear Hstep Hclear.
    case_bool_decide; simpl in Hrestore.
    - rewrite restore_replaced_hardware_run in Hrestore.
      injection Hrestore as _ <-. unfold order_status_frame in *. simpl.
      by injection Hframe2 as -> ->.
    - by injection Hrestore as _ <-. }
  clear Hstep.
  (* Re-load order_hardware for status change logic below *)
  inv_bind Hrun. simpl in Hstep. injection Hstep as <- <-.
  assert (∃ order1, orders db3 !! order_id = Some order1
                    ∧ Order.status order1 = new) as (order1 & Hrow & Hnew).
  { unfold order_status_frame in Hstatus. injection Hstatus as _ Hs.
    destruct (orders db3 !! order_id) as [order1|]; simpl in Hs; [|done].
    exists order1. by injection Hs as ->. }
  rewrite Hrow in Hrun.
  inv_bind Hrun. simpl in Hstep. injection Hstep as <- <-.
  inv_bind Hrun.
  assert (db4 = with_hardware_items
                  (if needs_deduct old new replaced
                   then move_order_hardware (-1) (Order.order_hardware order1)
                   else if needs_restore old new replaced
                   then move_order_hardware 1 (Order.order_hardware order1)
                   else λ table, table) db3) as ->.
  { destruct (needs_deduct old new replaced).
    - match type of Hstep with _ = Ok (?u, _) => destruct u end.
      by apply deduct_order_hardware_inv.
    - destruct (needs_restore old new replaced).
      + rewrite restore_order_hardware_run in Hstep. by simplify_eq.
      + simpl in Hstep. simplify_eq. by rewrite with_hardware_items_id. }
  clear Hstep. simpl in Hrun. rewrite Hrow in Hrun. simpl in Hrun.
  injection Hrun as <- <-.
  split; [done|]. split; [done|]. split.
  - intros Hno. specialize (Hlines Hno). rewrite Hframe in Hlines.
    unfold order_frame in Hlines. rewrite Hrow in Hlines.
    apply (f_equal (λ p, snd <$> p.2)) in Hlines. simpl in Hlines.
    congruence.
  - simpl. unfold order_status_frame in Hstatus. by injection Hstatus as ->.
Qed.

(** An update of the status alone goes through unless the deduction it
    triggers is refused. *)
Lemma update_order_status_ok db order_id order status :
  orders db !! order_id = Some order →
  (needs_deduct (Order.status order) status false = true →
   Forall (λ oh, 0 ≤ OrderHardware.quantity oh) (Order.order_hardware order)
   ∧ ∀ h item, hardware_items db !! h = Some item →
       tracked_quantity (Order.order_hardware order) h
       ≤ HardwareItem.quantity_in_stock item) →
  ∃ order' db',
    update_order order_id (order_status_update status) db = Ok (order', db').
Proof.
  intros Horder Hdeduct. unfold update_order, order_status_update. simpl.
  rewrite Horder. simpl. rewrite lookup_alter_eq, Horder. simpl.
  change (bool_decide (is_Some None)) with false.
  destruct (needs_deduct (Order.status order) status false).
  - destruct (Hdeduct eq_refl) as [Hq Henough].
    rewrite deduct_order_hardware_ok by done. simpl.
    rewrite lookup_alter_eq, Horder. simpl. eauto.
  - destruct (needs_restore (Order.status order) status false).
    + rewrite restore_order_hardware_run. simpl.
      rewrite lookup_alter_eq, Horder. simpl. eauto.
    + simpl. rewrite lookup_alter_eq, Horder. simpl. eauto.
Qed.


(** ** Creating an order *)






(** *** The status of an order and its hardware *)

Lemma needs_deduct_spec old new replaced :
  needs_deduct old new replaced = true
  ↔ new = O_finished ∧ (old ≠ O_finished ∨ replaced = true).
Proof.
  unfold needs_deduct.
  rewrite andb_true_iff, orb_true_iff, !bool_decide_eq_true. tauto.
Qed.

Lemma needs_restore_spec old new replaced :
  needs_restore old new replaced = true
  ↔ old = O_finished ∧ new ≠ O_finished ∧ replaced = false.
Proof.
  unfold needs_restore.
  rewrite !andb_true_iff, negb_true_iff, !bool_decide_eq_true. tauto.
Qed.


(** C5: an update of an order that goes through leaves the stock of each
    hardware item at its stock before, plus what the lines the order had
    hold of it when the old status was "finished" and the new status is
    not "finished" or the lines were replaced in this update, less what
    the lines the order has afterwards hold of it when the new status is
    "finished" and the old one was not or the lines were replaced.  The
    deduction is the one [needs_deduct] asks for; the old lines come
    back when [needs_restore] asks for it and also, before they are
    replaced, whenever the lines of a "finished" order are replaced.  An
    order taken from "finished" to "printed" with no change of hardware
    gets its lines back; taking it to "finished" again leaves every stock
    as it was before the two updates if that second update goes through,
    which it does when the quantities of the lines and the stocks are not
    negative. *)
Theorem update_order_hardware_effects :
  (∀ db order_id data order order' db' h item,
     orders db !! order_id = Some order →
     update_order order_id data db = Ok (order', db') →
     hardware_items db !! h = Some item →
     h ≠ 0 →
     let old := Order.status order in
     let new := Order.status order' in
     let replaced := hardware_replaced data in
     new = match OrderUpdate.status data with Sent s => s | Unset => old end
     ∧ (replaced = false
        → Order.order_hardware order' = Order.order_hardware order)
     ∧ hardware_stock db' h
       = Some (HardwareItem.quantity_in_stock item
               + (if decide (old = O_finished
                             ∧ (new ≠ O_finished ∨ replaced = true))
                  then tracked_quantity (Order.order_hardware order) h
                  else 0)
               - (if decide (new = O_finished
                             ∧ (old ≠ O_finished ∨ replaced = true))
                  then tracked_quantity (Order.order_hardware order') h
                  else 0)))
  ∧ (∀ old new replaced,
       (needs_deduct old new replaced = true
        ↔ new = O_finished ∧ (old ≠ O_finished ∨ replaced = true))
       ∧ (needs_restore old new replaced = true
          ↔ old = O_finished ∧ new ≠ O_finished ∧ replaced = false))
  ∧ (∀ db order_id order,
       orders db !! order_id = Some order →
       Order.status order = O_finished →
       ∃ order1 db1,
         update_order order_id (order_status_update O_printed) db
         = Ok (order1, db1)
         ∧ Order.status order1 = O_printed
         ∧ hardware_items db1
           = move_order_hardware 1 (Order.order_hardware order)
               (hardware_items db)
         ∧ (∀ order2 db2,
              update_order order_id (order_status_update O_finished) db1
              = Ok (order2, db2) →
              Order.status order2 = O_finished
              ∧ hardware_items db2 = hardware_items db)
         ∧ (Forall (λ oh, 0 ≤ OrderHardware.quantity oh)
                   (Order.order_hardware order) →
            (∀ h item, hardware_items db !! h = Some item →
                       0 ≤ HardwareItem.quantity_in_stock item) →
            ∃ order2 db2,
              update_order order_id (order_status_update O_finished) db1
              = Ok (order2, db2))).
Proof.
  split; [|split].
  - intros db order_id data order order' db' h item Horder Hrun Hitem Hh
      old new replaced.
    destruct (update_order_effect _ _ _ _ _ _ Horder Hrun)
      as (_ & Hnew & Hlines & Hhw).
    fold old replaced in Hnew, Hlines, Hhw. fold new in Hnew.
    split; [done|]. split; [done|].
    rewrite <- Hnew in Hhw.
    unfold hardware_stock. rewrite Hhw. clear Hhw.
    assert ((if replaced && bool_decide (old = O_finished)
             then restore_replaced_lines (Order.order_hardware order)
             else λ table, table) (hardware_items db) !! h
            = Some (move_stock
                      (if replaced && bool_decide (old = O_finished)
                       then tracked_quantity (Order.order_hardware order) h
                       else 0) item)) as Hbefore.
    { destruct (replaced && bool_decide (old = O_finished)).
      - by rewrite restore_replaced_lines_lookup, Hitem.
      - by rewrite Hitem, move_stock_0. }
    pose proof (needs_deduct_spec old new replaced) as Hdeduct.
    pose proof (needs_restore_spec old new replaced) as Hrestore.
    destruct (needs_deduct old new replaced);
      [|destruct (needs_restore old new replaced)];
      rewrite ?move_order_hardware_lookup, Hbefore; simpl; f_equal.
    + rewrite (decide_True (P := new = _ ∧ _)) by by apply Hdeduct.
      destruct replaced; simpl.
      * case_bool_decide as Hold.
        -- rewrite decide_True by auto. lia.
        -- rewrite decide_False by tauto. lia.
      * rewrite decide_False; [lia|].
        intros [Hold _]. destruct Hdeduct as [Hd _].
        destruct (Hd eq_refl) as [_ [?|?]]; done.
    + destruct Hrestore as [Hr _].
      destruct (Hr eq_refl) as (Hold & Hne & ->). simpl.
      rewrite decide_True by auto. rewrite decide_False by tauto.
      rewrite Hlines by done. lia.
    + rewrite (decide_False (P := new = _ ∧ _)).
      2:{ intros H. apply Hdeduct in H. done. }
      destruct replaced; simpl.
      * case_bool_decide as Hold.
        -- rewrite decide_True by auto. lia.
        -- rewrite decide_False by tauto. lia.
      * rewrite decide_False; [lia|].
        intros (Hold & [Hne|?]); [|done].
        destruct Hrestore as [_ Hr]. by specialize (Hr (conj Hold (conj Hne eq_refl))).
  - intros old new replaced.
    split; [apply needs_deduct_spec | apply needs_restore_spec].
  - intros db order_id order Horder Hfinished.
    destruct (update_order_status_ok db order_id order O_printed Horder)
      as (order1 & db1 & Hrun1).
    { rewrite Hfinished. intros [=]. }
    destruct (update_order_effect _ _ _ _ _ _ Horder Hrun1)
      as (Horder1 & Hstatus1 & Hlines1 & Hhw1).
    rewrite Hfinished in Hhw1. simpl in Hstatus1, Hhw1.
    specialize (Hlines1 eq_refl). rewrite Hlines1 in Hhw1.
    exists order1, db1. split; [done|]. split; [done|]. split; [done|].
    split.
    + intros order2 db2 Hrun2.
      destruct (update_order_effect _ _ _ _ _ _ Horder1 Hrun2)
        as (_ & Hstatus2 & Hlines2 & Hhw2).
      rewrite Hstatus1 in Hhw2. simpl in Hstatus2, Hhw2.
      specialize (Hlines2 eq_refl). rewrite Hlines2, Hlines1 in Hhw2.
      split; [done|].
      rewrite Hhw2, Hhw1. apply map_eq. intros h.
      rewrite !move_order_hardware_lookup.
      destruct (hardware_items db !! h) as [item|]; [|done]. simpl.
      rewrite move_stock_move_stock. f_equal.
      replace (1 * _ + -1 * _) with 0 by lia. apply move_stock_0.
    + intros Hq Hstock.
      apply (update_order_status_ok db1 order_id order1 O_finished Horder1).
      intros _. rewrite Hlines1. split; [done|].
      intros h item. rewrite Hhw1, move_order_hardware_lookup.
      destruct (hardware_items db !! h) as [item0|] eqn:Hitem0; [|done].
      simpl. intros [= <-]. specialize (Hstock h item0 Hitem0). simpl. lia.
Qed.

Lemma update_order_hardware_effects_witness :
  let order :=
    Order.mk None None O_finished None None None []
      [OrderHardware.mk (Some 1) 3 (Some (double (1 # 10)))
         (Some "M3 screw"%string) false None None] in
  let db := with_orders (insert 4 order) (one_item_db 7) in
  ∃ order1 db1 order2 db2,
    update_order 4 (order_status_update O_printed) db = Ok (order1, db1)
    ∧ update_order 4 (order_status_update O_finished) db1 = Ok (order2, db2)
    ∧ hardware_stock db1 1 = Some (7 + 3 - 0)
    ∧ hardware_stock db2 1 = Some (10 + 0 - 3)
    ∧ hardware_items db2 = hardware_items db.
Proof.
  intros order db.
  destruct (proj2 (proj2 update_order_hardware_effects) db 4 order)
    as (order1 & db1 & Hrun1 & Hstatus1 & Hhw1 & Hback & Hok);
    [reflexivity | reflexivity |].
  destruct Hok as (order2 & db2 & Hrun2).
  { repeat constructor. simpl. lia. }
  { intros h item Hitem.
    destruct (decide (h = 1)) as [->|Hne].
    - vm_compute in Hitem. injection Hitem as <-. by vm_compute.
    - unfold db, one_item_db in Hitem. simpl in Hitem.
      by rewrite lookup_insert_ne in Hitem. }
  destruct (Hback order2 db2 Hrun2) as [Hstatus2 Hhw2].
  assert (orders db1 !! 4 = Some order1 ∧ Order.order_hardware order1
          = Order.order_hardware order
          ∧ hardware_items db1 !! 1 = Some (m3_screws 10))
    as (Horder1 & Hlines1 & Hitem1).
  { vm_compute in Hrun1. by injection Hrun1 as <- <-. }
  destruct (proj1 update_order_hardware_effects db 4
              (order_status_update O_printed) order order1 db1 1 (m3_screws 7))
    as (_ & _ & Hstock1); [reflexivity | done | reflexivity | done |].
  destruct (proj1 update_order_hardware_effects db1 4
              (order_status_update O_finished) order1 order2 db2 1
              (m3_screws 10))
    as (_ & Hlines2 & Hstock2); [done | done | done | done |].
  exists order1, db1, order2, db2. repeat split; try done.
  - rewrite Hstock1, Hstatus1. by vm_compute.
  - rewrite Hstock2, Hstatus1, Hstatus2, (Hlines2 eq_refl), Hlines1.
    by vm_compute.
Defined.

(** C5, where the claim fails: the lines of a "finished" order come back
    in an update that replaces them, although [needs_restore] is false
    (here the status goes to "printed" and the one line is sent again:
    stock 7, then 10); and a "finished" order of 3 of an item whose stock
    is -5 is taken to "printed" (stock -2) and cannot be taken back to
    "finished". *)
Lemma update_order_replaced_lines_restored :
  let order :=
    Order.mk None None O_finished None None None []
      [OrderHardware.mk (Some 1) 3 (Some (double (1 # 10)))
         (Some "M3 screw"%string) false None None] in
  (let db := with_orders (insert 4 order) (one_item_db 7) in
   let data :=
     OrderUpdate.mk Unset Unset (Sent O_printed) Unset
       (Sent (Some [OrderHardwareInput.mk (Some 1) 3 false None None]))
       Unset in
   ∃ order' db',
     update_order 4 data db = Ok (order', db')
     ∧ Order.status order' = O_printed
     ∧ hardware_replaced data = true
     ∧ needs_restore O_finished O_printed (hardware_replaced data) = false
     ∧ needs_deduct O_finished O_printed (hardware_replaced data) = false
     ∧ hardware_stock db 1 = Some 7
     ∧ hardware_stock db' 1 = Some 10)
  ∧ (let db := with_orders (insert 4 order) (one_item_db (-5)) in
     ∃ order1 db1,
       update_order 4 (order_status_update O_printed) db = Ok (order1, db1)
       ∧ hardware_stock db1 1 = Some (-2)
       ∧ update_order 4 (order_status_update O_finished) db1
         = Err (HTTPException 400
                  (InsufficientStock "M3 screw"%string (-2) 3))).
Proof.
  intros order. split.
  - intros db data. eexists _, _.
    split; [vm_compute; reflexivity|]. by repeat split.
  - intros db. eexists _, _.
    split; [vm_compute; reflexivity|]. by repeat split.
Qed.

(** *** Creation and deletion *)



(** ** Products on hand *)

Lemma deduct_project_hardware_lookup lines table h :
  deduct_project_hardware lines table !! h
  = move_stock (- required_quantity lines h) <$> table !! h.
Proof.
  revert table. induction lines as [|ph lines IH]; intros table.
  - simpl. destruct (table !! h); simpl; [by rewrite move_stock_0 | done].
  - unfold deduct_project_hardware in *. simpl. rewrite IH. clear IH.
    case_bool_decide as Heq.
    + rewrite Heq, lookup_alter_eq.
      destruct (table !! h); simpl; [|done].
      rewrite move_stock_move_stock. f_equal. f_equal. lia.
    + by rewrite lookup_alter_ne.
Qed.

Lemma keeps_hardware_item_of {B} (proj : DB → B) ph :
  keeps proj (hardware_item_of ph).
Proof. unfold hardware_item_of. keeps_auto. Qed.

Lemma keeps_check_project_hardware {B} (proj : DB → B) lines :
  keeps proj (check_project_hardware lines).
Proof.
  unfold check_project_hardware. keeps_auto. apply keeps_hardware_item_of.
Qed.



(** The deduction over a project's lines, when it goes through. *)
Lemma deduct_project_hardware_inv lines db db' :
  for_each lines deduct_project_hardware_line db = Ok (tt, db') →
  db' = with_hardware_items (deduct_project_hardware lines) db.
Proof.
  unfold deduct_project_hardware.
  rewrite <- foldl_with_hardware_items.
  revert db. induction lines as [|ph lines IH]; intros db.
  - simpl. by intros [= <-].
  - cbn [for_each foldl]. intros (? & db1 & Hbody & Hrest)%bind_inv.
    apply IH in Hrest as ->. clear IH. f_equal.
    unfold deduct_project_hardware_line, hardware_item_of in Hbody.
    simpl in Hbody.
    destruct (hardware_items db !! ProjectHardware.hardware_item_id ph);
      simpl in Hbody; [|done].
    injection Hbody as _ <-.
    apply with_hardware_items_ext, alter_ext.
    intros item' _. unfold move_stock. f_equal; lia.
Qed.

Lemma update_product_on_hand_effect db id data product product' db' :
  products_on_hand db !! id = Some product →
  update_product_on_hand id data db = Ok (product', db') →
  hardware_items db'
  = (if completes product data && truthy (ProductOnHand.project_id product)
     then match product_project db product with
          | Some project => deduct_project_hardware (Project.hardware project)
          | None => λ table, table
          end
     else λ table, table) (hardware_items db).
Proof.
  intros Hproduct Hrun. unfold update_product_on_hand in Hrun.
  inv_bind Hrun. simpl in Hstep. injection Hstep as <- <-.
  rewrite Hproduct in Hrun.
  inv_bind Hrun. simpl in Hstep. injection Hstep as <- <-.
  inv_bind Hrun.
  frame_of Hrun hardware_items ltac:(keeps_auto).
  rewrite Hrun. clear Hrun.
  assert ((bool_decide (ProductOnHand.status product = P_printed)
           && match ProductOnHandUpdate.status data with
              | Unset => bool_decide (ProductOnHand.status product = P_completed)
              | Sent status => bool_decide (status = P_completed)
              end) = completes product data) as Hsame.
  { unfold completes.
    destruct (ProductOnHandUpdate.status data) as [|status].
    - by destruct (ProductOnHand.status product).
    - by destruct status, (ProductOnHand.status product). }
  rewrite Hsame in Hstep. clear Hsame.
  destruct (completes product data && truthy (ProductOnHand.project_id product));
    simpl in Hstep; [|by injection Hstep as _ <-].
  unfold product_project.
  destruct (ProductOnHand.project_id product ≫= _) as [project|];
    [|by injection Hstep as _ <-].
  apply bind_inv in Hstep as ([] & db1 & Hcheck & Hstep).
  frame_of Hcheck (λ db : DB, db)
    ltac:(apply keeps_check_project_hardware).
  subst db1. destruct a.
  by rewrite (deduct_project_hardware_inv _ _ _ Hstep).
Qed.









(** ** The conversion of a product into an order *)






Lemma next_id_above {A} (table : gmap Z A) k :
  is_Some (table !! k) → k < next_id table.
Proof.
  unfold next_id.
  cut (∀ k, is_Some (table !! k)
            → k ≤ map_fold (λ k _ acc, Z.max k acc) 0 table).
  { intros Hmax Hk. specialize (Hmax _ Hk). lia. }
  clear k.
  apply (map_fold_weak_ind
           (λ r (m : gmap Z A), ∀ k, is_Some (m !! k) → k ≤ r)).
  - intros k [? Hk]. by rewrite lookup_empty in Hk.
  - intros i x m r _ IH k Hk.
    destruct (decide (i = k)) as [->|Hne]; [lia|].
    rewrite lookup_insert_ne in Hk by done. specialize (IH _ Hk). lia.
Qed.

Lemma next_id_fresh {A} (table : gmap Z A) : table !! next_id table = None.
Proof.
  destruct (table !! next_id table) eqn:Hlookup; [|done].
  pose proof (next_id_above table (next_id table)) as Habove.
  rewrite Hlookup in Habove. specialize (Habove (mk_is_Some _ _ eq_refl)). lia.
Qed.







(** ** Creating a print job: refusals *)

Lemma first_missing_spool_None ids table :
  first_missing_spool ids table = None
  ↔ Forall (λ spool_id, is_Some (table !! spool_id)) ids.
Proof.
  unfold first_missing_spool. induction ids as [|spool_id ids IH]; simpl.
  - split; [constructor | done].
  - rewrite Forall_cons. case_bool_decide as Hmissing.
    + split; [done|]. intros [[? Hsome] _]. congruence.
    + rewrite IH. split; [|tauto].
      intros Hrest. split; [|done].
      by destruct (table !! spool_id); [eexists|].
Qed.


(** The loop that checks that the spools of a list exist. *)
Lemma spools_exist_run {A} (ids : A → Z) (inputs : list A) db :
  for_each inputs (λ input,
    spool ← first spools (ids input);
    _ ← or_raise spool (HTTPException 400 (SpoolNumberNotFound (ids input)));
    ret tt) db
  = match first_missing_spool (map ids inputs) (spools db) with
    | Some spool_id => Err (HTTPException 400 (SpoolNumberNotFound spool_id))
    | None => Ok (tt, db)
    end.
Proof.
  unfold first_missing_spool. induction inputs as [|input inputs IH]; [done|].
  cbn [for_each map List.find]. unfold bind at 1. simpl.
  by destruct (spools db !! ids input) as [spool|] eqn:Hspool; simpl.
Qed.






(** ** What a handler never touches *)

(** One more step of a frame proof: the helpers of the handlers. *)
Ltac keeps_unfold :=
  lazymatch goal with
  | |- keeps _ (_deduct_spool _ _ _) => unfold _deduct_spool
  | |- keeps _ (restore_print_job_spools _) => unfold restore_print_job_spools
  | |- keeps _ (create_print_job_spools _ _ _ _) =>
      unfold create_print_job_spools
  | |- keeps _ (restore_replaced_hardware _) => unfold restore_replaced_hardware
  | |- keeps _ (deduct_order_hardware _) => unfold deduct_order_hardware
  | |- keeps _ (restore_order_hardware _) => unfold restore_order_hardware
  | |- keeps _ (check_project_hardware _) => unfold check_project_hardware
  | |- keeps _ (deduct_project_hardware_line _) =>
      unfold deduct_project_hardware_line
  | |- keeps _ (hardware_item_of _) => unfold hardware_item_of
  | |- keeps _ (_create_single_spool_print_job _ _) =>
      unfold _create_single_spool_print_job
  | |- keeps _ (_create_multicolor_print_job _ _) =>
      unfold _create_multicolor_print_job
  end.
Ltac keeps_all := repeat (keeps_step || keeps_unfold).

Lemma untouched_keeps {A B} (proj : DB → B) (handler : Session A) :
  keeps proj handler → untouched proj handler.
Proof. intros Hkeeps db. by apply keeps_request. Qed.

(** The two ledgers are apart, and the settings and the projects are
    read only.  No handler of the print jobs changes a hardware item;
    creating, updating and deleting an order change no spool (filament is
    deducted when a print job is made, not by the order itself);
    creating, updating and converting a product change no spool, and
    deleting one changes neither a spool nor a hardware item; none of
    these ten handlers changes the settings or a project.
    This holds for the requests that are refused as for those that go
    through. *)
Theorem handlers_keep_the_other_ledger :
  ((∀ data, untouched hardware_items (create_print_job data))
   ∧ (∀ job_id data, untouched hardware_items (update_print_job job_id data))
   ∧ (∀ job_id, untouched hardware_items (delete_print_job job_id)))
  ∧ ((∀ data, untouched spools (create_order data))
     ∧ (∀ order_id data, untouched spools (update_order order_id data))
     ∧ (∀ order_id, untouched spools (delete_order order_id)))
  ∧ ((∀ data, untouched spools (create_product_on_hand data))
     ∧ (∀ id data, untouched spools (update_product_on_hand id data))
     ∧ (∀ id data, untouched spools (convert_to_order id data))
     ∧ (∀ id, untouched (λ db, (spools db, hardware_items db))
                (delete_product_on_hand id)))
  ∧ (let fixed := λ db, (app_settings db, projects db) in
     (∀ data, untouched fixed (create_print_job data))
     ∧ (∀ job_id data, untouched fixed (update_print_job job_id data))
     ∧ (∀ job_id, untouched fixed (delete_print_job job_id))
     ∧ (∀ data, untouched fixed (create_order data))
     ∧ (∀ order_id data, untouched fixed (update_order order_id data))
     ∧ (∀ order_id, untouched fixed (delete_order order_id))
     ∧ (∀ data, untouched fixed (create_product_on_hand data))
     ∧ (∀ id data, untouched fixed (update_product_on_hand id data))
     ∧ (∀ id data, untouched fixed (convert_to_order id data))
     ∧ (∀ id, untouched fixed (delete_product_on_hand id))).
Proof.
  repeat split; intros; apply untouched_keeps.
  all: unfold create_print_job, update_print_job, delete_print_job,
         create_order, update_order, delete_order, create_product_on_hand,
         update_product_on_hand, convert_to_order, delete_product_on_hand.
  all: keeps_all.
Qed.

(** ** Deleting a print job *)

(** The product a print job is linked to: the least id among the
    products made from it. *)
Lemma linked_product_spec job_id db :
  match linked_product job_id db with
  | None =>
      ∀ product_id product,
        products_on_hand db !! product_id = Some product →
        ProductOnHand.print_job_id product ≠ job_id
  | Some linked =>
      (∃ product, products_on_hand db !! linked = Some product
                  ∧ ProductOnHand.print_job_id product = job_id)
      ∧ ∀ product_id product,
          products_on_hand db !! product_id = Some product →
          ProductOnHand.print_job_id product = job_id →
          linked ≤ product_id
  end.
Proof.
  unfold linked_product.
  apply (map_fold_weak_ind
    (λ (found : option Z) (m : gmap Z ProductOnHand.t),
       match found with
       | None =>
           ∀ product_id product,
             m !! product_id = Some product →
             ProductOnHand.print_job_id product ≠ job_id
       | Some linked =>
           (∃ product, m !! linked = Some product
                       ∧ ProductOnHand.print_job_id product = job_id)
           ∧ ∀ product_id product,
               m !! product_id = Some product →
               ProductOnHand.print_job_id product = job_id →
               linked ≤ product_id
       end)).
  - intros product_id product Hlookup. by rewrite lookup_empty in Hlookup.
  - intros i x m found Hfresh IH.
    case_bool_decide as Hmatch.
    + destruct found as [linked|]; simpl.
      * destruct IH as [(product & Hlinked & Hjob) Hleast]. split.
        -- destruct (Z.min_spec i linked) as [[Hlt ->]|[Hle ->]].
           ++ exists x. by rewrite lookup_insert_eq.
           ++ exists product. rewrite lookup_insert_ne; [done|].
              intros ->. by rewrite Hfresh in Hlinked.
        -- intros product_id product' Hlookup Hjob'.
           destruct (decide (i = product_id)) as [->|Hne]; [lia|].
           rewrite lookup_insert_ne in Hlookup by done.
           specialize (Hleast _ _ Hlookup Hjob'). lia.
      * split; [exists x; by rewrite lookup_insert_eq|].
        intros product_id product' Hlookup Hjob'.
        destruct (decide (i = product_id)) as [->|Hne]; [lia|].
        rewrite lookup_insert_ne in Hlookup by done.
        by destruct (IH _ _ Hlookup).
    + destruct found as [linked|].
      * destruct IH as [(product & Hlinked & Hjob) Hleast]. split.
        -- exists product. rewrite lookup_insert_ne; [done|].
           intros ->. by rewrite Hfresh in Hlinked.
        -- intros product_id product' Hlookup Hjob'.
           destruct (decide (i = product_id)) as [->|Hne].
           ++ rewrite lookup_insert_eq in Hlookup. congruence.
           ++ rewrite lookup_insert_ne in Hlookup by done. eauto.
      * intros product_id product' Hlookup.
        destruct (decide (i = product_id)) as [->|Hne].
        -- rewrite lookup_insert_eq in Hlookup. congruence.
        -- rewrite lookup_insert_ne in Hlookup by done. eauto.
Qed.

Lemma delete_print_job_effect db job_id db' :
  delete_print_job job_id db = Ok (tt, db') →
  print_jobs db' = delete job_id (print_jobs db)
  ∧ products_on_hand db' = products_on_hand db
  ∧ orders db' = orders db.
Proof.
  intros Hrun. unfold delete_print_job in Hrun.
  inv_bind Hrun. simpl in Hstep. injection Hstep as <- <-.
  inv_bind Hrun. read_only Hstep.
  inv_bind Hrun. simpl in Hstep. injection Hstep as <- <-.
  destruct (linked_product job_id db); [done|].
  inv_bind Hrun.
  frame_of Hstep (λ db, (print_jobs db, products_on_hand db, orders db))
    ltac:(keeps_all).
  simpl in Hrun. injection Hrun as <-. simpl.
  by injection Hstep as -> -> ->.
Qed.

(** How a deletion is decided, and what it removes.  A job that does not
    exist gives 404.  A job some product on hand was made from is kept:
    the deletion is refused with 400 and names the least such product.
    Every other deletion goes through and removes the row of the job and
    nothing else from the print jobs; the products and the orders are as
    they were, and so are the spools when the job was not completed:
    a failed or cancelled job gives nothing back. *)
Theorem delete_print_job_outcome db job_id :
  (print_jobs db !! job_id = None →
   delete_print_job job_id db = Err (HTTPException 404 PrintJobNotFound))
  ∧ (∀ job product_id product,
       print_jobs db !! job_id = Some job →
       products_on_hand db !! product_id = Some product →
       ProductOnHand.print_job_id product = job_id →
       ∃ linked linked_product,
         delete_print_job job_id db
         = Err (HTTPException 400 (LinkedToProductOnHand linked))
         ∧ products_on_hand db !! linked = Some linked_product
         ∧ ProductOnHand.print_job_id linked_product = job_id
         ∧ linked ≤ product_id)
  ∧ (∀ job,
       print_jobs db !! job_id = Some job →
       (∀ product_id product,
          products_on_hand db !! product_id = Some product →
          ProductOnHand.print_job_id product ≠ job_id) →
       ∃ db',
         delete_print_job job_id db = Ok (tt, db')
         ∧ print_jobs db' = delete job_id (print_jobs db)
         ∧ products_on_hand db' = products_on_hand db
         ∧ orders db' = orders db
         ∧ (PrintJob.status job ≠ PJ_completed → spools db' = spools db)).
Proof.
  pose proof (linked_product_spec job_id db) as Hlinked.
  split; [|split].
  - intros Hjob. unfold delete_print_job. simpl. by rewrite Hjob.
  - intros job product_id product Hjob Hproduct Hmade.
    destruct (linked_product job_id db) as [linked|] eqn:Hfound.
    + destruct Hlinked as [(row & Hrow & Hrow_job) Hleast].
      exists linked, row. repeat split; [|done|done|by eapply Hleast].
      unfold delete_print_job. simpl. rewrite Hjob. simpl. by rewrite Hfound.
    + by destruct (Hlinked _ _ Hproduct).
  - intros job Hjob Hfree.
    destruct (linked_product job_id db) as [linked|] eqn:Hfound.
    { destruct Hlinked as [(row & Hrow & Hrow_job) _].
      by destruct (Hfree _ _ Hrow). }
    destruct (delete_print_job_ok _ _ _ Hjob Hfound) as [db' Hrun].
    exists db'. split; [done|].
    destruct (delete_print_job_effect _ _ _ Hrun) as (? & ? & ?).
    repeat split; try done.
    intros Hstatus. revert Hrun. unfold delete_print_job. simpl.
    rewrite Hjob. simpl. rewrite Hfound.
    rewrite bool_decide_eq_false_2 by done. simpl. by intros [= <-].
Qed.

(** ** Updating the filament of a print job *)






(** ** Replacing the spools of a print job *)

Lemma with_spools_id db : with_spools (λ table, table) db = db.
Proof. by destruct db. Qed.

Lemma with_spools_fix f db : f (spools db) = spools db → with_spools f db = db.
Proof. destruct db. unfold with_spools. simpl. by intros ->. Qed.

(** The block that gives back what a stored job took, before its spools
    are replaced. *)
Lemma restore_old_allocations_run job db :
  Forall (λ u : Z * Qc, u.2 ≠ 0%Qc) (allocations job) →
  (match loaded_print_job_spools job with
   | _ :: _ => restore_print_job_spools (loaded_print_job_spools job)
   | [] =>
     if truthy (PrintJob.spool_id job) && nonzero (PrintJob.filament_used_g job)
     then
       spool ← first_opt spools (PrintJob.spool_id job);
       match spool, PrintJob.spool_id job with
       | Some _, Some spool_id =>
           set_remaining_weight_g spool_id (λ remaining,
             remaining ⊕ default 0%Qc (PrintJob.filament_used_g job))
       | _, _ => ret tt
       end
     else ret tt
   end) db
  = Ok (tt, with_spools (restore_all (allocations job)) db).
Proof.
  unfold allocations. intros Hnonzero.
  destruct (loaded_print_job_spools job) as [|pjs rows] eqn:Hrows.
  - destruct (PrintJob.spool_id job) as [spool_id|]; simpl;
      [|by rewrite with_spools_id].
    destruct (negb (spool_id =? 0)) eqn:Hid; simpl.
    2:{ destruct (PrintJob.filament_used_g job); simpl;
          by rewrite with_spools_id. }
    destruct (PrintJob.filament_used_g job) as [grams|]; simpl;
      [|by rewrite with_spools_id].
    case_bool_decide as Hzero; simpl.
    + destruct (spools db !! spool_id) eqn:Hspool; simpl; [done|].
      rewrite with_spools_fix; [done|]. by apply alter_missing.
    + subst grams. simpl in Hnonzero. rewrite Hid in Hnonzero.
      by apply Forall_cons_1 in Hnonzero as [? _].
  - apply restore_print_job_spools_run.
Qed.

(** The loop that adds the new rows and deducts them. *)
Lemma replace_print_job_spools_run job_id (completed prevent : bool)
    spools_update db :
  for_each spools_update (λ spool_data,
    modify_print_job job_id (PrintJob.add_print_job_spool
      (PrintJobSpool.mk (PrintJobSpoolInput.spool_id spool_data)
         (PrintJobSpoolInput.filament_used_g spool_data)
         (PrintJobSpoolInput.position spool_data)));;
    when completed
      (spool ← first spools (PrintJobSpoolInput.spool_id spool_data);
       match spool with
       | Some _ =>
           _deduct_spool (PrintJobSpoolInput.spool_id spool_data)
             (PrintJobSpoolInput.filament_used_g spool_data) prevent
       | None => ret tt
       end)) db
  = Ok (tt,
        mkDB (app_settings db)
          (if completed
           then deduct_all prevent
                  (map (λ e, (PrintJobSpoolInput.spool_id e,
                              PrintJobSpoolInput.filament_used_g e))
                       spools_update) (spools db)
           else spools db)
          (hardware_items db) (projects db)
          (foldl (λ table e, alter (PrintJob.add_print_job_spool
                    (PrintJobSpool.mk (PrintJobSpoolInput.spool_id e)
                       (PrintJobSpoolInput.filament_used_g e)
                       (PrintJobSpoolInput.position e))) job_id table)
                 (print_jobs db) spools_update)
          (orders db) (products_on_hand db)).
Proof.
  revert db. induction spools_update as [|e l IH]; intros db.
  - simpl. destruct db, completed; reflexivity.
  - cbn [for_each]. unfold bind at 1. simpl.
    destruct completed; simpl.
    + destruct (spools db !! PrintJobSpoolInput.spool_id e) eqn:Hspool; simpl.
      * rewrite _deduct_spool_run, IH. reflexivity.
      * rewrite IH. simpl. unfold deduct_all. simpl.
        by rewrite (alter_missing _ (spools db)).
    + rewrite IH. reflexivity.
Qed.

Lemma validation_of_ext db1 db2 usages :
  app_settings db1 = app_settings db2 → spools db1 = spools db2 →
  validation_of db1 usages = validation_of db2 usages.
Proof.
  intros Hsettings Hspools. unfold validation_of. rewrite Hsettings.
  destruct (settings_prevent (app_settings db2)); simpl; [|done].
  assert (∀ usage, shortage_of db1 usage = shortage_of db2 usage) as Hsame.
  { intros usage. unfold shortage_of. by rewrite Hsettings, Hspools. }
  by rewrite (flat_map_ext _ _ Hsame).
Qed.

Lemma add_print_job_spools_lookup {A} (row : A → PrintJobSpool.t)
    (l : list A) job_id (table : gmap Z PrintJob.t) :
  foldl (λ table e, alter (PrintJob.add_print_job_spool (row e)) job_id table)
        table l !! job_id
  = (λ job, PrintJob.set_print_job_spools
              (PrintJob.print_job_spools job ++ map row l) job)
      <$> table !! job_id.
Proof.
  revert table. induction l as [|e l IH]; intros table; simpl.
  - destruct (table !! job_id) as [job|]; simpl; [|done].
    rewrite app_nil_r. by destruct job.
  - rewrite IH, lookup_alter_eq.
    destruct (table !! job_id) as [job|]; simpl; [|done].
    unfold PrintJob.add_print_job_spool. simpl.
    by rewrite <- app_assoc.
Qed.

Lemma update_print_job_spools_effect
    db job_id data job spools_update job' db' :
  print_jobs db !! job_id = Some job →
  Forall (λ u : Z * Qc, u.2 ≠ 0%Qc) (allocations job) →
  PrintJobUpdate.spools data = Sent (Some spools_update) →
  update_print_job job_id data db = Ok (job', db') →
  let new_status :=
    match PrintJobUpdate.status data with
    | Sent s => s
    | Unset => PrintJob.status job
    end in
  let usages :=
    map (λ e, (PrintJobSpoolInput.spool_id e,
               PrintJobSpoolInput.filament_used_g e)) spools_update in
  let restored := restored_spools job (spools db) in
  spools db'
  = (if bool_decide (new_status = PJ_completed)
     then deduct_all (settings_prevent (app_settings db)) usages restored
     else restored)
  ∧ print_jobs db' !! job_id = Some job'
  ∧ PrintJob.print_job_spools job'
    = map (λ e, PrintJobSpool.mk (PrintJobSpoolInput.spool_id e)
                  (PrintJobSpoolInput.filament_used_g e)
                  (PrintJobSpoolInput.position e)) spools_update
  ∧ PrintJob.status job' = new_status
  ∧ Forall (λ e, is_Some (spools db !! PrintJobSpoolInput.spool_id e))
           spools_update
  ∧ (new_status = PJ_completed → PrintJobUpdate.force data = false →
     SpoolValidationResult.is_valid
       (validation_of (with_spools (λ _, restored) db) usages) = true).
Proof.
  intros Hjob Hnonzero Hspools Hrun new_status usages restored.
  unfold update_print_job in Hrun.
  inv_bind Hrun. simpl in Hstep. injection Hstep as <- <-.
  rewrite Hjob in Hrun.
  inv_bind Hrun. simpl in Hstep. injection Hstep as <- <-.
  inv_bind Hrun. rewrite Hspools in Hstep.
  (* the replacement *)
  inv_bind Hstep.
  assert (db1 = with_spools (λ _, restored) db) as ->.
  { unfold restored, restored_spools.
    destruct (bool_decide (PrintJob.status job = PJ_completed)).
    - simpl in Hstep0. rewrite restore_old_allocations_run in Hstep0 by done.
      injection Hstep0 as <-. by destruct db.
    - simpl in Hstep0. injection Hstep0 as <-. by destruct db. }
  clear Hstep0.
  inv_bind Hstep. simpl in Hstep0. injection Hstep0 as <- <-.
  inv_bind Hstep.
  rewrite (spools_exist_run PrintJobSpoolInput.spool_id) in Hstep0.
  destruct (first_missing_spool _ _) eqn:Hmissing; [done|].
  injection Hstep0 as <- <-.
  inv_bind Hstep. fold new_status in Hstep0, Hstep.
  assert (db1 = with_print_jobs
                  (alter (PrintJob.set_print_job_spools []) job_id)
                  (with_spools (λ _, restored) db)
          ∧ (new_status = PJ_completed → PrintJobUpdate.force data = false →
             SpoolValidationResult.is_valid
               (validation_of (with_spools (λ _, restored) db) usages) = true))
    as [-> Hvalid].
  { destruct (bool_decide (new_status = PJ_completed)) eqn:Hnew; simpl in Hstep0.
    - destruct (PrintJobUpdate.force data); simpl in Hstep0.
      + injection Hstep0 as _ <-. split; [done|]. intros _ [=].
      + rewrite validate_spool_inventory_run in Hstep0. fold usages in Hstep0.
        destruct (SpoolValidationResult.is_valid _) eqn:Hv in Hstep0;
          simpl in Hstep0; [|done].
        injection Hstep0 as _ <-. split; [done|]. intros _ _.
        rewrite <- Hv. by f_equal.
    - injection Hstep0 as _ <-. split; [done|].
      intros ->. by rewrite bool_decide_eq_true_2 in Hnew. }
  clear Hstep0.
  inv_bind Hstep. simpl in Hstep0. injection Hstep0 as <- <-.
  rewrite replace_print_job_spools_run in Hstep. injection Hstep as _ <-.
  cbn [app_settings spools hardware_items projects print_jobs orders
       products_on_hand with_spools with_print_jobs] in Hrun |- *.
  (* the rest of the update *)
  inv_bind Hrun.
  match type of Hstep with ?m ?d = _ =>
    assert (keeps (λ db, db) m) as Hk by keeps_all;
    apply Hk in Hstep; clear Hk; subst end.
  simpl in Hrun.
  rewrite lookup_alter_eq in Hrun.
  rewrite (add_print_job_spools_lookup
             (λ e, PrintJobSpool.mk (PrintJobSpoolInput.spool_id e)
                     (PrintJobSpoolInput.filament_used_g e)
                     (PrintJobSpoolInput.position e))) in Hrun.
  rewrite lookup_alter_eq, Hjob in Hrun. simpl in Hrun.
  injection Hrun as <- <-. simpl.
  split; [done|]. split.
  { rewrite lookup_alter_eq,
      (add_print_job_spools_lookup
         (λ e, PrintJobSpool.mk (PrintJobSpoolInput.spool_id e)
                 (PrintJobSpoolInput.filament_used_g e)
                 (PrintJobSpoolInput.position e))),
      lookup_alter_eq, Hjob. reflexivity. }
  split.
  { by destruct (PrintJobUpdate.status data),
      (PrintJobUpdate.filament_used_g data), (PrintJobUpdate.order_id data),
      (PrintJobUpdate.project_id data), (PrintJobUpdate.spool_id data). }
  split.
  { unfold new_status.
    by destruct (PrintJobUpdate.status data),
      (PrintJobUpdate.filament_used_g data), (PrintJobUpdate.order_id data),
      (PrintJobUpdate.project_id data), (PrintJobUpdate.spool_id data). }
  split; [|exact Hvalid].
  apply first_missing_spool_None in Hmissing. rewrite Forall_map in Hmissing.
  eapply Forall_impl; [exact Hmissing|]. intros e. simpl.
  unfold restored, restored_spools.
  destruct (bool_decide (PrintJob.status job = PJ_completed)); [|done].
  destruct (spools db !! PrintJobSpoolInput.spool_id e) eqn:Hspool;
    [by eexists|].
  rewrite restore_all_lookup_None by done. by intros [? ?].
Qed.

(** Replacing the spools of a print job.  An update that carries a list
    of spools and goes through stores exactly the rows of that list.  For
    every spool: what the stored job took is given back first, row by
    row, when the stored job was completed; then what the new list takes
    is deducted, entry by entry and each with the clamp of
    negative-prevention, when the job is completed after the update.  A
    spool the new list does not name only gets back. *)
Theorem update_print_job_spools_replaced
    db job_id data job spools_update job' db' :
  print_jobs db !! job_id = Some job →
  Forall (λ u : Z * Qc, u.2 ≠ 0%Qc) (allocations job) →
  PrintJobUpdate.spools data = Sent (Some spools_update) →
  update_print_job job_id data db = Ok (job', db') →
  let new_status :=
    match PrintJobUpdate.status data with
    | Sent s => s
    | Unset => PrintJob.status job
    end in
  let usages :=
    map (λ e, (PrintJobSpoolInput.spool_id e,
               PrintJobSpoolInput.filament_used_g e)) spools_update in
  let prevent := settings_prevent (app_settings db) in
  PrintJob.print_job_spools job'
  = map (λ e, PrintJobSpool.mk (PrintJobSpoolInput.spool_id e)
                (PrintJobSpoolInput.filament_used_g e)
                (PrintJobSpoolInput.position e)) spools_update
  ∧ PrintJob.status job' = new_status
  ∧ (∀ spool_id spool,
       spools db !! spool_id = Some spool →
       let given_back :=
         if bool_decide (PrintJob.status job = PJ_completed)
         then restored (Spool.remaining_weight_g spool)
                (amounts_of (allocations job) spool_id)
         else Spool.remaining_weight_g spool in
       spool_remaining db' spool_id
       = Some (if bool_decide (new_status = PJ_completed)
               then deducted prevent given_back (amounts_of usages spool_id)
               else given_back)
       ∧ (spool_id ∉ usages.*1 →
          spool_remaining db' spool_id = Some given_back)).
Proof.
  intros Hjob Hnonzero Hspools Hrun new_status usages prevent.
  destruct (update_print_job_spools_effect _ _ _ _ _ _ _
              Hjob Hnonzero Hspools Hrun)
    as (Hafter & _ & Hrows & Hstatus & _ & _).
  fold new_status usages prevent in Hafter, Hstatus.
  split; [done|]. split; [done|].
  intros spool_id spool Hspool given_back.
  assert (restored_spools job (spools db) !! spool_id
          = Some (Spool.set_remaining_weight_g given_back spool))
    as Hrestored.
  { unfold restored_spools, given_back.
    destruct (bool_decide (PrintJob.status job = PJ_completed)).
    - by rewrite restore_all_lookup, Hspool.
    - by rewrite Hspool, set_remaining_weight_g_same. }
  assert (spool_remaining db' spool_id
          = Some (if bool_decide (new_status = PJ_completed)
                  then deducted prevent given_back (amounts_of usages spool_id)
                  else given_back)) as Hall.
  { unfold spool_remaining. rewrite Hafter.
    destruct (bool_decide (new_status = PJ_completed)).
    - by rewrite deduct_all_lookup, Hrestored.
    - by rewrite Hrestored. }
  split; [done|].
  intros Hnotin. rewrite Hall, (amounts_of_not_in _ _ Hnotin).
  by destruct (bool_decide (new_status = PJ_completed)).
Qed.

Lemma update_print_job_spools_replaced_witness :
  let db :=
    with_print_jobs (insert 7
      (PrintJob.mk None None None (Some 0%Qc) PJ_completed
         [PrintJobSpool.mk 1 (double 30) 1]))
      (one_spool_db true (double 5) (double 70)) in
  let data :=
    PrintJobUpdate.mk Unset Unset Unset Unset Unset
      (Sent (Some [PrintJobSpoolInput.mk 1 (double 20) 1;
                   PrintJobSpoolInput.mk 1 (double 15) 2])) false in
  ∃ job' db',
    update_print_job 7 data db = Ok (job', db')
    ∧ spool_remaining db' 1
      = Some (max0 (max0 (double 70 ⊕ double 30 ⊖ double 20) ⊖ double 15))
    ∧ spool_remaining db' 1 = Some (double 65).
Proof.
  intros db data.
  assert (∃ job' db', update_print_job 7 data db = Ok (job', db'))
    as (job' & db' & Hrun) by (eexists _, _; vm_compute; reflexivity).
  exists job', db'. split; [done|].
  destruct (update_print_job_spools_replaced db 7 data
              (PrintJob.mk None None None (Some 0%Qc) PJ_completed
                 [PrintJobSpool.mk 1 (double 30) 1])
              [PrintJobSpoolInput.mk 1 (double 20) 1;
               PrintJobSpoolInput.mk 1 (double 15) 2] job' db'
              eq_refl)
    as (_ & _ & Hspool); [|reflexivity|exact Hrun|].
  { repeat constructor. simpl. intros H. apply Qc_eq_Qeq in H.
    by vm_compute in H. }
  destruct (Hspool 1 (pla_spool (double 70)) eq_refl) as [Hall _].
  assert (spool_remaining db' 1
          = Some (max0 (max0 (double 70 ⊕ double 30 ⊖ double 20)
                        ⊖ double 15))) as Hleft by exact Hall.
  split; [done|]. rewrite Hleft. f_equal; by apply Qc_is_canon.
Defined.

(** ** Orders: deletion, and the refusal of a deduction *)

(** A deduction that went through found enough of every item. *)
Lemma deduct_order_hardware_enough lines db db' :
  (∀ h item, hardware_items db !! h = Some item →
             0 ≤ HardwareItem.quantity_in_stock item) →
  deduct_order_hardware lines db = Ok (tt, db') →
  ∀ h item, hardware_items db !! h = Some item →
            tracked_quantity lines h ≤ HardwareItem.quantity_in_stock item.
Proof.
  unfold deduct_order_hardware.
  revert db. induction lines as [|oh lines IH];
    intros db Hstock Hrun h item Hitem.
  { simpl. by eapply Hstock. }
  cbn [for_each] in Hrun. apply bind_inv in Hrun as ([] & db1 & Hline & Hrest).
  specialize (IH db1). simpl.
  destruct (OrderHardware.is_one_off oh) eqn:Hone; simpl in Hline |- *.
  { injection Hline as <-. by apply IH. }
  destruct (OrderHardware.hardware_item_id oh) as [k|] eqn:Hid;
    simpl in Hline.
  2:{ injection Hline as <-. rewrite bool_decide_eq_false_2 by done.
      by apply IH. }
  destruct (hardware_items db !! k) as [item_k|] eqn:Hk; simpl in Hline.
  2:{ injection Hline as <-.
      rewrite bool_decide_eq_false_2 by congruence. by apply IH. }
  case_bool_decide as Hshort; simpl in Hline; [done|].
  injection Hline as <-. simpl in IH.
  assert (∀ h' item', alter
            (λ h0, HardwareItem.set_quantity_in_stock
                     (HardwareItem.quantity_in_stock h0
                      - OrderHardware.quantity oh) h0) k (hardware_items db)
            !! h' = Some item' → 0 ≤ HardwareItem.quantity_in_stock item')
    as Hstock1.
  { intros h' item'. destruct (decide (k = h')) as [<-|Hne].
    - rewrite lookup_alter_eq, Hk. intros [= <-]. simpl. lia.
    - rewrite lookup_alter_ne by done. apply Hstock. }
  specialize (IH Hstock1 Hrest).
  destruct (decide (k = h)) as [->|Hne].
  - rewrite bool_decide_eq_true_2 by done.
    specialize (IH h (HardwareItem.set_quantity_in_stock
                        (HardwareItem.quantity_in_stock item_k
                         - OrderHardware.quantity oh) item_k)).
    rewrite lookup_alter_eq, Hk in IH. specialize (IH eq_refl).
    simpl in IH. simplify_eq. lia.
  - rewrite bool_decide_eq_false_2 by congruence.
    apply IH. by rewrite lookup_alter_ne.
Qed.

(** What a deduction raises. *)
Lemma deduct_order_hardware_error lines db e :
  deduct_order_hardware lines db = Err e →
  ∃ name available required,
    e = HTTPException 400 (InsufficientStock name available required)
    ∧ available < required.
Proof.
  unfold deduct_order_hardware.
  revert db. induction lines as [|oh lines IH]; intros db; [done|].
  cbn [for_each]. unfold bind at 1.
  destruct (OrderHardware.is_one_off oh); simpl; [apply IH|].
  destruct (OrderHardware.hardware_item_id oh) as [k|]; simpl; [|apply IH].
  destruct (hardware_items db !! k) as [item_k|]; simpl; [|apply IH].
  case_bool_decide as Hshort; simpl; [|apply IH].
  intros [= <-]. eauto.
Qed.

(** Taking an order to "finished".  For an order that is not finished,
    with lines of quantities that are not negative and stocks that are
    not negative, the update of the status to "finished" goes through
    exactly when every hardware item holds the total its tracked lines
    ask of it: the lines are checked one after the other against what
    the earlier ones left, so two lines of 2 are refused by a stock of 3.
    A refusal is the 400 that names an item, what is available and what
    is required, and it leaves every stock as it was. *)
Theorem update_order_finish_iff db order_id order :
  orders db !! order_id = Some order →
  Order.status order ≠ O_finished →
  Forall (λ oh, 0 ≤ OrderHardware.quantity oh) (Order.order_hardware order) →
  (∀ h item, hardware_items db !! h = Some item →
             0 ≤ HardwareItem.quantity_in_stock item) →
  ((∃ order' db',
      update_order order_id (order_status_update O_finished) db
      = Ok (order', db'))
   ↔ ∀ h item, hardware_items db !! h = Some item →
               tracked_quantity (Order.order_hardware order) h
               ≤ HardwareItem.quantity_in_stock item)
  ∧ (∀ e, update_order order_id (order_status_update O_finished) db = Err e →
          (∃ name available required,
             e = HTTPException 400 (InsufficientStock name available required)
             ∧ available < required)
          ∧ hardware_items
              (request (update_order order_id (order_status_update O_finished))
                 db)
            = hardware_items db).
Proof.
  intros Horder Hstatus Hq Hstock.
  assert (update_order order_id (order_status_update O_finished) db
          = match deduct_order_hardware (Order.order_hardware order)
                    (with_orders (alter (Order.set_status O_finished) order_id)
                       db) with
            | Ok (_, db') =>
                match orders db' !! order_id with
                | Some order' => Ok (order', db')
                | None => Err (HTTPException 404 OrderNotFound)
                end
            | Err e => Err e
            end) as Hrun.
  { unfold update_order, order_status_update. simpl.
    rewrite Horder. simpl. rewrite lookup_alter_eq, Horder. simpl.
    change (bool_decide (is_Some None)) with false.
    unfold needs_deduct. rewrite bool_decide_eq_true_2 by done.
    rewrite (bool_decide_eq_true_2 _ Hstatus). simpl.
    destruct (deduct_order_hardware _ _) as [[[] db']|e]; [|done].
    by destruct (orders db' !! order_id). }
  split; [split|].
  - intros (order' & db' & Hok). rewrite Hrun in Hok.
    destruct (deduct_order_hardware _ _) as [[[] db1]|e] eqn:Hdeduct; [|done].
    exact (deduct_order_hardware_enough _
             (with_orders (alter (Order.set_status O_finished) order_id) db)
             _ Hstock Hdeduct).
  - intros Henough.
    apply (update_order_status_ok _ _ _ _ Horder). by intros _.
  - intros e He. split.
    + rewrite Hrun in He.
      destruct (deduct_order_hardware _ _) as [[[] db1]|e'] eqn:Hdeduct.
      * rewrite (deduct_order_hardware_inv _ _ _ Hdeduct) in He.
        simpl in He. by rewrite lookup_alter_eq, Horder in He.
      * injection He as <-. by eapply deduct_order_hardware_error.
    + unfold request. by rewrite He.
Qed.

Lemma update_order_finish_iff_witness :
  let db :=
    with_orders (insert 4
      (Order.mk None None O_printed None None None []
         [OrderHardware.mk (Some 1) 2 (Some (double (1 # 10)))
            (Some "M3 screw"%string) false None None;
          OrderHardware.mk (Some 1) 2 (Some (double (1 # 10)))
            (Some "M3 screw"%string) false None None]))
      (one_item_db 3) in
  ∃ name available required,
    update_order 4 (order_status_update O_finished) db
    = Err (HTTPException 400 (InsufficientStock name available required))
    ∧ available < required.
Proof.
  intros db.
  assert (∃ e, update_order 4 (order_status_update O_finished) db = Err e)
    as [e He] by (eexists; vm_compute; reflexivity).
  destruct (update_order_finish_iff db 4
              (Order.mk None None O_printed None None None []
                 [OrderHardware.mk (Some 1) 2 (Some (double (1 # 10)))
                    (Some "M3 screw"%string) false None None;
                  OrderHardware.mk (Some 1) 2 (Some (double (1 # 10)))
                    (Some "M3 screw"%string) false None None]))
    as [_ Hrefused].
  - reflexivity.
  - done.
  - repeat constructor; simpl; lia.
  - intros h item Hitem.
    destruct (decide (h = 1)) as [->|Hne].
    + vm_compute in Hitem. injection Hitem as <-. by vm_compute.
    + unfold db, one_item_db in Hitem. simpl in Hitem.
      by rewrite lookup_insert_ne in Hitem.
  - destruct (Hrefused e He) as [(name & available & required & -> & Hless) _].
    by exists name, available, required.
Defined.

(** Deleting an order.  An order that does not exist gives 404; any
    other deletion goes through.  It removes the order.  Every hardware
    item gets back the total of the tracked lines of the order when the
    order was "finished", and keeps its stock otherwise: whether stock
    comes back depends on the status alone.  The print jobs that
    belonged to the order stay, without their order. *)
Theorem delete_order_outcome db order_id :
  (orders db !! order_id = None →
   delete_order order_id db = Err (HTTPException 404 OrderNotFound))
  ∧ (∀ order,
       orders db !! order_id = Some order →
       ∃ db',
         delete_order order_id db = Ok (tt, db')
         ∧ orders db' = delete order_id (orders db)
         ∧ (∀ h item,
              hardware_items db !! h = Some item →
              hardware_stock db' h
              = Some (HardwareItem.quantity_in_stock item
                      + (if bool_decide (Order.status order = O_finished)
                         then tracked_quantity (Order.order_hardware order) h
                         else 0)))
         ∧ (∀ job_id,
              print_jobs db' !! job_id
              = (λ job, if bool_decide (PrintJob.order_id job = Some order_id)
                        then PrintJob.set_order_id None job else job)
                  <$> print_jobs db !! job_id)
         ∧ products_on_hand db' = products_on_hand db).
Proof.
  split.
  - intros Horder. unfold delete_order. simpl. by rewrite Horder.
  - intros order Horder. unfold delete_order. simpl. rewrite Horder. simpl.
    destruct (bool_decide (Order.status order = O_finished)); simpl.
    + rewrite restore_order_hardware_run.
      cbn [bind update ret]. eexists. split; [reflexivity|].
      cbn [orders hardware_items print_jobs products_on_hand with_orders
           with_hardware_items with_print_jobs].
      split; [done|]. split; [|split; [|done]].
      * intros h item Hitem. unfold hardware_stock.
        cbn [hardware_items with_print_jobs with_orders with_hardware_items].
        rewrite move_order_hardware_lookup, Hitem. simpl. f_equal. lia.
      * intros job_id. by rewrite lookup_fmap.
    + eexists. split; [reflexivity|]. simpl.
      split; [done|]. split; [|split; [|done]].
      * intros h item Hitem. unfold hardware_stock.
        cbn [hardware_items with_print_jobs with_orders].
        rewrite Hitem. simpl. f_equal. lia.
      * intros job_id. by rewrite lookup_fmap.
Qed.

(** ** The print job of an order *)

Lemma positive_usages_cons_pos spool_id grams usages :
  (0 < grams)%Qc →
  positive_usages ((spool_id, grams) :: usages)
  = (spool_id, grams) :: positive_usages usages.
Proof. intros Hpos. unfold positive_usages. by rewrite filter_cons_True. Qed.

Lemma positive_usages_cons_neg spool_id grams usages :
  ¬ (0 < grams)%Qc →
  positive_usages ((spool_id, grams) :: usages) = positive_usages usages.
Proof. intros Hneg. unfold positive_usages. by rewrite filter_cons_False. Qed.

Lemma positive_usages_all usages :
  Forall (λ u : Z * Qc, (0 < u.2)%Qc) usages → positive_usages usages = usages.
Proof.
  unfold positive_usages. induction 1 as [|u usages Hu _ IH]; [done|].
  by rewrite filter_cons_True, IH.
Qed.

(** The loop that copies the spool rows of an order to the print job and
    deducts them. *)
Lemma order_spools_to_print_job_run job_id prevent order_spools db :
  for_each order_spools (λ os,
    modify_print_job job_id (PrintJob.add_print_job_spool
      (PrintJobSpool.mk (OrderSpool.spool_id os)
         (OrderSpool.filament_grams os) (OrderSpool.position os)));;
    spool ← first spools (OrderSpool.spool_id os);
    when (bool_decide (is_Some spool)
          && bool_decide (0 < OrderSpool.filament_grams os)%Qc)
      (_deduct_spool (OrderSpool.spool_id os)
         (OrderSpool.filament_grams os) prevent)) db
  = Ok (tt,
        mkDB (app_settings db)
          (deduct_all prevent
             (positive_usages
                (map (λ os, (OrderSpool.spool_id os,
                             OrderSpool.filament_grams os)) order_spools))
             (spools db))
          (hardware_items db) (projects db)
          (foldl (λ table os, alter (PrintJob.add_print_job_spool
                    (PrintJobSpool.mk (OrderSpool.spool_id os)
                       (OrderSpool.filament_grams os)
                       (OrderSpool.position os))) job_id table)
                 (print_jobs db) order_spools)
          (orders db) (products_on_hand db)).
Proof.
  revert db. induction order_spools as [|os l IH]; intros db.
  - simpl. by destruct db.
  - cbn [for_each map]. unfold bind at 1. simpl.
    destruct (decide (0 < OrderSpool.filament_grams os)%Qc) as [Hpos|Hneg].
    + rewrite positive_usages_cons_pos by done.
      rewrite (bool_decide_eq_true_2 _ Hpos), andb_true_r.
      destruct (spools db !! OrderSpool.spool_id os) eqn:Hspool; simpl.
      * rewrite _deduct_spool_run, IH. reflexivity.
      * rewrite IH. simpl. unfold deduct_all. simpl.
        by rewrite (alter_missing _ (spools db)).
    + rewrite positive_usages_cons_neg by done.
      rewrite (bool_decide_eq_false_2 _ Hneg), andb_false_r. simpl.
      rewrite IH. reflexivity.
Qed.

Lemma loaded_order_spools_positive order :
  Forall (λ os, (0 < OrderSpool.filament_grams os)%Qc) (Order.order_spools order) →
  Forall (λ os, (0 < OrderSpool.filament_grams os)%Qc) (loaded_order_spools order).
Proof.
  intros Hpos. unfold loaded_order_spools.
  by rewrite merge_sort_Permutation.
Qed.


(** The request that is not refused before validation: the verdict on
    the usages that take something decides, and the state after a print
    job was made is known in full. *)
Lemma create_print_job_from_order_run db order_id force order project :
  orders db !! order_id = Some order →
  truthy (Order.project_id order) = true →
  order_project db order = Some project →
  Forall (λ os, (0 < OrderSpool.filament_grams os)%Qc)
         (Order.order_spools order) →
  order_usages order project ≠ [] →
  let usages := positive_usages (order_usages order project) in
  if negb force && negb (SpoolValidationResult.is_valid (validation_of db usages))
  then create_print_job_from_order order_id force db
       = Err (HTTPException 422 (SpoolShortageDetail (validation_of db usages)))
  else create_print_job_from_order order_id force db
       = Ok (next_id (print_jobs db),
             mkDB (app_settings db)
               (deduct_all (settings_prevent (app_settings db)) usages
                  (spools db))
               (hardware_items db) (projects db)
               (<[next_id (print_jobs db)
                  := print_job_of_order order_id order project]>
                  (print_jobs db))
               (orders db) (products_on_hand db)).
Proof.
  intros Horder Hpid Hproject Hpos.
  unfold create_print_job_from_order, _load_order.
  cbn [bind first query or_raise ret]. rewrite Horder.
  cbn [bind first query or_raise ret]. rewrite Hpid.
  unfold order_project in Hproject.
  unfold order_usages, print_job_of_order.
  apply loaded_order_spools_positive in Hpos.
  destruct (loaded_order_spools order) as [|os rows] eqn:Hrows.
  2: cbv beta match; remember (os :: rows) as order_spools eqn:Hlist in *.
  all: simpl; rewrite Hproject; simpl.
  - (* the single spool *)
    destruct (Order.spool_id order) as [order_spool_id|]; [|done].
    destruct (negb (order_spool_id =? 0)); [|done].
    intros _. simpl.
    set (grams := or_zero (Project.filament_grams project)).
    destruct (decide (0 < grams)%Qc) as [Hgrams|Hgrams].
    + rewrite positive_usages_cons_pos by done.
      change (positive_usages []) with (@nil (Z * Qc)).
      rewrite (bool_decide_eq_true_2 _ Hgrams).
      assert (bool_decide (grams ≠ 0%Qc) = true) as ->.
      { apply bool_decide_eq_true. intros Hzero. rewrite Hzero in Hgrams.
        by apply Qclt_not_le in Hgrams. }
      destruct force; simpl.
      * destruct (spools db !! order_spool_id) eqn:Hspool; simpl.
        -- rewrite _deduct_spool_run. by destruct db.
        -- rewrite (alter_missing _ (spools db)) by done. by destruct db.
      * rewrite validate_spool_inventory_run.
        destruct (SpoolValidationResult.is_valid _); simpl; [|done].
        destruct (spools db !! order_spool_id) eqn:Hspool; simpl.
        -- rewrite _deduct_spool_run. by destruct db.
        -- rewrite (alter_missing _ (spools db)) by done. by destruct db.
    + rewrite positive_usages_cons_neg by done.
      change (positive_usages []) with (@nil (Z * Qc)).
      rewrite (bool_decide_eq_false_2 _ Hgrams). simpl.
      rewrite andb_false_r.
      assert (SpoolValidationResult.is_valid (validation_of db []) = true)
        as -> by (unfold validation_of; by destruct (settings_prevent _)).
      rewrite andb_false_r. simpl. rewrite andb_false_r. simpl.
      by destruct db.
  - (* the spool rows *)
    intros _.
    rewrite positive_usages_all by (by rewrite Forall_map).
    assert (∀ result,
      match
        for_each order_spools (λ os0,
          modify_print_job (next_id (print_jobs db))
            (PrintJob.add_print_job_spool
               (PrintJobSpool.mk (OrderSpool.spool_id os0)
                  (OrderSpool.filament_grams os0)
                  (OrderSpool.position os0)));;
          spool ← first spools (OrderSpool.spool_id os0);
          when (bool_decide (is_Some spool)
                && bool_decide (0 < OrderSpool.filament_grams os0)%Qc)
            (_deduct_spool (OrderSpool.spool_id os0)
               (OrderSpool.filament_grams os0)
               (settings_prevent (app_settings db))))
          (with_print_jobs
             <[next_id (print_jobs db)
               := PrintJob.mk None None (Some order_id) (Some 0%Qc)
                    PJ_completed []]> db)
      with
      | Ok (_, db') => Ok (result, db')
      | Err e => Err e
      end = Ok (result : Z,
                mkDB (app_settings db)
                  (deduct_all (settings_prevent (app_settings db))
                     (map (λ os0, (OrderSpool.spool_id os0,
                                   OrderSpool.filament_grams os0))
                          order_spools)
                     (spools db))
                  (hardware_items db) (projects db)
                  (<[next_id (print_jobs db)
                     := PrintJob.mk None None (Some order_id) (Some 0%Qc)
                          PJ_completed
                          (map (λ os0,
                                  PrintJobSpool.mk (OrderSpool.spool_id os0)
                                    (OrderSpool.filament_grams os0)
                                    (OrderSpool.position os0)) order_spools)]>
                     (print_jobs db))
                  (orders db) (products_on_hand db))) as Hmade.
    { intros result. rewrite order_spools_to_print_job_run.
      cbn [print_jobs spools orders hardware_items products_on_hand
           with_print_jobs app_settings projects].
      rewrite add_print_job_spools_insert.
      by rewrite positive_usages_all by (by rewrite Forall_map). }
    destruct force; simpl.
    + exact (Hmade _).
    + rewrite validate_spool_inventory_run.
      destruct (SpoolValidationResult.is_valid _); simpl; [|done].
      exact (Hmade _).
Qed.

Lemma create_print_job_from_order_no_project db order_id force order :
  orders db !! order_id = Some order →
  truthy (Order.project_id order) = false →
  create_print_job_from_order order_id force db
  = Err (HTTPException 400 OrderMustHaveProject).
Proof.
  intros Horder Hpid. unfold create_print_job_from_order, _load_order.
  cbn [bind first query or_raise ret]. rewrite Horder.
  cbn [bind first query or_raise ret]. by rewrite Hpid.
Qed.

Lemma create_print_job_from_order_project_gone db order_id force order :
  orders db !! order_id = Some order →
  truthy (Order.project_id order) = true →
  order_project db order = None →
  create_print_job_from_order order_id force db
  = Err (HTTPException 400 ProjectNotFound).
Proof.
  intros Horder Hpid Hproject. unfold create_print_job_from_order, _load_order.
  cbn [bind first query or_raise ret]. rewrite Horder.
  cbn [bind first query or_raise ret]. rewrite Hpid.
  unfold order_project in Hproject. simpl. by rewrite Hproject.
Qed.

Lemma create_print_job_from_order_no_spools db order_id force order project :
  orders db !! order_id = Some order →
  truthy (Order.project_id order) = true →
  order_project db order = Some project →
  order_usages order project = [] →
  create_print_job_from_order order_id force db
  = Err (HTTPException 400 OrderMustHaveSpools).
Proof.
  intros Horder Hpid Hproject Hnone.
  unfold create_print_job_from_order, _load_order.
  cbn [bind first query or_raise ret]. rewrite Horder.
  cbn [bind first query or_raise ret]. rewrite Hpid.
  unfold order_project in Hproject. simpl. rewrite Hproject. simpl.
  unfold order_usages in Hnone.
  destruct (loaded_order_spools order); [|done].
  destruct (Order.spool_id order) as [order_spool_id|]; [|done].
  by destruct (negb (order_spool_id =? 0)).
Qed.

(** A request that made a print job: the order has a project and
    something to print with, and the state after it is known in full. *)
Lemma create_print_job_from_order_made db order_id force order job_id db' :
  orders db !! order_id = Some order →
  Forall (λ os, (0 < OrderSpool.filament_grams os)%Qc)
         (Order.order_spools order) →
  create_print_job_from_order order_id force db
  = Ok (job_id, db') →
  ∃ project,
    order_project db order = Some project
    ∧ order_usages order project ≠ []
    ∧ job_id = next_id (print_jobs db)
    ∧ db' = mkDB (app_settings db)
              (deduct_all (settings_prevent (app_settings db))
                 (positive_usages (order_usages order project)) (spools db))
              (hardware_items db) (projects db)
              (<[next_id (print_jobs db)
                 := print_job_of_order order_id order project]>
                 (print_jobs db))
              (orders db) (products_on_hand db).
Proof.
  intros Horder Hpos Hrun.
  destruct (truthy (Order.project_id order)) eqn:Hpid.
  2:{ by rewrite (create_print_job_from_order_no_project _ _ _ _ Horder Hpid)
        in Hrun. }
  destruct (order_project db order) as [project|] eqn:Hproject.
  2:{ by rewrite (create_print_job_from_order_project_gone _ _ _ _ Horder Hpid
                    Hproject) in Hrun. }
  destruct (decide (order_usages order project = [])) as [Hnone|Hsome].
  { by rewrite (create_print_job_from_order_no_spools _ _ _ _ _ Horder Hpid
                  Hproject Hnone) in Hrun. }
  pose proof (create_print_job_from_order_run db order_id force order project
                Horder Hpid Hproject Hpos Hsome) as Hcase.
  cbv zeta in Hcase. exists project.
  destruct (negb force && negb _); rewrite Hcase in Hrun; [done|].
  by injection Hrun as <- <-.
Qed.

(** ** The print job of an order, deleted again *)

Lemma linked_product_None job_id db :
  (∀ product_id product,
     products_on_hand db !! product_id = Some product →
     ProductOnHand.print_job_id product ≠ job_id) →
  linked_product job_id db = None.
Proof.
  intros Hfree. pose proof (linked_product_spec job_id db) as Hspec.
  destruct (linked_product job_id db) as [linked|]; [|done].
  destruct Hspec as [(product & Hproduct & Hjob) _].
  by destruct (Hfree _ _ Hproduct).
Qed.

(** Making the print job of an order and deleting it again.  The
    deletion goes through, and everything but the spools is as it was
    before the print job was made.  A spool first loses what the order
    takes from it, usage by usage and each with the clamp of
    negative-prevention, then gets back what the rows of the print job
    hold of it, row by row and without a clamp, all in float arithmetic;
    a spool the order does not name is as it was.  The order takes
    positive amounts, and every product refers to a print job that is
    stored. *)
Theorem create_print_job_from_order_then_delete
    db order_id force order job_id db1 :
  orders db !! order_id = Some order →
  Forall (λ os, (0 < OrderSpool.filament_grams os)%Qc)
         (Order.order_spools order) →
  (∀ project, order_project db order = Some project →
     Forall (λ u : Z * Qc, (0 < u.2)%Qc) (order_usages order project)) →
  (∀ product_id product,
     products_on_hand db !! product_id = Some product →
     is_Some (print_jobs db !! ProductOnHand.print_job_id product)) →
  create_print_job_from_order order_id force db = Ok (job_id, db1) →
  ∃ project db2,
    order_project db order = Some project
    ∧ print_jobs db1 !! job_id
      = Some (print_job_of_order order_id order project)
    ∧ delete_print_job job_id db1 = Ok (tt, db2)
    ∧ (app_settings db2, hardware_items db2, projects db2, print_jobs db2,
       orders db2, products_on_hand db2)
      = (app_settings db, hardware_items db, projects db, print_jobs db,
         orders db, products_on_hand db)
    ∧ (∀ spool_id, spools db !! spool_id = None →
                   spools db2 !! spool_id = None)
    ∧ (∀ spool_id spool,
         spools db !! spool_id = Some spool →
         let usages := order_usages order project in
         let given_back :=
           allocations (print_job_of_order order_id order project) in
         let prevent := settings_prevent (app_settings db) in
         spool_remaining db2 spool_id
         = Some (restored
                   (deducted prevent (Spool.remaining_weight_g spool)
                      (amounts_of usages spool_id))
                   (amounts_of given_back spool_id))
         ∧ (spool_id ∉ usages.*1 → spool_id ∉ given_back.*1 →
            spools db2 !! spool_id = Some spool)).
Proof.
  intros Horder Hpos Husages Hlinks Hrun.
  destruct (create_print_job_from_order_made _ _ _ _ _ _ Horder Hpos Hrun)
    as (project & Hproject & Hsome & -> & ->).
  specialize (Husages project Hproject).
  rewrite (positive_usages_all _ Husages).
  set (usages := order_usages order project) in *.
  set (prevent := settings_prevent (app_settings db)).
  set (job_id := next_id (print_jobs db)).
  set (job := print_job_of_order order_id order project).
  set (db1 := mkDB _ _ _ _ _ _ _).
  assert (print_jobs db1 !! job_id = Some job) as Hjob
    by (unfold db1; simpl; by rewrite lookup_insert_eq).
  assert (linked_product job_id db1 = None) as Hlinked.
  { apply linked_product_None. intros product_id product Hproduct Hmade.
    destruct (Hlinks _ _ Hproduct) as [stored Hstored].
    rewrite Hmade in Hstored. unfold job_id in Hstored.
    by rewrite next_id_fresh in Hstored. }
  assert (Forall (λ u : Z * Qc, (0 < u.2)%Qc) (allocations job)) as Hgiven.
  { unfold job, print_job_of_order, allocations, usages, order_usages in *.
    apply loaded_order_spools_positive in Hpos.
    destruct (loaded_order_spools order) as [|os rows] eqn:Hrows.
    - unfold loaded_print_job_spools. simpl.
      destruct (Order.spool_id order) as [order_spool_id|]; [|done].
      simpl. by destruct (negb (order_spool_id =? 0)).
    - remember (os :: rows) as order_spools eqn:Hlist.
      set (job_rows := map _ order_spools).
      assert (Forall (λ pjs, (0 < PrintJobSpool.filament_used_g pjs)%Qc)
                (loaded_print_job_spools
                   (PrintJob.mk None None (Some order_id) (Some 0%Qc)
                      PJ_completed job_rows))) as Hsorted.
      { unfold loaded_print_job_spools. rewrite merge_sort_Permutation.
        cbn [PrintJob.print_job_spools]. unfold job_rows.
        rewrite Forall_map. exact Hpos. }
      destruct (loaded_print_job_spools _) as [|pjs sorted]; [|by rewrite Forall_map].
      constructor. }
  destruct (delete_print_job_ok _ _ _ Hjob Hlinked) as [db2 Hdelete].
  pose proof (delete_print_job_spools_after _ _ _ _ Hdelete Hjob Hgiven)
    as Hspools.
  rewrite bool_decide_eq_true_2 in Hspools
    by (unfold job, print_job_of_order; by destruct (loaded_order_spools order)).
  destruct (delete_print_job_effect _ _ _ Hdelete) as (Hjobs & Hproducts & Horders).
  assert (keeps (λ db, (app_settings db, hardware_items db, projects db))
            (delete_print_job job_id)) as Hkeeps
    by (unfold delete_print_job; keeps_all).
  pose proof (Hkeeps _ _ _ Hdelete) as [= Hsettings Hhardware Hprojects].
  exists project, db2. split; [done|]. split; [done|]. split; [done|].
  split.
  { rewrite Hsettings, Hhardware, Hprojects, Hjobs, Hproducts, Horders.
    unfold db1. simpl. do 3 f_equal.
    rewrite delete_insert_eq. apply delete_id, next_id_fresh. }
  split.
  { intros spool_id Hnone. rewrite Hspools.
    by apply restore_all_lookup_None, deduct_all_lookup_None. }
  intros spool_id spool Hspool usages' given_back prevent'.
  assert (spools db2 !! spool_id
          = Some (Spool.set_remaining_weight_g
                    (restored
                       (deducted prevent (Spool.remaining_weight_g spool)
                          (amounts_of usages spool_id))
                       (amounts_of given_back spool_id)) spool)) as Hafter.
  { rewrite Hspools. unfold db1. cbn [spools].
    by rewrite restore_all_lookup, deduct_all_lookup, Hspool. }
  split.
  - unfold spool_remaining. by rewrite Hafter.
  - intros Hunused Hnone.
    rewrite Hafter, (amounts_of_not_in usages spool_id Hunused),
      (amounts_of_not_in given_back spool_id Hnone). simpl.
    by rewrite set_remaining_weight_g_same.
Qed.

Lemma create_print_job_from_order_then_delete_witness :
  let order :=
    Order.mk (Some 1) None O_ordered None None None
      [OrderSpool.mk 1 (double 30) 1 (double 20)] [] in
  let db :=
    mkDB (Some (default_settings true (double 5)))
      (<[1 := pla_spool (double 100)]> ∅) ∅
      (<[1 := Project.mk (Some (double 30)) None []]> ∅) ∅
      (<[4 := order]> ∅) ∅ in
  ∃ job_id db1 db2,
    create_print_job_from_order 4 false db = Ok (job_id, db1)
    ∧ spool_remaining db1 1 = Some (double 70)
    ∧ delete_print_job job_id db1 = Ok (tt, db2)
    ∧ spool_remaining db2 1 = Some (max0 (double 100 ⊖ double 30) ⊕ double 30)
    ∧ spool_remaining db2 1 = Some (double 100).
Proof.
  intros order db.
  assert (∃ job_id db1,
            create_print_job_from_order 4 false db = Ok (job_id, db1)
            ∧ spool_remaining db1 1 = Some (double 70))
    as (job_id & db1 & Hrun & Hleft).
  { eexists _, _. split; [vm_compute; reflexivity|].
    vm_compute. f_equal; by apply Qc_is_canon. }
  destruct (create_print_job_from_order_then_delete db 4 false order job_id db1)
    as (project & db2 & Hproject & _ & Hdelete & _ & _ & Hspools).
  - reflexivity.
  - repeat constructor.
  - intros project [= <-]. repeat constructor.
  - intros product_id product Hproduct. by vm_compute in Hproduct.
  - exact Hrun.
  - exists job_id, db1, db2. split; [done|]. split; [done|]. split; [done|].
    vm_compute in Hproject. injection Hproject as <-.
    destruct (Hspools 1 (pla_spool (double 100)) eq_refl) as [Hafter _].
    assert (spool_remaining db2 1
            = Some (max0 (double 100 ⊖ double 30) ⊕ double 30)) as Hback
      by exact Hafter.
    split; [done|]. rewrite Hback. f_equal; by apply Qc_is_canon.
Defined.



(** ** Products on hand *)

Ltac create_product_cases db data refused :=
  unfold create_product_on_hand; simpl;
  destruct (print_jobs db !! ProductOnHandCreate.print_job_id data)
    as [job|] eqn:Hjob; simpl; [|by refused];
  destruct (bool_decide (PrintJob.status job = PJ_completed)) eqn:Hcompleted;
    simpl; [|by refused];
  apply bool_decide_eq_true in Hcompleted;
  destruct (truthy (ProductOnHandCreate.project_id data)) eqn:Hpid; simpl;
  [ destruct (ProductOnHandCreate.project_id data ≫= _)
      as [project|] eqn:Hproject; simpl; [|by refused];
    destruct (bool_decide (0 < length (Project.hardware project))%nat)
      eqn:Hhardware; simpl
  | ];
  destruct (ProductOnHandCreate.status data) eqn:Hstatus; simpl;
  destruct (no_location (ProductOnHandCreate.location data)) eqn:Hlocation;
  simpl; try (by refused).

Lemma create_product_on_hand_inv db data product_id product db' :
  create_product_on_hand data db = Ok ((product_id, product), db') →
  (∃ job, print_jobs db !! ProductOnHandCreate.print_job_id data = Some job
          ∧ PrintJob.status job = PJ_completed)
  ∧ (truthy (ProductOnHandCreate.project_id data) = true →
     is_Some (ProductOnHandCreate.project_id data ≫= λ k, projects db !! k))
  ∧ (ProductOnHandCreate.status data = P_printed →
     truthy (ProductOnHandCreate.project_id data) = true
     ∧ ∃ project,
         ProductOnHandCreate.project_id data ≫= (λ k, projects db !! k)
         = Some project
         ∧ Project.hardware project ≠ [])
  ∧ (ProductOnHandCreate.status data = P_completed →
     no_location (ProductOnHandCreate.location data) = false)
  ∧ product_id = next_id (products_on_hand db)
  ∧ product = ProductOnHand.mk (ProductOnHandCreate.project_id data)
                (ProductOnHandCreate.print_job_id data)
                (ProductOnHandCreate.name data)
                (ProductOnHandCreate.status data)
                (ProductOnHandCreate.location data)
                (ProductOnHandCreate.notes data)
  ∧ db' = with_products_on_hand (insert product_id product) db.
Proof.
  create_product_cases db data idtac.
  all: intros [= <- <- <-].
  all: repeat split; try done; try (by eexists).
  all: eexists; split; [done|].
  all: apply bool_decide_eq_true in Hhardware.
  all: by destruct (Project.hardware project); [simpl in Hhardware; lia|].
Qed.


(** A product protects the print job it was made from.  Once
    [create_product_on_hand] has stored a product, deleting its print
    job is refused with status 400, naming a product made from that
    print job; and deleting the product again gives back the state as it
    was before the product was made. *)
Theorem product_protects_print_job db data product_id product db' :
  create_product_on_hand data db = Ok ((product_id, product), db') →
  (∃ linked,
     delete_print_job (ProductOnHand.print_job_id product) db'
     = Err (HTTPException 400 (LinkedToProductOnHand linked))
     ∧ linked ≤ product_id
     ∧ ∃ made, products_on_hand db' !! linked = Some made
               ∧ ProductOnHand.print_job_id made
                 = ProductOnHand.print_job_id product)
  ∧ delete_product_on_hand product_id db' = Ok (tt, db).
Proof.
  intros Hrun.
  apply create_product_on_hand_inv in Hrun
    as ((job & Hjob & Hcompleted) & _ & _ & _ & -> & -> & ->).
  cbn [ProductOnHand.print_job_id]. split.
  - pose proof (linked_product_spec (ProductOnHandCreate.print_job_id data)
                  (with_products_on_hand
                     (insert (next_id (products_on_hand db))
                        (ProductOnHand.mk (ProductOnHandCreate.project_id data)
                           (ProductOnHandCreate.print_job_id data)
                           (ProductOnHandCreate.name data)
                           (ProductOnHandCreate.status data)
                           (ProductOnHandCreate.location data)
                           (ProductOnHandCreate.notes data))) db)) as Hspec.
    unfold delete_print_job. simpl. rewrite Hjob. simpl.
    destruct (linked_product _ _) as [linked|].
    + destruct Hspec as [Hmade Hleast]. exists linked.
      split; [done|]. split; [|done].
      eapply Hleast; [apply lookup_insert_eq|done].
    + exfalso. eapply Hspec; [apply lookup_insert_eq|done].
  - unfold delete_product_on_hand. simpl. rewrite lookup_insert_eq. simpl.
    unfold with_products_on_hand. simpl.
    rewrite delete_insert_eq, delete_id by apply next_id_fresh.
    by destruct db.
Qed.

Lemma product_protects_print_job_witness :
  let db := one_product_db 10 3 P_printed None in
  let data :=
    ProductOnHandCreate.mk (Some 1) 1 "Bracket"%string P_printed None None in
  ∃ product_id product db' linked,
    create_product_on_hand data db = Ok ((product_id, product), db')
    ∧ delete_print_job 1 db'
      = Err (HTTPException 400 (LinkedToProductOnHand linked))
    ∧ delete_product_on_hand product_id db' = Ok (tt, db).
Proof.
  intros db data.
  assert (∃ product_id product db',
            create_product_on_hand data db = Ok ((product_id, product), db')
            ∧ ProductOnHand.print_job_id product = 1)
    as (product_id & product & db' & Hrun & Hjob)
    by (eexists _, _, _; vm_compute; split; reflexivity).
  destruct (product_protects_print_job db data product_id product db' Hrun)
    as [(linked & Hrefused & _) Hback].
  rewrite Hjob in Hrefused. by exists product_id, product, db', linked.
Defined.

(** ** The cost of a product *)

Lemma fold_filament_cost_run (rows : list PrintJobSpool.t) (acc : Qc) db :
  fold_each rows acc (λ filament_cost pjs,
    spool ← first spools (PrintJobSpool.spool_id pjs);
    ret (filament_cost
         ⊕ filament_cost_of spool (PrintJobSpool.filament_used_g pjs))) db
  = Ok (foldl (λ acc pjs,
                 acc ⊕ filament_cost_of
                         (spools db !! PrintJobSpool.spool_id pjs)
                         (PrintJobSpool.filament_used_g pjs)) acc rows, db).
Proof.
  revert acc. induction rows as [|pjs rows IH]; intros acc; [done|].
  cbn [fold_each foldl]. unfold bind at 1. simpl. apply IH.
Qed.

Lemma fold_hardware_cost_run (lines : list ProjectHardware.t) (acc : Qc) db :
  fold_each lines acc (λ hardware_cost ph,
    hardware_item ← hardware_item_of ph;
    ret (hardware_cost
         ⊕ HardwareItem.cost_per_item hardware_item
           ⊗ float_of_int (ProjectHardware.quantity ph))) db
  = if bool_decide
         (Forall (λ ph, is_Some (hardware_items db
                                   !! ProjectHardware.hardware_item_id ph))
                 lines)
    then Ok (foldl (λ acc ph,
                      acc ⊕ from_option HardwareItem.cost_per_item 0%Qc
                              (hardware_items db
                                 !! ProjectHardware.hardware_item_id ph)
                            ⊗ float_of_int (ProjectHardware.quantity ph))
                   acc lines, db)
    else Err AttributeError.
Proof.
  revert acc. induction lines as [|ph lines IH]; intros acc; [done|].
  cbn [fold_each foldl]. unfold bind at 1, hardware_item_of. simpl.
  destruct (hardware_items db !! ProjectHardware.hardware_item_id ph)
    as [item|] eqn:Hitem; simpl.
  - rewrite IH. case_bool_decide as Hrest.
    + rewrite bool_decide_eq_true_2; [done|].
      constructor; [by rewrite Hitem|done].
    + rewrite bool_decide_eq_false_2; [done|].
      by intros [_ ?]%Forall_cons.
  - rewrite bool_decide_eq_false_2; [done|].
    intros [[? Hsome] _]%Forall_cons. congruence.
Qed.

(** [_calculate_product_cost] in closed form. *)
Lemma _calculate_product_cost_run product db :
  _calculate_product_cost product db
  = if bool_decide
         (Forall (λ ph, is_Some (hardware_items db
                                   !! ProjectHardware.hardware_item_id ph))
                 (product_hardware_lines db product))
    then Ok (py_round (product_filament_cost db product
                       ⊕ product_hardware_cost db product) 2, db)
    else Err AttributeError.
Proof.
  unfold _calculate_product_cost, product_filament_cost, product_hardware_cost,
    product_hardware_lines, product_project, total_of.
  unfold bind at 1. unfold first at 1, query at 1.
  destruct (print_jobs db !! ProductOnHand.print_job_id product)
    as [print_job|].
  - destruct (loaded_print_job_spools print_job) as [|pjs rows] eqn:Hrows.
    + unfold bind at 1. unfold bind at 1. unfold first_opt at 1, query at 1.
      destruct (bool_decide (is_Some _) && nonzero _); unfold ret at 1.
      all: unfold bind at 1; unfold first_opt at 1, query at 1.
      all: destruct (ProductOnHand.project_id product ≫= _) as [project|];
        simpl; [unfold bind at 1; rewrite fold_hardware_cost_run;
                by case_bool_decide|done].
    + unfold bind at 1. rewrite fold_filament_cost_run.
      unfold bind at 1; unfold first_opt at 1, query at 1.
      destruct (ProductOnHand.project_id product ≫= _) as [project|];
        simpl; [unfold bind at 1; rewrite fold_hardware_cost_run;
                by case_bool_decide|done].
  - unfold bind at 1. unfold ret at 1.
    unfold bind at 1; unfold first_opt at 1, query at 1.
    destruct (ProductOnHand.project_id product ≫= _) as [project|];
      simpl; [unfold bind at 1; rewrite fold_hardware_cost_run;
              by case_bool_decide|done].
Qed.

Lemma total_of_ext {A} (f g : A → Qc) (xs : list A) :
  (∀ x, f x = g x) → total_of f xs = total_of g xs.
Proof.
  intros Hsame. unfold total_of. generalize 0%Qc.
  induction xs as [|x xs IH]; intros acc; [done|].
  simpl. by rewrite Hsame, IH.
Qed.

Lemma update_product_on_hand_keys db id data product product' db' :
  products_on_hand db !! id = Some product →
  update_product_on_hand id data db = Ok (product', db') →
  ProductOnHand.print_job_id product' = ProductOnHand.print_job_id product
  ∧ ProductOnHand.project_id product' = ProductOnHand.project_id product
  ∧ print_jobs db' = print_jobs db
  ∧ projects db' = projects db
  ∧ spools db' = spools db.
Proof.
  intros Hproduct Hrun.
  assert (keeps (λ db, (print_jobs db, projects db, spools db))
            (update_product_on_hand id data)) as Hkeeps
    by (unfold update_product_on_hand; keeps_all).
  pose proof (Hkeeps _ _ _ Hrun) as [= Hjobs Hprojects Hspools].
  split; [|split]; [| |done].
  all: unfold update_product_on_hand in Hrun.
  all: inv_bind Hrun; simpl in Hstep; injection Hstep as <- <-.
  all: rewrite Hproduct in Hrun.
  all: inv_bind Hrun; simpl in Hstep; injection Hstep as <- <-.
  all: inv_bind Hrun.
  all: frame_of Hstep products_on_hand
         ltac:(keeps_auto;
               [apply keeps_check_project_hardware
               |unfold deduct_project_hardware_line; keeps_auto;
                apply keeps_hardware_item_of]).
  all: simpl in Hrun.
  all: rewrite lookup_alter_eq, Hstep, Hproduct in Hrun; simpl in Hrun.
  all: injection Hrun as <- <-.
  all: by destruct (ProductOnHandUpdate.status data),
         (ProductOnHandUpdate.location data), (ProductOnHandUpdate.notes data),
         (ProductOnHandUpdate.name data).
Qed.

Lemma updated_hardware_lookup db id data product product' db' h :
  products_on_hand db !! id = Some product →
  update_product_on_hand id data db = Ok (product', db') →
  ∃ delta, hardware_items db' !! h = move_stock delta <$> hardware_items db !! h.
Proof.
  intros Hproduct Hrun.
  rewrite (update_product_on_hand_effect _ _ _ _ _ _ Hproduct Hrun).
  destruct (completes product data && truthy _);
    [destruct (product_project db product) as [project|]|].
  - eexists. apply deduct_project_hardware_lookup.
  - exists 0. destruct (hardware_items db !! h); simpl; [|done].
    by rewrite move_stock_0.
  - exists 0. destruct (hardware_items db !! h); simpl; [|done].
    by rewrite move_stock_0.
Qed.

(** What [_calculate_product_cost] answers.  It writes nothing.  When
    every hardware line of the project of the product names an item that
    is stored, the answer is the filament of the print job priced by its
    spools plus the hardware priced by the cost per item, added up in
    floats and rounded to two decimals; a product without a project, or
    whose project is gone, has no hardware lines.  A line whose hardware
    item is gone makes it fail with an [AttributeError]. *)
Theorem calculate_product_cost_outcome db product :
  (Forall (λ ph, is_Some (hardware_items db
                            !! ProjectHardware.hardware_item_id ph))
          (product_hardware_lines db product) →
   _calculate_product_cost product db
   = Ok (py_round (product_filament_cost db product
                   ⊕ product_hardware_cost db product) 2, db))
  ∧ (Exists (λ ph, hardware_items db !! ProjectHardware.hardware_item_id ph
                   = None)
            (product_hardware_lines db product) →
     _calculate_product_cost product db = Err AttributeError)
  ∧ (product_project db product = None →
     product_hardware_lines db product = []
     ∧ product_hardware_cost db product = 0%Qc).
Proof.
  rewrite _calculate_product_cost_run. split; [|split].
  - intros Hall. by rewrite bool_decide_eq_true_2.
  - intros Hmissing. rewrite bool_decide_eq_false_2; [done|].
    intros Hall. apply Exists_exists in Hmissing as (ph & Hin & Hnone).
    rewrite Forall_forall in Hall. destruct (Hall _ Hin) as [? Hsome].
    congruence.
  - intros Hnone. unfold product_hardware_cost, product_hardware_lines.
    by rewrite Hnone.
Qed.

Lemma calculate_product_cost_outcome_witness :
  let db := one_product_db 10 3 P_printed None in
  _calculate_product_cost (bracket P_printed) db
  = Ok (py_round (0 ⊕ (0 ⊕ double (1 # 10) ⊗ float_of_int 3)) 2, db)
  ∧ py_round (0 ⊕ (0 ⊕ double (1 # 10) ⊗ float_of_int 3)) 2
    = double (3 # 10).
Proof.
  intros db. split; [|by apply Qc_is_canon].
  rewrite (proj1 (calculate_product_cost_outcome db (bracket P_printed))).
  - do 2 f_equal; by apply Qc_is_canon.
  - repeat constructor. by eexists.
Defined.

(** An update of a product does not change what the product costs.  The
    cost is made of prices, and an update changes no price: completing a
    product takes its hardware out of stock, but the cost per item, the
    spools and the print job are as they were, so the cost computed
    after the update is the cost computed before it, and it fails after
    exactly when it failed before. *)
Theorem product_cost_survives_update db id data product product' db' :
  products_on_hand db !! id = Some product →
  update_product_on_hand id data db = Ok (product', db') →
  _calculate_product_cost product' db'
  = match _calculate_product_cost product db with
    | Ok (cost, _) => Ok (cost, db')
    | Err e => Err e
    end.
Proof.
  intros Hproduct Hrun.
  destruct (update_product_on_hand_keys _ _ _ _ _ _ Hproduct Hrun)
    as (Hjob & Hpid & Hjobs & Hprojects & Hspools).
  pose proof (λ h, updated_hardware_lookup _ _ _ _ _ _ h Hproduct Hrun)
    as Hitems.
  rewrite !_calculate_product_cost_run.
  assert (product_hardware_lines db' product'
          = product_hardware_lines db product) as Hlines.
  { unfold product_hardware_lines, product_project.
    by rewrite Hpid, Hprojects. }
  assert (product_filament_cost db' product'
          = product_filament_cost db product) as Hfilament.
  { unfold product_filament_cost. by rewrite Hjob, Hjobs, Hspools. }
  assert (product_hardware_cost db' product'
          = product_hardware_cost db product) as Hhardware.
  { unfold product_hardware_cost. rewrite Hlines.
    apply total_of_ext. intros ph.
    destruct (Hitems (ProjectHardware.hardware_item_id ph)) as [delta ->].
    by destruct (hardware_items db !! ProjectHardware.hardware_item_id ph). }
  rewrite Hlines, Hfilament, Hhardware.
  assert (Forall (λ ph, is_Some (hardware_items db'
                                   !! ProjectHardware.hardware_item_id ph))
                 (product_hardware_lines db product)
          ↔ Forall (λ ph, is_Some (hardware_items db
                                     !! ProjectHardware.hardware_item_id ph))
                   (product_hardware_lines db product)) as Hsame.
  { apply Forall_iff. intros ph.
    destruct (Hitems (ProjectHardware.hardware_item_id ph)) as [delta ->].
    by rewrite fmap_is_Some. }
  case_bool_decide as Hall.
  - rewrite bool_decide_eq_true_2; [done|]. by apply Hsame.
  - rewrite bool_decide_eq_false_2; [done|]. by rewrite <- Hsame.
Qed.

Lemma product_cost_survives_update_witness :
  let db := one_product_db 10 3 P_printed None in
  ∃ product' db' cost,
    update_product_on_hand 1 mark_completed db = Ok (product', db')
    ∧ hardware_stock db' 1 = Some 7
    ∧ _calculate_product_cost (bracket P_printed) db = Ok (cost, db)
    ∧ _calculate_product_cost product' db' = Ok (cost, db').
Proof.
  intros db.
  assert (∃ product' db',
            update_product_on_hand 1 mark_completed db = Ok (product', db')
            ∧ hardware_stock db' 1 = Some 7)
    as (product' & db' & Hrun & Hstock)
    by (eexists _, _; vm_compute; split; reflexivity).
  assert (∃ cost, _calculate_product_cost (bracket P_printed) db
                  = Ok (cost, db)) as [cost Hcost].
  { rewrite _calculate_product_cost_run. eexists.
    rewrite bool_decide_eq_true_2; [done|]. repeat constructor. by eexists. }
  exists product', db', cost. split; [done|]. split; [done|]. split; [done|].
  rewrite (product_cost_survives_update db 1 mark_completed
             (bracket P_printed) product' db' eq_refl Hrun).
  by rewrite Hcost.
Defined.

(** ** Repeating an update of an order *)

(** An update of the status alone that went through can be repeated:
    the second request goes through, returns the same order and leaves
    the state as the first left it.  In particular an order that was
    set to "finished" is not charged its hardware a second time. *)
Theorem update_order_status_idempotent db order_id status order' db' :
  update_order order_id (order_status_update status) db = Ok (order', db') →
  update_order order_id (order_status_update status) db' = Ok (order', db').
Proof.
  intros Hrun.
  assert (∃ order, orders db !! order_id = Some order) as [order Horder].
  { unfold update_order in Hrun. inv_bind Hrun. simpl in Hstep.
    injection Hstep as <- <-.
    destruct (orders db !! order_id) as [order|]; [by eexists|done]. }
  destruct (update_order_effect _ _ _ _ _ _ Horder Hrun)
    as (Hstored & Hstatus & _).
  simpl in Hstatus.
  unfold update_order, order_status_update. simpl.
  rewrite Hstored. simpl. rewrite lookup_alter_eq, Hstored. simpl.
  change (bool_decide (is_Some None)) with false.
  assert (Order.set_status status order' = order') as Hsame
    by (rewrite <- Hstatus; by destruct order').
  assert (with_orders (alter (Order.set_status status) order_id) db' = db')
    as Hdb.
  { destruct db'. unfold with_orders. simpl in *. f_equal.
    apply map_eq. intros k. destruct (decide (k = order_id)) as [->|Hne].
    - rewrite lookup_alter_eq, Hstored. simpl. by rewrite Hsame.
    - by rewrite lookup_alter_ne. }
  assert (needs_deduct (Order.status order') status false = false) as ->.
  { rewrite Hstatus. unfold needs_deduct.
    destruct status; by vm_compute. }
  assert (needs_restore (Order.status order') status false = false) as ->.
  { rewrite Hstatus. unfold needs_restore.
    destruct status; by vm_compute. }
  simpl. rewrite lookup_alter_eq, Hstored. simpl.
  rewrite Hsame. f_equal. f_equal. exact Hdb.
Qed.

Lemma update_order_status_idempotent_witness :
  let db :=
    with_orders (insert 4
      (Order.mk None None O_printed None None None []
         [OrderHardware.mk (Some 1) 3 (Some (double (1 # 10)))
            (Some "M3 screw"%string) false None None]))
      (one_item_db 10) in
  ∃ order' db',
    update_order 4 (order_status_update O_finished) db = Ok (order', db')
    ∧ hardware_stock db' 1 = Some 7
    ∧ update_order 4 (order_status_update O_finished) db' = Ok (order', db').
Proof.
  intros db.
  assert (∃ order' db',
            update_order 4 (order_status_update O_finished) db
            = Ok (order', db')
            ∧ hardware_stock db' 1 = Some 7)
    as (order' & db' & Hrun & Hstock)
    by (eexists _, _; vm_compute; split; reflexivity).
  exists order', db'. split; [done|]. split; [done|].
  by apply (update_order_status_idempotent db).
Defined.

(** ** Finishing an order and deleting it *)

Lemma move_order_hardware_back lines table :
  move_order_hardware 1 lines (move_order_hardware (-1) lines table) = table.
Proof.
  apply map_eq. intros h. rewrite !move_order_hardware_lookup.
  destruct (table !! h) as [item|]; simpl; [|done].
  rewrite move_stock_move_stock. f_equal.
  replace (-1 * tracked_quantity lines h + 1 * tracked_quantity lines h)
    with 0 by lia.
  apply move_stock_0.
Qed.

(** The hardware of an order is conserved.  When an order that was not
    "finished" is set to "finished" and then deleted, the deletion goes
    through and ends in the state that deleting the order right away
    would have given: the stock that finishing took is back in full,
    item by item. *)
Theorem finish_then_delete_order db order_id order order' db' :
  orders db !! order_id = Some order →
  Order.status order ≠ O_finished →
  update_order order_id (order_status_update O_finished) db
  = Ok (order', db') →
  ∃ db'',
    delete_order order_id db' = Ok (tt, db'')
    ∧ delete_order order_id db = Ok (tt, db'')
    ∧ hardware_items db'' = hardware_items db.
Proof.
  intros Horder Hstatus Hrun.
  unfold update_order, order_status_update in Hrun. simpl in Hrun.
  rewrite Horder in Hrun. simpl in Hrun.
  rewrite lookup_alter_eq, Horder in Hrun. simpl in Hrun.
  change (bool_decide (is_Some None)) with false in Hrun.
  assert (needs_deduct (Order.status order) O_finished false = true) as Hdeduct.
  { unfold needs_deduct. rewrite bool_decide_eq_true_2 by done.
    by rewrite (bool_decide_eq_true_2 _ Hstatus). }
  rewrite Hdeduct in Hrun.
  destruct (deduct_order_hardware _ _) as [[[] db1]|e] eqn:Hstep; [|done].
  apply deduct_order_hardware_inv in Hstep as ->.
  simpl in Hrun. rewrite lookup_alter_eq, Horder in Hrun. simpl in Hrun.
  injection Hrun as <- <-.
  unfold delete_order. simpl. rewrite lookup_alter_eq, Horder. simpl.
  rewrite restore_order_hardware_run. simpl.
  rewrite (bool_decide_eq_false_2 _ Hstatus). simpl.
  eexists. split; [reflexivity|].
  unfold with_hardware_items, with_orders, with_print_jobs. simpl.
  rewrite move_order_hardware_back, delete_alter_eq.
  split; [reflexivity|done].
Qed.

Lemma finish_then_delete_order_witness :
  let order :=
    Order.mk None None O_printed None None None []
      [OrderHardware.mk (Some 1) 3 (Some (double (1 # 10)))
         (Some "M3 screw"%string) false None None] in
  let db := with_orders (insert 4 order) (one_item_db 10) in
  ∃ order' db' db'',
    update_order 4 (order_status_update O_finished) db = Ok (order', db')
    ∧ hardware_stock db' 1 = Some 7
    ∧ delete_order 4 db' = Ok (tt, db'')
    ∧ hardware_stock db'' 1 = Some 10.
Proof.
  intros order db.
  assert (∃ order' db',
            update_order 4 (order_status_update O_finished) db
            = Ok (order', db')
            ∧ hardware_stock db' 1 = Some 7)
    as (order' & db' & Hrun & Hstock)
    by (eexists _, _; vm_compute; split; reflexivity).
  destruct (finish_then_delete_order db 4 order order' db')
    as (db'' & Hdelete & _ & Hhardware); [done|done|done|].
  exists order', db', db''. split; [done|]. split; [done|]. split; [done|].
  unfold hardware_stock. by rewrite Hhardware.
Defined.
(** ** Negative-prevention as an invariant *)

Lemma deducted_nonneg (remaining : Qc) amounts :
  (0 ≤ remaining)%Qc → (0 ≤ deducted true remaining amounts)%Qc.
Proof.
  revert remaining. induction amounts as [|grams amounts IH];
    intros remaining Hheld; [done|].
  simpl. apply IH, max0_ge_0.
Qed.

Lemma amounts_of_Forall (P : Qc → Prop) usages spool_id :
  Forall (λ u : Z * Qc, P u.2) usages → Forall P (amounts_of usages spool_id).
Proof.
  induction 1 as [|[s g] usages Hg _ IH]; [constructor|].
  rewrite amounts_of_cons. case_bool_decide; [by constructor | done].
Qed.

Lemma restored_nonneg (remaining : Qc) amounts :
  (0 ≤ remaining)%Qc → Forall (λ grams, (0 ≤ grams)%Qc) amounts →
  (0 ≤ restored remaining amounts)%Qc.
Proof.
  intros Hheld Hamounts. revert remaining Hheld.
  induction Hamounts as [|grams amounts Hgrams _ IH];
    intros remaining Hheld; [done|].
  simpl. apply IH, fl_nonneg. qc_lra.
Qed.

Lemma deduct_all_no_negative usages table :
  (∀ spool_id spool, table !! spool_id = Some spool →
                     (0 ≤ Spool.remaining_weight_g spool)%Qc) →
  ∀ spool_id spool,
    deduct_all true usages table !! spool_id = Some spool →
    (0 ≤ Spool.remaining_weight_g spool)%Qc.
Proof.
  intros Htable spool_id spool. rewrite deduct_all_lookup.
  destruct (table !! spool_id) as [before|] eqn:Hbefore; [|done].
  intros [= <-]. simpl. apply deducted_nonneg. by eapply Htable.
Qed.

Lemma restore_all_no_negative usages table :
  Forall (λ u : Z * Qc, (0 ≤ u.2)%Qc) usages →
  (∀ spool_id spool, table !! spool_id = Some spool →
                     (0 ≤ Spool.remaining_weight_g spool)%Qc) →
  ∀ spool_id spool,
    restore_all usages table !! spool_id = Some spool →
    (0 ≤ Spool.remaining_weight_g spool)%Qc.
Proof.
  intros Hnonneg Htable spool_id spool. rewrite restore_all_lookup.
  destruct (table !! spool_id) as [before|] eqn:Hbefore; [|done].
  intros [= <-]. simpl. apply restored_nonneg; [by eapply Htable|].
  by apply (amounts_of_Forall (λ grams, (0 ≤ grams)%Qc)).
Qed.

(** With negative-prevention on, no request on the print jobs makes a
    spool negative.  From a state in which no spool holds a negative
    weight, creating a print job, making the print job of an order and
    deleting a print job each end, when they go through, in a state in
    which no spool holds a negative weight, forced or not. *)
Theorem negative_prevention_invariant db :
  settings_prevent (app_settings db) = true →
  no_negative_spool db →
  (∀ data job_id job db',
     Forall (λ u : Z * Qc, (0 < u.2)%Qc) (requested_allocations data) →
     create_print_job data db = Ok ((job_id, job), db') →
     no_negative_spool db')
  ∧ (∀ order_id force order job_id db',
       orders db !! order_id = Some order →
       Forall (λ os, (0 < OrderSpool.filament_grams os)%Qc)
              (Order.order_spools order) →
       create_print_job_from_order order_id force db
       = Ok (job_id, db') →
       no_negative_spool db')
  ∧ (∀ job_id job db',
       print_jobs db !! job_id = Some job →
       Forall (λ u : Z * Qc, (0 < u.2)%Qc) (allocations job) →
       delete_print_job job_id db = Ok (tt, db') →
       no_negative_spool db').
Proof.
  intros Hprevent Hheld. split; [|split].
  - intros data job_id job db' Hpos Hrun spool_id spool.
    rewrite (create_print_job_spools_after _ _ _ _ _ Hrun Hpos), Hprevent.
    case_bool_decide; [|apply Hheld].
    by apply deduct_all_no_negative.
  - intros order_id force order job_id db' Horder Hpos Hrun spool_id spool.
    destruct (create_print_job_from_order_made _ _ _ _ _ _ Horder Hpos Hrun)
      as (project & _ & _ & _ & ->).
    cbn [spools]. rewrite Hprevent.
    by apply deduct_all_no_negative.
  - intros job_id job db' Hjob Hnonneg Hrun spool_id spool.
    rewrite (delete_print_job_spools_after _ _ _ _ Hrun Hjob Hnonneg).
    case_bool_decide; [|apply Hheld].
    apply restore_all_no_negative; [|done].
    eapply Forall_impl; [exact Hnonneg|]. intros u Hu. by apply Qclt_le_weak.
Qed.

Lemma negative_prevention_invariant_witness :
  let db := one_spool_db true (double 5) (double 100) in
  let data :=
    PrintJobCreate.mk (Some 1) (Some (double 130)) None None None
      PJ_completed true in
  ∃ job_id job db',
    create_print_job data db = Ok ((job_id, job), db')
    ∧ spool_remaining db' 1 = Some 0%Qc
    ∧ no_negative_spool db'.
Proof.
  intros db data.
  assert (∃ job_id job db',
            create_print_job data db = Ok ((job_id, job), db')
            ∧ spool_remaining db' 1 = Some 0%Qc)
    as (job_id & job & db' & Hrun & Hleft)
    by (eexists _, _, _; vm_compute; split; reflexivity).
  exists job_id, job, db'. split; [done|]. split; [done|].
  destruct (negative_prevention_invariant db) as [Hcreate _].
  - reflexivity.
  - intros spool_id spool Hspool.
    destruct (decide (spool_id = 1)) as [->|Hne].
    + vm_compute in Hspool. injection Hspool as <-. by vm_compute.
    + unfold db, one_spool_db in Hspool. simpl in Hspool.
      by rewrite lookup_insert_ne in Hspool.
  - apply (Hcreate data job_id job db'); [|done].
    repeat constructor.
Defined.
